(** * Dynamic-threshold hedging backtester: the detection and entry engine

    A shallow embedding of the [Backtester] class (the engine that
    scans a candle series for legend candles and simulates entries) and
    the properties of its scan.

    JavaScript numbers are kept behind the interface [JsNumber]: the
    engine is written once over it, and the statements about its control
    flow and about the prices it stores hold for every implementation of
    the interface, the doubles of the source (instance [JsNumber_float])
    among them. The formulas behind those prices, and the sample runs,
    are stated in exact rational arithmetic (instance [JsNumber_Q]). *)

From Stdlib Require Import List String Ascii ZArith QArith Qabs Qround.
From Stdlib Require Import Lia Bool Arith PeanoNat DecimalString DecimalNat.
From Stdlib Require Import PrimFloat SpecFloat FloatOps Uint63.
Import ListNotations.

Local Close Scope Q_scope.
Local Open Scope string_scope.
Local Open Scope list_scope.
Local Open Scope nat_scope.

(** ** Numbers *)

(** The operations the engine applies to a JavaScript [number]. *)
Class JsNumber (num : Type) : Type := {
  fromZ : Z -> num;                 (* integer literals and counters *)
  nadd : num -> num -> num;         (* a + b *)
  nsub : num -> num -> num;         (* a - b *)
  nmul : num -> num -> num;         (* a * b *)
  ndiv : num -> num -> num;         (* a / b *)
  nabs : num -> num;                (* Math.abs(a) *)
  nge : num -> num -> bool;         (* a >= b *)
  nle : num -> num -> bool;         (* a <= b *)
  toFixed : num -> nat -> string    (* a.toFixed(digits), 0 <= digits <= 100 *)
}.

(** ** Exceptions *)

Inductive res (A : Type) : Type :=
| Ok (a : A)
| Throw (msg : string).

Arguments Ok {A} a.
Arguments Throw {A} msg.

Definition bind {A B : Type} (m : res A) (k : A -> res B) : res B :=
  match m with
  | Ok a => k a
  | Throw msg => Throw msg
  end.

Notation "'let!' x ':=' m 'in' k" := (bind m (fun x => k))
  (at level 10, x name, m at level 100, k at level 200).

Definition symbolInfoNotSet : string := "Symbol info not set".
Definition symbolInfoNotSetBeforeSaving : string :=
  "Symbol info not set before saving results".
Definition undefinedCandle : string :=
  "TypeError: Cannot read properties of undefined".
Definition rangeError : string :=
  "RangeError: toFixed() digits argument must be between 0 and 100".

(** Either of the two errors the engine raises for missing symbol info. *)
Definition isMissingSymbolInfo (msg : string) : bool :=
  String.eqb msg symbolInfoNotSet || String.eqb msg symbolInfoNotSetBeforeSaving.

(** ** Data model (interfaces.ts) *)

Inductive Reason : Type := UpwardThresholdMet | DownwardThresholdMet.
Inductive Side : Type := LONG | SHORT.

Record SymbolInfo : Type := {
  si_symbol : string;
  baseAsset : string;
  quoteAsset : string;
  baseAssetPrecision : nat;
  quotePrecision : nat;
  pricePrecision : nat;
  quantityPrecision : nat
}.

Record YearMonth : Type := { year : Z; month : Z }.

Record DataFetch : Type := {
  startDate : YearMonth;
  endDate : option YearMonth
}.

(** [maxLookForwardCandles] is a count of candles. *)
Record Trade : Type := { maxLookForwardCandles : nat }.

Record SingleBacktest : Type := { sb_symbol : string; timeframe : string }.

(** ** The value of [getLookbackPeriod] *)

(** [timeframeMap[timeframe] || 200] is a number of candles, except for a
    timeframe that names a property the table object inherits from
    [Object.prototype]: the lookup then answers that function or object,
    which is truthy, so [|| 200] keeps it. *)
Inductive Lookback : Type :=
| Candles (n : nat)
| NotANumber.

Coercion Candles : nat >-> Lookback.
Bind Scope nat_scope with Lookback.

Definition inheritedProperties : list string :=
  ["constructor"; "hasOwnProperty"; "isPrototypeOf"; "propertyIsEnumerable";
   "toLocaleString"; "toString"; "valueOf"; "__defineGetter__";
   "__defineSetter__"; "__lookupGetter__"; "__lookupSetter__"; "__proto__"].

(** Where the engine uses the value, a function or object converts to
    NaN. [n < lookbackPeriod] is then false. *)
Definition lessThan (n : nat) (lookbackPeriod : Lookback) : bool :=
  match lookbackPeriod with
  | Candles m => n <? m
  | NotANumber => false
  end.

(** [for (let i = lookbackPeriod; i < length; i++)]: the test fails at
    once on NaN. *)
Definition positionsFrom (lookbackPeriod : Lookback) (length : nat)
  : list nat :=
  match lookbackPeriod with
  | Candles m => seq m (length - m)
  | NotANumber => []
  end.

(** The start [index - lookbackPeriod] of a slice, for [lookbackPeriod <=
    index]: [slice] takes NaN as 0. *)
Definition sliceStart (index : nat) (lookbackPeriod : Lookback) : nat :=
  match lookbackPeriod with
  | Candles m => index - m
  | NotANumber => 0
  end.

Section Model.

Context {num : Type} `{JsNumber num}.

Record CandleData : Type := {
  openTime : Z;
  open : num;
  high : num;
  low : num;
  close : num;
  volume : num;
  closeTime : num;
  quoteAssetVolume : num;
  trades : num;
  takerBuyBaseAssetVolume : num;
  takerBuyQuoteAssetVolume : num;
  ignore : num
}.

Record CandleDetails : Type := {
  d_open : string;
  d_high : string;
  d_low : string;
  d_close : string;
  d_volume : num
}.

Record LegendCandleT : Type := {
  currentDynamicThreshold : string;
  upwardThreshold : string;
  downwardThreshold : string;
  LegendCandleDifference : string;
  LegendCandleDetails : CandleDetails
}.

Record Entry : Type := {
  reason : Reason;
  side : Side;
  price : num;
  formatted_price : string;
  time : string;
  candlesUntilThreshold : nat;
  PositionEntryCandleDetails : CandleDetails
}.

Record ThresholdResult : Type := {
  Legend_Candle_no : nat;
  timestamp : string;
  LegendCandle : LegendCandleT;
  entry : option Entry;
  success : bool
}.

Record LookbackPeriod : Type := {
  lp_candles : nat;
  threshold : num;
  thresholdMultiplier : num
}.

Record Strategy : Type := { lookbackPeriod : LookbackPeriod }.

(** [market] and [backtestMode] are not read by the engine and are left
    out. *)
Record TradingConfig : Type := {
  dataFetch : DataFetch;
  trade : Trade;
  strategy : Strategy;
  singleBacktest : SingleBacktest
}.

Record Stats : Type := {
  s_totalCandles : nat;
  s_legendCandles : nat;
  successRate : num;
  s_successfulTrades : nat
}.

Record BacktestResult : Type := {
  r_symbol : string;
  r_timeframe : string;
  r_symbolInfo : SymbolInfo;
  r_config : TradingConfig;
  results : list ThresholdResult;
  stats : Stats
}.

(** ** The engine's state (the fields of [Backtester]) *)

Record Backtester : Type := {
  candles : list CandleData;
  totalCandles : nat;
  legendCandles : nat;
  successfulTrades : nat;
  symbolInfo : option SymbolInfo;
  symbol : string;
  runConfig : TradingConfig
}.

(** [new Backtester(symbol, runConfig)] *)
Definition newBacktester (sym : string) (cfg : TradingConfig) : Backtester :=
  {| candles := []; totalCandles := 0; legendCandles := 0;
     successfulTrades := 0; symbolInfo := None; symbol := sym;
     runConfig := cfg |}.

Definition setSymbolInfo (st : Backtester) (info : SymbolInfo) : Backtester :=
  {| candles := candles st; totalCandles := totalCandles st;
     legendCandles := legendCandles st;
     successfulTrades := successfulTrades st; symbolInfo := Some info;
     symbol := symbol st; runConfig := runConfig st |}.

(** External collaborators: [moment(t).format('YYYY-MM-DD HH:mm:ss')] and
    [new Date(year, monthIndex).getTime()], both in the local time zone. *)
Variable formatTime : Z -> string.
Variable dateMillis : Z -> Z -> Z.

(** [loadData]: [rows] are the parsed rows of the CSV file in file order
    (a row whose [open_time] does not parse fails both comparisons and is
    dropped, so it is not listed); [now] is the clock read when
    [endDate] is absent. *)
Definition loadData (st : Backtester) (now : Z) (rows : list CandleData)
  : Backtester :=
  let startTimestamp :=
    dateMillis (year (startDate (dataFetch (runConfig st))))
               (month (startDate (dataFetch (runConfig st))) - 1) in
  let endTimestamp :=
    match endDate (dataFetch (runConfig st)) with
    | Some e => dateMillis (year e) (month e - 1)
    | None => now
    end in
  fold_left
    (fun (s : Backtester) (row : CandleData) =>
       if (startTimestamp <=? openTime row)%Z && (openTime row <=? endTimestamp)%Z
       then {| candles := candles s ++ [row];
               totalCandles := S (totalCandles s);
               legendCandles := legendCandles s;
               successfulTrades := successfulTrades s;
               symbolInfo := symbolInfo s; symbol := symbol s;
               runConfig := runConfig s |}
       else s)
    rows st.

(** [x.toFixed(digits)], which raises for more than 100 digits. *)
Definition toFixedJs (x : num) (digits : nat) : res string :=
  if 100 <? digits then Throw rangeError else Ok (toFixed x digits).

Definition formatPrice (st : Backtester) (p : num) : res string :=
  match symbolInfo st with
  | None => Throw symbolInfoNotSet
  | Some info => toFixedJs p (pricePrecision info)
  end.

Definition formatCandleDetails (st : Backtester) (candle : CandleData)
  : res CandleDetails :=
  let! o := formatPrice st (open candle) in
  let! h := formatPrice st (high candle) in
  let! l := formatPrice st (low candle) in
  let! c := formatPrice st (close candle) in
  Ok {| d_open := o; d_high := h; d_low := l; d_close := c;
        d_volume := volume candle |}.

(** [this.runConfig.strategy.lookbackPeriod] *)
Definition lookbackPeriod_ (st : Backtester) : LookbackPeriod :=
  lookbackPeriod (strategy (runConfig st)).

(** Assignments to fields of a result and of the engine. *)
Definition withEntry (r : ThresholdResult) (e : Entry) : ThresholdResult :=
  {| Legend_Candle_no := Legend_Candle_no r; timestamp := timestamp r;
     LegendCandle := LegendCandle r; entry := Some e; success := success r |}.

Definition withSuccess (r : ThresholdResult) (b : bool) : ThresholdResult :=
  {| Legend_Candle_no := Legend_Candle_no r; timestamp := timestamp r;
     LegendCandle := LegendCandle r; entry := entry r; success := b |}.

Definition incrLegendCandles (st : Backtester) : Backtester :=
  {| candles := candles st; totalCandles := totalCandles st;
     legendCandles := legendCandles st + 1;
     successfulTrades := successfulTrades st; symbolInfo := symbolInfo st;
     symbol := symbol st; runConfig := runConfig st |}.

Definition incrSuccessfulTrades (st : Backtester) : Backtester :=
  {| candles := candles st; totalCandles := totalCandles st;
     legendCandles := legendCandles st;
     successfulTrades := successfulTrades st + 1; symbolInfo := symbolInfo st;
     symbol := symbol st; runConfig := runConfig st |}.

(** [timeframeMap[timeframe] || 200]: the own properties of the table,
    then the inherited ones, then the default. *)
Definition timeframeMap : list (string * nat) :=
  [("1m", 200); ("3m", 150); ("5m", 120); ("15m", 100); ("30m", 80);
   ("1h", 60); ("2h", 48); ("4h", 36); ("6h", 24); ("8h", 20);
   ("12h", 15); ("1d", 10)].

Fixpoint lookupTimeframe (m : list (string * nat)) (k : string) : option nat :=
  match m with
  | [] => None
  | (k', v) :: m' => if String.eqb k k' then Some v else lookupTimeframe m' k
  end.

Definition getLookbackPeriod (st : Backtester) : Lookback :=
  let tf := timeframe (singleBacktest (runConfig st)) in
  match lookupTimeframe timeframeMap tf with
  | Some 0 => Candles 200
  | Some n => Candles n
  | None =>
      if existsb (String.eqb tf) inheritedProperties then NotANumber
      else Candles 200
  end.

(** [a.slice(s, e)] for [0 <= s]. *)
Definition slice {A : Type} (l : list A) (s e : nat) : list A :=
  firstn (e - s) (skipn s l).

Definition hundred : num := fromZ 100.

(** [Math.abs((candle.close - candle.open) / candle.open) * 100] *)
Definition windowDiff (candle : CandleData) : num :=
  nmul (nabs (ndiv (nsub (close candle) (open candle)) (open candle))) hundred.

(** [(Math.abs(c.close - c.open) / c.open) * 100] *)
Definition candleDiff (candle : CandleData) : num :=
  nmul (ndiv (nabs (nsub (close candle) (open candle))) (open candle)) hundred.

(** [previousDiffs.reduce((a, b) => a + b, 0) / previousDiffs.length] *)
Definition averageOf (previousDiffs : list num) : num :=
  ndiv (fold_left nadd previousDiffs (fromZ 0))
       (fromZ (Z.of_nat (List.length previousDiffs))).

(** The two prices [processLegendCandle] derives from the candle's close:
    [close + close * (dynamicThreshold / 100)] and
    [close - close * (dynamicThreshold / 100)]. *)
Definition upwardOf (candle : CandleData) (dynamicThreshold : num) : num :=
  nadd (close candle) (nmul (close candle) (ndiv dynamicThreshold hundred)).

Definition downwardOf (candle : CandleData) (dynamicThreshold : num) : num :=
  nsub (close candle) (nmul (close candle) (ndiv dynamicThreshold hundred)).

(** The test of the forward loop on one candle: [high >= upwardThreshold],
    or else [low <= downwardThreshold]. *)
Definition triggers (up down : num) (c : CandleData) : bool :=
  nge (high c) up || nle (low c) down.

(** [isLegendCandle(index)] *)
Definition isLegendCandle (st : Backtester) (index : nat) : res bool :=
  let lookbackPeriod := getLookbackPeriod st in
  if lessThan index lookbackPeriod then Ok false
  else
    let lookbackCandles :=
      slice (candles st) (sliceStart index lookbackPeriod) index in
    match nth_error (candles st) index with
    | None => Throw undefinedCandle
    | Some currentCandle =>
        let currentDiff := candleDiff currentCandle in
        let previousDiffs := map windowDiff lookbackCandles in
        let averageDiff := averageOf previousDiffs in
        let dynamicThreshold :=
          nmul (threshold (lookbackPeriod_ st)) averageDiff in
        Ok (nge currentDiff dynamicThreshold)
    end.

(** The body of the forward [for] loop of [processLegendCandle], run over
    the indices [i] the loop visits, with the counter [candlesChecked] and
    the [result] object the loop assigns to. *)
Fixpoint scanForward (st : Backtester) (upwardThreshold_ downwardThreshold_ : num)
    (indices : list nat) (candlesChecked : nat) (result : ThresholdResult)
  : res ThresholdResult :=
  match indices with
  | [] => Ok result
  | i :: rest =>
      let candlesChecked := S candlesChecked in
      match nth_error (candles st) i with
      | None => Throw undefinedCandle
      | Some futureCandle =>
          if nge (high futureCandle) upwardThreshold_ then
            let! fp := formatPrice st upwardThreshold_ in
            let! details := formatCandleDetails st futureCandle in
            let result := withEntry result
              {| reason := UpwardThresholdMet; side := LONG;
                 price := upwardThreshold_;
                 formatted_price := (fp ++ " USDT")%string;
                 time := formatTime (openTime futureCandle);
                 candlesUntilThreshold := candlesChecked;
                 PositionEntryCandleDetails := details |} in
            Ok (withSuccess result true)
          else if nle (low futureCandle) downwardThreshold_ then
            let! fp := formatPrice st downwardThreshold_ in
            let! details := formatCandleDetails st futureCandle in
            let result := withEntry result
              {| reason := DownwardThresholdMet; side := SHORT;
                 price := downwardThreshold_;
                 formatted_price := (fp ++ " USDT")%string;
                 time := formatTime (openTime futureCandle);
                 candlesUntilThreshold := candlesChecked;
                 PositionEntryCandleDetails := details |} in
            Ok (withSuccess result true)
          else scanForward st upwardThreshold_ downwardThreshold_ rest
                 candlesChecked result
      end
  end.

(** The indices of [for (i = candleIndex + 1;
    i < Math.min(candleIndex + maxLookForward + 1, candles.length); i++)]. *)
Definition forwardIndices (st : Backtester) (candleIndex : nat) : list nat :=
  let maxLookForward := maxLookForwardCandles (trade (runConfig st)) in
  let bound := Nat.min (candleIndex + maxLookForward + 1) (List.length (candles st)) in
  seq (candleIndex + 1) (bound - (candleIndex + 1)).

(** [dynamicThreshold.toFixed(this.symbolInfo?.pricePrecision || 2)] *)
Definition thresholdDigits (st : Backtester) : nat :=
  match symbolInfo st with
  | Some info => match pricePrecision info with 0 => 2 | p => p end
  | None => 2
  end.

(** [processLegendCandle(candleIndex, candle, dynamicThreshold)] *)
Definition processLegendCandle (st : Backtester) (candleIndex : nat)
    (candle : CandleData) (dynamicThreshold : num)
  : res (option ThresholdResult) :=
  let! isLegend := isLegendCandle st candleIndex in
  if negb isLegend then Ok None
  else
    let thresholdValue := nmul (close candle) (ndiv dynamicThreshold hundred) in
    let upwardThreshold_ := nadd (close candle) thresholdValue in
    let downwardThreshold_ := nsub (close candle) thresholdValue in
    let no := legendCandles st + 1 in
    let ts := formatTime (openTime candle) in
    let! cdt := toFixedJs dynamicThreshold (thresholdDigits st) in
    let! up := formatPrice st upwardThreshold_ in
    let! down := formatPrice st downwardThreshold_ in
    let! diff := toFixedJs (candleDiff candle) 2 in
    let! details := formatCandleDetails st candle in
    let result :=
      {| Legend_Candle_no := no; timestamp := ts;
         LegendCandle :=
           {| currentDynamicThreshold := cdt; upwardThreshold := up;
              downwardThreshold := down; LegendCandleDifference := diff;
              LegendCandleDetails := details |};
         entry := None; success := false |} in
    let! result := scanForward st upwardThreshold_ downwardThreshold_
                     (forwardIndices st candleIndex) 0 result in
    Ok (Some result).

(** [getStats()], and the [stats] object of [saveResults]. *)
Definition getStats (st : Backtester) : Stats :=
  {| s_totalCandles := totalCandles st;
     s_legendCandles := legendCandles st;
     s_successfulTrades := successfulTrades st;
     successRate :=
       if 0 <? legendCandles st
       then nmul (ndiv (fromZ (Z.of_nat (successfulTrades st)))
                       (fromZ (Z.of_nat (legendCandles st)))) hundred
       else fromZ 0 |}.

(** [saveResults(results)] up to its two file operations: the value is
    the document handed to [fs.promises.writeFile]. The file system is
    not part of the model, so a rejection of [mkdir] or [writeFile],
    which comes after the loop has moved the counters, has no
    counterpart here. *)
Definition saveResults (st : Backtester) (rs : list ThresholdResult)
  : res BacktestResult :=
  match symbolInfo st with
  | None => Throw symbolInfoNotSetBeforeSaving
  | Some info =>
      Ok {| r_symbol := symbol st;
            r_timeframe := timeframe (singleBacktest (runConfig st));
            r_symbolInfo := info;
            r_config := runConfig st;
            results := rs;
            stats := getStats st |}
  end.

(** [dynamicThreshold] as the main loop of [findThresholds] computes it for
    position [i]. *)
Definition loopThreshold (st : Backtester) (lookbackPeriod : Lookback)
    (i : nat) : num :=
  let lookbackCandles := slice (candles st) (sliceStart i lookbackPeriod) i in
  let previousDiffs := map windowDiff lookbackCandles in
  let averageDiff := averageOf previousDiffs in
  nmul averageDiff (thresholdMultiplier (lookbackPeriod_ st)).

(** The main loop of [findThresholds] over the positions it visits. An
    exception leaves the counters as they were when it was raised. *)
Fixpoint mainLoop (st : Backtester) (lookbackPeriod : Lookback)
    (positions : list nat) (rs : list ThresholdResult)
  : res (list ThresholdResult) * Backtester :=
  match positions with
  | [] => (Ok rs, st)
  | i :: rest =>
      match nth_error (candles st) i with
      | None => (Throw undefinedCandle, st)
      | Some currentCandle =>
          let dynamicThreshold := loopThreshold st lookbackPeriod i in
          match processLegendCandle st i currentCandle dynamicThreshold with
          | Throw msg => (Throw msg, st)
          | Ok None => mainLoop st lookbackPeriod rest rs
          | Ok (Some result) =>
              let st := incrLegendCandles st in
              let rs := rs ++ [result] in
              let st := if success result then incrSuccessfulTrades st else st in
              mainLoop st lookbackPeriod rest rs
          end
      end
  end.

(** What a call of [findThresholds] returns and what it writes. *)
Record Outcome : Type := {
  returned : list ThresholdResult;
  saved : option BacktestResult
}.

(** [findThresholds()] *)
Definition findThresholds (st : Backtester) : res Outcome * Backtester :=
  let lookbackPeriod := getLookbackPeriod st in
  if lessThan (List.length (candles st)) lookbackPeriod
  then (Ok {| returned := []; saved := None |}, st)
  else
    match mainLoop st lookbackPeriod
            (positionsFrom lookbackPeriod (List.length (candles st))) []
    with
    | (Throw msg, st') => (Throw msg, st')
    | (Ok rs, st') =>
        match saveResults st' rs with
        | Throw msg => (Throw msg, st')
        | Ok doc => (Ok {| returned := rs; saved := Some doc |}, st')
        end
    end.

(** [run()] *)
Definition run (st : Backtester) : res unit * Backtester :=
  match findThresholds st with
  | (Ok _, st') => (Ok tt, st')
  | (Throw msg, st') => (Throw msg, st')
  end.

End Model.

(** ** Vocabulary of the statements *)

Section Vocabulary.

Context {num : Type} `{JsNumber num}.
Variable formatTime : Z -> string.
Variable dateMillis : Z -> Z -> Z.

Implicit Types (st : @Backtester num) (r : @ThresholdResult num)
  (c : @CandleData num).

(** The candle at index [i] exists and does not trigger. *)
Definition quietAt st (up down : num) (i : nat) : Prop :=
  exists c, nth_error (candles st) i = Some c /\ triggers up down c = false.

(** [e] is the entry the loop builds at candle [c], reached after [k]
    candles: LONG at [up] when the high reaches it, otherwise SHORT at
    [down]. *)
Definition entryAt st (up down : num) (c : CandleData) (k : nat) (e : Entry)
  : Prop :=
  candlesUntilThreshold e = k /\
  time e = formatTime (openTime c) /\
  formatCandleDetails st c = Ok (PositionEntryCandleDetails e) /\
  ((nge (high c) up = true /\
    side e = LONG /\ reason e = UpwardThresholdMet /\ price e = up) \/
   (nge (high c) up = false /\ nle (low c) down = true /\
    side e = SHORT /\ reason e = DownwardThresholdMet /\ price e = down)).

(** The outcome of the legend check at [i], [false] when it raises. *)
Definition legendAt st (i : nat) : bool :=
  match isLegendCandle st i with
  | Ok b => b
  | Throw _ => false
  end.

(** The exceptions of the scan: a missing symbol info, or a price
    precision that [toFixed] refuses. *)
Definition scanError st (msg : string) : Prop :=
  (msg = symbolInfoNotSet /\ symbolInfo st = None) \/
  (msg = rangeError /\
   exists info, symbolInfo st = Some info /\ 100 < pricePrecision info).

(** [st'] differs from [st] in its two counters at most. *)
Definition sameData st st' : Prop :=
  candles st' = candles st /\ totalCandles st' = totalCandles st /\
  symbolInfo st' = symbolInfo st /\ symbol st' = symbol st /\
  runConfig st' = runConfig st.

(** [r] is the result [processLegendCandle] returned for position [i],
    called with the threshold of the main loop while [n] legend candles
    had been counted. *)
Definition producedAt st (lookbackPeriod : Lookback) (i n : nat) r : Prop :=
  exists st0 c,
    sameData st st0 /\ legendCandles st0 = n /\
    nth_error (candles st) i = Some c /\
    processLegendCandle formatTime st0 i c (loopThreshold st lookbackPeriod i)
    = Ok (Some r).

(** Results paired with their positions, numbered from [n]. *)
Inductive producedFrom st (lookbackPeriod : Lookback)
  : nat -> list nat -> list ThresholdResult -> Prop :=
| produced_nil n : producedFrom st lookbackPeriod n [] []
| produced_cons n i r ps rs :
    producedAt st lookbackPeriod i n r ->
    producedFrom st lookbackPeriod (n + 1) ps rs ->
    producedFrom st lookbackPeriod n (i :: ps) (r :: rs).

(** The engine as the callers prepare it before a run: constructed, then
    given symbol info and candle files in any order. *)
Inductive Prepared : @Backtester num -> Prop :=
| prepared_new sym cfg : Prepared (newBacktester sym cfg)
| prepared_info st info : Prepared st -> Prepared (setSymbolInfo st info)
| prepared_load st now rows :
    Prepared st -> Prepared (loadData dateMillis st now rows).

(** The statistics recomputed from a result list ([total] is the number of
    candles loaded, which no result records). *)
Definition countSuccess (rs : list (@ThresholdResult num)) : nat :=
  List.length (filter (fun r => success r) rs).

Definition statsOf (total : nat) (rs : list (@ThresholdResult num)) : Stats :=
  {| s_totalCandles := total;
     s_legendCandles := List.length rs;
     s_successfulTrades := countSuccess rs;
     successRate :=
       if 0 <? List.length rs
       then nmul (ndiv (fromZ (Z.of_nat (countSuccess rs)))
                       (fromZ (Z.of_nat (List.length rs)))) hundred
       else fromZ 0 |}.

End Vocabulary.

(** ** Exact rational arithmetic *)

Fixpoint zeros (k : nat) : string :=
  match k with
  | 0 => EmptyString
  | S k' => String "0" (zeros k')
  end.

Definition digitsOf (n : Z) : string :=
  NilEmpty.string_of_uint (N.to_uint (Z.to_N n)).

(** [x.toFixed(f)] on the exact value of [x], for magnitudes below 1e21
    (above, JavaScript switches to exponent notation): the integer [n]
    nearest to [|x| * 10^f], the larger one on a tie, printed with [f]
    digits after the point and the sign of [x]. *)
Definition Q_toFixed (x : Q) (f : nat) : string :=
  let a := Qabs x in
  let n := Qfloor (a * inject_Z (10 ^ Z.of_nat f) + (1 # 2))%Q in
  let m := digitsOf n in
  let body :=
    if f =? 0 then m
    else
      let m := (zeros (f + 1 - String.length m) ++ m)%string in
      let k := String.length m - f in
      (substring 0 k m ++ "." ++ substring k f m)%string in
  if Qle_bool 0 x then body else ("-" ++ body)%string.

(** Exact arithmetic has no NaN and no infinity: a division by zero is 0
    here, so statements about values are made for candles whose open is
    not zero. *)
#[export] Instance JsNumber_Q : JsNumber Q := {
  fromZ := inject_Z;
  nadd := Qplus;
  nsub := Qminus;
  nmul := Qmult;
  ndiv := Qdiv;
  nabs := Qabs;
  nge := fun a b => Qle_bool b a;
  nle := fun a b => Qle_bool a b;
  toFixed := Q_toFixed
}.


(** ** IEEE 754 binary64 arithmetic *)

(** The exact value of a finite double. *)
Definition exactQ (x : float) : option Q :=
  match Prim2SF x with
  | S754_zero _ => Some 0%Q
  | S754_finite s m e =>
      let v := if (0 <=? e)%Z
               then inject_Z (Zpos m * 2 ^ e)
               else (Zpos m # Z.to_pos (2 ^ (- e)))%Q in
      Some (if s then Qopp v else v)
  | S754_infinity _ | S754_nan => None
  end.

(** [x.toFixed(f)]: a finite double prints the digits of its exact value
    (below 1e21), the others print their names. *)
Definition float_toFixed (x : float) (f : nat) : string :=
  match exactQ x with
  | Some q => Q_toFixed q f
  | None =>
      if PrimFloat.is_nan x then "NaN"
      else if PrimFloat.ltb x PrimFloat.zero then "-Infinity"
      else "Infinity"
  end.

(** An integer of the source as a double (exact below 2^53 in magnitude,
    as literals and counters are). *)
Definition float_fromZ (z : Z) : float :=
  if (0 <=? z)%Z then PrimFloat.of_uint63 (Uint63.of_Z z)
  else PrimFloat.opp (PrimFloat.of_uint63 (Uint63.of_Z (- z))).

#[export] Instance JsNumber_float : JsNumber float := {
  fromZ := float_fromZ;
  nadd := PrimFloat.add;
  nsub := PrimFloat.sub;
  nmul := PrimFloat.mul;
  ndiv := PrimFloat.div;
  nabs := PrimFloat.abs;
  nge := fun a b => PrimFloat.leb b a;
  nle := fun a b => PrimFloat.leb a b;
  toFixed := float_toFixed
}.

(** The threshold computation written out in exact arithmetic: the move of
    one candle as the engine's main loop takes it, the move as the
    specification words it, the arithmetic mean, and the dynamic threshold
    of a window under either move. *)
Definition codeMove (c : @CandleData Q) : Q :=
  (Qabs ((close c - open c) / open c) * 100)%Q.

Definition specMove (c : @CandleData Q) : Q :=
  (Qabs (close c - open c) / open c * 100)%Q.

Fixpoint sumOf (xs : list Q) : Q :=
  match xs with
  | [] => 0%Q
  | x :: xs' => (x + sumOf xs')%Q
  end.

Definition meanOf (xs : list Q) : Q :=
  (sumOf xs / inject_Z (Z.of_nat (List.length xs)))%Q.

Definition codeDynamicThreshold (window : list (@CandleData Q)) (mult : Q) : Q :=
  (meanOf (map codeMove window) * mult)%Q.

Definition specDynamicThreshold (window : list (@CandleData Q)) (mult : Q) : Q :=
  (meanOf (map specMove window) * mult)%Q.

(** The success rate as a plain ratio, [successful / legend] (0 without
    legend candles). *)
Definition ratioSuccessRate (rs : list (@ThresholdResult Q)) : Q :=
  if 0 <? List.length rs
  then (inject_Z (Z.of_nat (countSuccess rs))
        / inject_Z (Z.of_nat (List.length rs)))%Q
  else 0%Q.

(** ** Sample runs *)

Module Sample.

(** Stand-ins for the two time functions: the timestamp in decimal, and
    months of thirty days counted from 1970. *)
Definition showTime (t : Z) : string := digitsOf t.

Definition monthStart (y m : Z) : Z :=
  (((y - 1970) * 12 + m) * 2592000000)%Z.

Definition hour : Z := 3600000.

(** The [k]-th hourly candle of September 2024. *)
Definition candle (k : Z) (o h l c : Q) : @CandleData Q :=
  {| openTime := (monthStart 2024 8 + k * hour)%Z;
     open := o; high := h; low := l; close := c;
     volume := 1%Q;
     closeTime := inject_Z (monthStart 2024 8 + (k + 1) * hour - 1);
     quoteAssetVolume := c; trades := 1%Q;
     takerBuyBaseAssetVolume := 0%Q; takerBuyQuoteAssetVolume := 0%Q;
     ignore := 0%Q |}.

(** The default configuration of config.ts, with the timeframe, the base
    threshold and the multiplier left open. *)
Definition config (tf : string) (thr mult : Q) : @TradingConfig Q :=
  {| dataFetch := {| startDate := {| year := 2024; month := 9 |};
                     endDate := Some {| year := 2024; month := 10 |} |};
     trade := {| maxLookForwardCandles := 100 |};
     strategy := {| lookbackPeriod :=
                      {| lp_candles := 200; threshold := thr;
                         thresholdMultiplier := mult |} |};
     singleBacktest := {| sb_symbol := "ETHUSDT"; timeframe := tf |} |}.

Definition info : SymbolInfo :=
  {| si_symbol := "ETHUSDT"; baseAsset := "ETH"; quoteAsset := "USDT";
     baseAssetPrecision := 8; quotePrecision := 8;
     pricePrecision := 2; quantityPrecision := 3 |}.

(** What run-backtest.ts does before the scan: construct, set the symbol
    info, load the candle file. *)
Definition engine (cfg : @TradingConfig Q) (rows : list (@CandleData Q))
  : @Backtester Q :=
  loadData monthStart (setSymbolInfo (newBacktester "ETHUSDT" cfg) info)
    0%Z rows.

(** What batch-processor.ts does: no symbol info. *)
Definition engineWithoutInfo (cfg : @TradingConfig Q)
    (rows : list (@CandleData Q)) : @Backtester Q :=
  loadData monthStart (newBacktester "ETHUSDT" cfg) 0%Z rows.

(** [n] window candles from hour [k] on, each built by [mk]. *)
Fixpoint windowFrom (mk : Z -> @CandleData Q) (k : Z) (n : nat)
  : list (@CandleData Q) :=
  match n with
  | 0 => []
  | S n' => mk k :: windowFrom mk (k + 1)%Z n'
  end.

(** A window candle moving 0.5 % (open 100, close 100.5) and the candle
    of the scenario with open 100, high 130, low 70, close 120. *)
Definition quiet (k : Z) : @CandleData Q := candle k 100 101 99.5 100.5.
Definition big (k : Z) : @CandleData Q := candle k 100 130 70 120.

(** The scenario as worded: three window candles, the big candle, and a
    forward candle with high 130. *)
Definition scenario3 : list (@CandleData Q) :=
  windowFrom quiet 0 3 ++ [big 3; candle 4 120 130 119 125].

(** The scenario at the lookback of the '1d' timeframe: ten window
    candles, the big candle, and a forward candle [fwd]. *)
Definition scenario10 (fwd : @CandleData Q) : @Backtester Q :=
  {| candles := windowFrom quiet 0 10 ++ [big 10; fwd];
     totalCandles := 12; legendCandles := 0; successfulTrades := 0;
     symbolInfo := Some info; symbol := "ETHUSDT";
     runConfig := config "1d" 15 2 |}.

Definition scenario10rows : list (@CandleData Q) :=
  windowFrom quiet 0 10 ++ [big 10; candle 11 120 130 119 125].

(** Ten window candles moving 1 %, then a candle that does not move. *)
Definition flatAfterMoves : list (@CandleData Q) :=
  windowFrom (fun k => candle k 100 102 99 101) 0 10
  ++ [candle 10 100 100.5 99.5 100].

(** Ten window candles with negative prices (open -100, close -101), then
    the big candle. *)
Definition negativeWindow : list (@CandleData Q) :=
  windowFrom (fun k => candle k (-100) (-99) (-102) (-101)) 0 10.

Definition negativeRows : list (@CandleData Q) := negativeWindow ++ [big 10].

(** The engines of the sample runs, prepared as run-backtest.ts does. *)
Definition shortRun : @Backtester Q := engine (config "1d" 15 2) scenario3.
Definition longRun : @Backtester Q := engine (config "1d" 15 2) scenario10rows.
Definition flatRun : @Backtester Q := engine (config "1d" 15 2) flatAfterMoves.
Definition negativeRun : @Backtester Q := engine (config "1d" 15 2) negativeRows.

(** A forward candle on which both thresholds of the big candle are
    crossed (high 130 >= 121.2, low 70 <= 118.8). *)
Definition tieCandle : @CandleData Q := candle 11 120 130 70 125.

Definition tieRun : @Backtester Q :=
  engine (config "1d" 15 2) (windowFrom quiet 0 10 ++ [big 10; tieCandle]).

End Sample.

(** The scenario of [Sample.longRun] in doubles. *)
Module SampleDouble.

Definition candle (k : Z) (o h l c : float) : @CandleData float :=
  {| openTime := (Sample.monthStart 2024 8 + k * Sample.hour)%Z;
     open := o; high := h; low := l; close := c;
     volume := 1%float;
     closeTime :=
       float_fromZ (Sample.monthStart 2024 8 + (k + 1) * Sample.hour - 1);
     quoteAssetVolume := c; trades := 1%float;
     takerBuyBaseAssetVolume := 0%float;
     takerBuyQuoteAssetVolume := 0%float;
     ignore := 0%float |}.

Definition config : @TradingConfig float :=
  {| dataFetch := {| startDate := {| year := 2024; month := 9 |};
                     endDate := Some {| year := 2024; month := 10 |} |};
     trade := {| maxLookForwardCandles := 100 |};
     strategy := {| lookbackPeriod :=
                      {| lp_candles := 200; threshold := 15%float;
                         thresholdMultiplier := 2%float |} |};
     singleBacktest := {| sb_symbol := "ETHUSDT"; timeframe := "1d" |} |}.

Fixpoint windowFrom (k : Z) (n : nat) : list (@CandleData float) :=
  match n with
  | 0 => []
  | S n' => candle k 100 101 99.5 100.5 :: windowFrom (k + 1)%Z n'
  end.

Definition longRun : @Backtester float :=
  loadData Sample.monthStart
    (setSymbolInfo (newBacktester "ETHUSDT" config) Sample.info) 0%Z
    (windowFrom 0 10
     ++ [candle 10 100 130 70 120; candle 11 120 130 119 125]).

End SampleDouble.

(** ** Further vocabulary for the engine *)

Section EngineVocabulary.

Context {num : Type} `{JsNumber num}.
Variable dateMillis : Z -> Z -> Z.

(** The two timestamps [loadData] compares every row with. *)
Definition loadRange (st : @Backtester num) (now : Z) : Z * Z :=
  (dateMillis (year (startDate (dataFetch (runConfig st))))
              (month (startDate (dataFetch (runConfig st))) - 1),
   match endDate (dataFetch (runConfig st)) with
   | Some e => dateMillis (year e) (month e - 1)
   | None => now
   end).

Definition inLoadRange (st : @Backtester num) (now : Z)
    (row : @CandleData num) : bool :=
  (fst (loadRange st now) <=? openTime row)%Z
  && (openTime row <=? snd (loadRange st now))%Z.

(** A result with its number raised by [k]. *)
Definition renumber (k : nat) (r : @ThresholdResult num) : ThresholdResult :=
  {| Legend_Candle_no := Legend_Candle_no r + k; timestamp := timestamp r;
     LegendCandle := LegendCandle r; entry := entry r; success := success r |}.

(** Two engines that agree on everything the scan reads apart from its
    counters: the candles, the symbol info, and of the configuration the
    timeframe, the two threshold factors and the look-forward bound. *)
Definition readAlike (st1 st2 : @Backtester num) : Prop :=
  candles st2 = candles st1 /\ symbolInfo st2 = symbolInfo st1 /\
  timeframe (singleBacktest (runConfig st2))
  = timeframe (singleBacktest (runConfig st1)) /\
  threshold (lookbackPeriod_ st2) = threshold (lookbackPeriod_ st1) /\
  thresholdMultiplier (lookbackPeriod_ st2)
  = thresholdMultiplier (lookbackPeriod_ st1) /\
  maxLookForwardCandles (trade (runConfig st2))
  = maxLookForwardCandles (trade (runConfig st1)).

(** What a call of [findThresholds] hands back to its caller. *)
Definition returnedOf (x : res (@Outcome num) * @Backtester num)
  : res (list (@ThresholdResult num)) :=
  match fst x with
  | Ok out => Ok (returned out)
  | Throw msg => Throw msg
  end.

End EngineVocabulary.

(** Further sample engines. *)
Module MoreSample.

(** A forward candle that stays below the upward threshold of the big
    candle (121.2) and reaches its downward threshold (118.8). *)
Definition dipCandle : @CandleData Q := Sample.candle 11 120 121 118 119.

Definition dipRun : @Backtester Q :=
  Sample.engine (Sample.config "1d" 15 2)
    (Sample.windowFrom Sample.quiet 0 10 ++ [Sample.big 10; dipCandle]).

(** The engine of [Sample.longRun] under a configuration with another
    [lookbackPeriod.candles] and another date range. *)
Definition otherConfig : @TradingConfig Q :=
  {| dataFetch := {| startDate := {| year := 2020; month := 1 |};
                     endDate := None |};
     trade := {| maxLookForwardCandles := 100 |};
     strategy := {| lookbackPeriod :=
                      {| lp_candles := 50; threshold := 15%Q;
                         thresholdMultiplier := 2%Q |} |};
     singleBacktest := {| sb_symbol := "XRPUSDT"; timeframe := "1d" |} |}.

Definition otherRun : @Backtester Q :=
  {| candles := candles Sample.longRun; totalCandles := 0;
     legendCandles := 0; successfulTrades := 7;
     symbolInfo := Some Sample.info; symbol := "XRPUSDT";
     runConfig := otherConfig |}.

Definition batchRun : @Backtester Q :=
  Sample.engineWithoutInfo (Sample.config "1d" 15 2) Sample.negativeRows.

End MoreSample.

(** ** Strings and numbers of JavaScript used outside the engine *)

(** [n.toString()] for an integer [n] (exact below 2^53), and for the NaN
    that [parseInt] answers when it finds no digit. *)
Definition showNat (n : nat) : string :=
  NilEmpty.string_of_uint (Nat.to_uint n).

Definition showInt (z : Z) : string :=
  if (z <? 0)%Z then ("-" ++ showNat (Z.to_nat (- z)))%string
  else showNat (Z.to_nat z).

Definition showNumber (x : option Z) : string :=
  match x with
  | Some z => showInt z
  | None => "NaN"
  end.

(** [s.padStart(2, '0')] *)
Definition padStart2 (s : string) : string :=
  (zeros (2 - String.length s) ++ s)%string.

(** [s.split(sep)] for a separator of one character. *)
Fixpoint splitOn (sep : ascii) (s : string) : list string :=
  match s with
  | EmptyString => [EmptyString]
  | String ch rest =>
      if Ascii.eqb ch sep then EmptyString :: splitOn sep rest
      else match splitOn sep rest with
           | [] => [String ch EmptyString]
           | first :: others => String ch first :: others
           end
  end.

(** [s.endsWith(suffix)] *)
Definition endsWith (s suffix : string) : bool :=
  (String.length suffix <=? String.length s)
  && String.eqb
       (substring (String.length s - String.length suffix)
                  (String.length suffix) s)
       suffix.

Definition digitValue (ch : ascii) : option nat :=
  let n := nat_of_ascii ch in
  if (48 <=? n) && (n <=? 57) then Some (n - 48) else None.

Definition hexValue (ch : ascii) : option nat :=
  let n := nat_of_ascii ch in
  if (48 <=? n) && (n <=? 57) then Some (n - 48)
  else if (97 <=? n) && (n <=? 102) then Some (n - 87)
  else if (65 <=? n) && (n <=? 70) then Some (n - 55)
  else None.

(** The value of the longest prefix of digits in the given radix: [None]
    when the string starts with none. *)
Fixpoint parseDigits (value : ascii -> option nat) (radix : nat)
    (s : string) (acc : option nat) : option nat :=
  match s with
  | EmptyString => acc
  | String ch rest =>
      match value ch with
      | Some d =>
          parseDigits value radix rest
            (Some (d + radix * match acc with Some a => a | None => 0 end))
      | None => acc
      end
  end.

Definition isWhiteSpace (ch : ascii) : bool :=
  let n := nat_of_ascii ch in
  ((9 <=? n) && (n <=? 13)) || (n =? 32).

Fixpoint trimStart (s : string) : string :=
  match s with
  | String ch rest => if isWhiteSpace ch then trimStart rest else s
  | EmptyString => s
  end.

(** [parseInt(s)] without a radix, over ASCII: leading white space, a
    sign, a [0x] prefix for base 16, then the digits; [None] is NaN. *)
Definition parseInt (s : string) : option Z :=
  let s := trimStart s in
  let (negative, s) :=
    match s with
    | String "-" rest => (true, rest)
    | String "+" rest => (false, rest)
    | _ => (false, s)
    end in
  let magnitude :=
    match s with
    | String "0" (String "x" rest) | String "0" (String "X" rest) =>
        parseDigits hexValue 16 rest None
    | _ => parseDigits digitValue 10 s None
    end in
  match magnitude with
  | Some n => Some (if negative then (- Z.of_nat n)%Z else Z.of_nat n)
  | None => None
  end.

(** [s.includes(ch)] for one character. *)
Fixpoint hasChar (ch : ascii) (s : string) : bool :=
  match s with
  | EmptyString => false
  | String c rest => Ascii.eqb c ch || hasChar ch rest
  end.

(** ** The data fetcher (data-fetcher.ts) *)

Inductive MarketType : Type := futures | spot.
Inductive SubType : Type := um | cm.

(** The [market] part of a [TradingConfig]. *)
Record Market : Type := { m_type : MarketType; m_subType : SubType }.

Definition showSubType (s : SubType) : string :=
  match s with um => "um" | cm => "cm" end.

(** The fields of a [DataFetcher] that its methods read. *)
Record DataFetcher : Type := {
  f_symbol : string;
  f_timeframe : string;
  f_dataFetch : DataFetch;
  f_market : Market;
  f_apiUrl : string;
  f_baseUrl : string
}.

(** [new DataFetcher(symbol, runConfig)]; the [throw] of the constructor
    needs a futures sub-type other than [um] and [cm], which the type of
    the configuration does not have. *)
Definition newDataFetcher (sym tf : string) (range : DataFetch)
    (market : Market) : DataFetcher :=
  let urls :=
    match m_type market with
    | futures =>
        match m_subType market with
        | um => ("https://fapi.binance.com/fapi/v1",
                 "https://data.binance.vision/data/futures/um")
        | cm => ("https://dapi.binance.com/dapi/v1",
                 "https://data.binance.vision/data/futures/cm")
        end
    | spot => ("https://api.binance.com/api/v3",
               "https://data.binance.vision/data/spot")
    end in
  {| f_symbol := sym; f_timeframe := tf; f_dataFetch := range;
     f_market := market; f_apiUrl := fst urls; f_baseUrl := snd urls |}.

(** [getDownloadUrl(year, month)]: both branches of the source build the
    same string. *)
Definition getDownloadUrl (f : DataFetcher) (y m : option Z) : string :=
  let monthStr := padStart2 (showNumber m) in
  let filename :=
    (f_symbol f ++ "-" ++ f_timeframe f ++ "-" ++ showNumber y ++ "-"
     ++ monthStr)%string in
  (f_baseUrl f ++ "/monthly/klines/" ++ f_symbol f ++ "/" ++ f_timeframe f
   ++ "/" ++ filename ++ ".zip")%string.

(** A [Date] built by [new Date(year, monthIndex)] is the first instant of
    a month; it is kept as the number of that month, counted from year 0
    (years 0 to 99 stand for 1900 to 1999). [getFullYear()] and
    [getMonth()] are quotient and remainder by 12,
    [setMonth(getMonth() + 1)] adds one, and such a date is at most
    another one, or at most the present instant, when its month is at
    most the other's, or the present month. *)
Definition monthOfDate (y monthIndex : Z) : Z :=
  ((if (0 <=? y) && (y <=? 99) then 1900 + y else y) * 12 + monthIndex)%Z.

Definition getFullYear (n : Z) : Z := (n / 12)%Z.
Definition getMonth (n : Z) : Z := (n mod 12)%Z.

(** The months the [for] loop of [fetchHistoricalData] visits. *)
Fixpoint monthsFrom (n : Z) (count : nat) : list Z :=
  match count with
  | 0 => []
  | S count' => n :: monthsFrom (n + 1)%Z count'
  end.

Definition fetchRange (range : DataFetch) (nowMonth : Z) : Z * Z :=
  (monthOfDate (year (startDate range)) (month (startDate range) - 1),
   match endDate range with
   | Some e => monthOfDate (year e) (month e - 1)
   | None => nowMonth
   end).

Definition visitedMonths (range : DataFetch) (nowMonth : Z) : list Z :=
  let (first, last) := fetchRange range nowMonth in
  monthsFrom first (Z.to_nat (last - first + 1)).

(** [`${symbol}-${timeframe}-${year}-${monthStr}`] for the month [n]. *)
Definition monthFilename (f : DataFetcher) (n : Z) : string :=
  (f_symbol f ++ "-" ++ f_timeframe f ++ "-" ++ showInt (getFullYear n)
   ++ "-" ++ padStart2 (showInt (getMonth n + 1)))%string.

(** The first loop: the zip names of the months whose CSV file is not
    there; [csvExists name] is [fs.existsSync] on [name] in the CSV
    directory. *)
Definition requiredFiles (f : DataFetcher) (nowMonth : Z)
    (csvExists : string -> bool) : list string :=
  map (fun n => (monthFilename f n ++ ".zip")%string)
      (filter (fun n => negb (csvExists (monthFilename f n ++ ".csv")%string))
              (visitedMonths (f_dataFetch f) nowMonth)).

(** [const [, , year, month] = filename.split('-')] and the URL built from
    the two parts. *)
Definition urlOfRequired (f : DataFetcher) (filename : string) : string :=
  let parts := splitOn "-" filename in
  let part k := match nth_error parts k with
                | Some s => parseInt s
                | None => None
                end in
  getDownloadUrl f (part 2) (part 3).

(** The second loop: [download url name] stands for the request, the
    write, the extraction and the removal of the zip; its exception is
    raised again. The value lists the URLs requested. *)
Fixpoint downloadAll (f : DataFetcher) (download : string -> string -> res unit)
    (names : list string) : res unit * list string :=
  match names with
  | [] => (Ok tt, [])
  | name :: rest =>
      let url := urlOfRequired f name in
      match download url name with
      | Throw msg => (Throw msg, [url])
      | Ok _ =>
          let (outcome, urls) := downloadAll f download rest in
          (outcome, url :: urls)
      end
  end.

(** [fetchHistoricalData()] *)
Definition fetchHistoricalData (f : DataFetcher) (nowMonth : Z)
    (csvExists : string -> bool) (download : string -> string -> res unit)
  : res unit * list string :=
  let required := requiredFiles f nowMonth csvExists in
  match required with
  | [] => (Ok tt, [])
  | _ => downloadAll f download required
  end.

(** The URL of the monthly archive of month [n]. *)
Definition monthUrl (f : DataFetcher) (n : Z) : string :=
  (f_baseUrl f ++ "/monthly/klines/" ++ f_symbol f ++ "/" ++ f_timeframe f
   ++ "/" ++ monthFilename f n ++ ".zip")%string.

(** The months in the range whose CSV file is not there. *)
Definition missingMonths (f : DataFetcher) (nowMonth : Z)
    (csvExists : string -> bool) : list Z :=
  filter (fun n => negb (csvExists (monthFilename f n ++ ".csv")%string))
         (visitedMonths (f_dataFetch f) nowMonth).

(** ** The batch processor (batch-processor.ts, config.ts) *)

Section Batch.

Context {num : Type} `{JsNumber num}.
Variable formatTime : Z -> string.
Variable dateMillis : Z -> Z -> Z.

(** [path.join(a, b)], [fs.promises.readdir(dir)], and reading one CSV
    file: the clock at that moment and the rows parsed. *)
Variable pathJoin : string -> string -> string.
Variable readdir : string -> res (list string).
Variable readCsv : string -> Z * list (@CandleData num).

(** The default export of config.ts, without the parts the engine's
    configuration record leaves out. *)
Definition defaultConfig : @TradingConfig num :=
  {| dataFetch := {| startDate := {| year := 2024; month := 9 |};
                     endDate := Some {| year := 2024; month := 10 |} |};
     trade := {| maxLookForwardCandles := 100 |};
     strategy := {| lookbackPeriod :=
                      {| lp_candles := 200; threshold := fromZ 15;
                         thresholdMultiplier := fromZ 15 |} |};
     singleBacktest := {| sb_symbol := "ETHUSDT"; timeframe := "1m" |} |}.

(** [{ ...config, singleBacktest: { symbol, timeframe } }] *)
Definition withPair (cfg : @TradingConfig num) (sym tf : string)
  : @TradingConfig num :=
  {| dataFetch := dataFetch cfg; trade := trade cfg;
     strategy := strategy cfg;
     singleBacktest := {| sb_symbol := sym; timeframe := tf |} |}.

(** [files.sort()]: ascending by code units, here by insertion. *)
Fixpoint insertSorted (s : string) (l : list string) : list string :=
  match l with
  | [] => [s]
  | x :: rest =>
      if String.leb s x then s :: l else x :: insertSorted s rest
  end.

Definition sortStrings (l : list string) : list string :=
  fold_right insertSorted [] l.

(** [getAllCsvFiles(symbol, timeframe)] of the batch processor. *)
Definition batchCsvFiles (dirname sym tf : string) : res (list string) :=
  let klineDir :=
    pathJoin dirname ("../kline/" ++ sym ++ "/" ++ tf ++ "/csv")%string in
  let! files := readdir klineDir in
  Ok (map (pathJoin klineDir)
          (sortStrings (filter (fun file => endsWith file ".csv") files))).

(** [completedBacktests.add(key)] *)
Definition setAdd (key : string) (set : list string) : list string :=
  if existsb (String.eqb key) set then set else set ++ [key].

(** The engine after [for (const csvFile of csvFiles) loadData(csvFile)]. *)
Definition loadAll (st : @Backtester num) (csvFiles : list string)
  : @Backtester num :=
  fold_left
    (fun b file => loadData dateMillis b (fst (readCsv file)) (snd (readCsv file)))
    csvFiles st.

(** What one [runBacktest] leaves behind: its outcome, the set of
    completed pairs, and the results document it wrote, if any. *)
Record BatchStep : Type := {
  outcome : res unit;
  completedBacktests : list string;
  written : option (@BacktestResult num)
}.

(** [runBacktest(symbol, timeframe)]: the [catch] logs and raises the
    exception again. *)
Definition runBacktest (dirname sym tf : string) (completed : list string)
  : BatchStep :=
  let runConfig := withPair defaultConfig sym tf in
  let backtester := newBacktester sym runConfig in
  match batchCsvFiles dirname sym tf with
  | Throw msg =>
      {| outcome := Throw msg; completedBacktests := completed;
         written := None |}
  | Ok [] =>
      {| outcome := Ok tt; completedBacktests := completed;
         written := None |}
  | Ok csvFiles =>
      let backtester := loadAll backtester csvFiles in
      match findThresholds formatTime backtester with
      | (Throw msg, _) =>
          {| outcome := Throw msg; completedBacktests := completed;
             written := None |}
      | (Ok out, _) =>
          {| outcome := Ok tt;
             completedBacktests := setAdd (sym ++ "-" ++ tf)%string completed;
             written := saved out |}
      end
  end.

(** What [generateSummaryReport] finds at the results path: no file, an
    empty file, text that [JSON.parse] refuses with a message, a value
    without [results], or a document as [saveResults] writes it. *)
Inductive ResultsFile : Type :=
| NoFile
| EmptyFile
| Unparsable (msg : string)
| NoResults
| Document (doc : @BacktestResult num).

Record Summary : Type := {
  sm_symbol : string;
  sm_timeframe : string;
  total_trades : nat;
  successful_trades : nat;
  success_rate : num;
  sm_config : option (@TradingConfig num);
  sm_error : option string
}.

Definition errorSummary (sym tf msg : string) : Summary :=
  {| sm_symbol := sym; sm_timeframe := tf; total_trades := 0;
     successful_trades := 0; success_rate := fromZ 0; sm_config := None;
     sm_error := Some msg |}.

(** [generateSummaryReport(symbol, timeframe)]; [writeSummary] is the
    outcome of creating the summary directory and writing the file. *)
Definition generateSummaryReport (file : ResultsFile) (writeSummary : res unit)
    (sym tf : string) : option Summary :=
  match file with
  | NoFile | EmptyFile | NoResults => None
  | Unparsable msg => Some (errorSummary sym tf msg)
  | Document doc =>
      let trades := results doc in
      let successfulTrades := filter (fun t => success t) trades in
      let summary :=
        {| sm_symbol := sym; sm_timeframe := tf;
           total_trades := List.length trades;
           successful_trades := List.length successfulTrades;
           success_rate :=
             if 0 <? List.length trades
             then nmul (ndiv (fromZ (Z.of_nat (List.length successfulTrades)))
                             (fromZ (Z.of_nat (List.length trades)))) hundred
             else fromZ 0;
           sm_config := Some (r_config doc); sm_error := None |} in
      match writeSummary with
      | Ok _ => Some summary
      | Throw msg => Some (errorSummary sym tf msg)
      end
  end.

End Batch.

(** ** Batches of a queue *)

(** The queue the nested loops over symbols and timeframes fill. *)
Definition pairQueue (symbols timeframes : list string)
  : list (string * string) :=
  flat_map (fun sym => map (fun tf => (sym, tf)) timeframes) symbols.

(** [queue.splice(0, limit)] removes and returns the first [limit]
    elements, none when [limit] is zero or negative. *)
Definition splice0 {A : Type} (limit : Z) (queue : list A)
  : list A * list A :=
  (firstn (Z.to_nat limit) queue, skipn (Z.to_nat limit) queue).

(** [while (queue.length > 0) { batch = queue.splice(0, limit); ... }]:
    the batches formed in [fuel] rounds at most, [None] when the queue is
    not empty after them. *)
Fixpoint batchLoop {A : Type} (fuel : nat) (limit : Z) (queue : list A)
  : option (list (list A)) :=
  match queue with
  | [] => Some []
  | _ =>
      match fuel with
      | 0 => None
      | S fuel' =>
          let (batch, queue') := splice0 limit queue in
          match batchLoop fuel' limit queue' with
          | Some batches => Some (batch :: batches)
          | None => None
          end
      end
  end.

(** [config.backtestMode.batchProcessing.concurrencyLimit || 5] *)
Definition limitOrFive (limit : Z) : Z :=
  if (limit =? 0)%Z then 5%Z else limit.

(** The two lists of config.ts. *)
Definition AVAILABLE_SYMBOLS : list string :=
  ["ETHUSDT"; "XRPUSDT"; "ADAUSDT"; "SOLUSDT"; "LTCUSDT"; "XMRUSDT";
   "1000SHIBUSDT"].

Definition AVAILABLE_TIMEFRAMES : list string :=
  ["1m"; "3m"; "5m"; "15m"; "30m"; "1h"; "2h"; "4h"; "6h"; "8h"; "12h"; "1d"].

(** A sample fetcher: four months asked for, the CSV file of December
    2024 present, the archive of February 2025 not on the server. *)
Module FetchSample.

Definition range : DataFetch :=
  {| startDate := {| year := 2024; month := 11 |};
     endDate := Some {| year := 2025; month := 2 |} |}.

Definition fetcher : DataFetcher :=
  newDataFetcher "ETHUSDT" "1m" range {| m_type := futures; m_subType := um |}.

Definition csvExists (name : string) : bool :=
  String.eqb name "ETHUSDT-1m-2024-12.csv".

Definition download (url name : string) : res unit :=
  if String.eqb name "ETHUSDT-1m-2025-02.zip"
  then Throw "Request failed with status code 404"
  else Ok tt.

End FetchSample.

(** A sample directory for the batch processor: one CSV file holding the
    rows of [Sample.scenario10rows], and a file that is not a CSV file. *)
Module BatchSample.

Definition pathJoin (a b : string) : string := (a ++ "/" ++ b)%string.

Definition readdir (dir : string) : res (list string) :=
  Ok ["notes.txt"; "ETHUSDT-1d-2024-09.csv"].

Definition readCsv (file : string) : Z * list (@CandleData Q) :=
  (0%Z, Sample.scenario10rows).

End BatchSample.

(** ** Properties of the forward scan *)

Section ForwardScan.

Context {num : Type} `{JsNumber num}.
Variable formatTime : Z -> string.

Implicit Types (st : @Backtester num) (r : @ThresholdResult num)
  (c : @CandleData num).

Lemma bind_Ok {A B : Type} (m : res A) (k : A -> res B) (b : B) :
  bind m k = Ok b -> exists a, m = Ok a /\ k a = Ok b.
Proof.
  destruct m as [a|msg]; simpl; intros E; [eauto | discriminate].
Qed.

Lemma scanForward_spec st (up down : num) (indices : list nat) :
  forall (cc : nat) r r',
    scanForward formatTime st up down indices cc r = Ok r' ->
    (r' = r /\ Forall (quietAt st up down) indices) \/
    (exists pre i post c e,
        indices = pre ++ i :: post /\
        Forall (quietAt st up down) pre /\
        nth_error (candles st) i = Some c /\
        triggers up down c = true /\
        r' = withSuccess (withEntry r e) true /\
        entryAt formatTime st up down c (cc + List.length pre + 1) e).
Proof.
  induction indices as [|i rest IH]; intros cc r r' E; simpl in E.
  - left. inversion E. split; [reflexivity | constructor].
  - destruct (nth_error (candles st) i) as [c|] eqn:Ec; [|discriminate].
    destruct (nge (high c) up) eqn:Eup.
    + apply bind_Ok in E. destruct E as (fp & _ & E).
      apply bind_Ok in E. destruct E as (details & Ed & E).
      inversion E; subst r'; clear E.
      right. exists [], i, rest, c. eexists.
      repeat split; try reflexivity; try eassumption.
      * constructor.
      * unfold triggers. rewrite Eup. reflexivity.
      * simpl. lia.
      * simpl. left. repeat split; assumption.
    + destruct (nle (low c) down) eqn:Edown.
      * apply bind_Ok in E. destruct E as (fp & _ & E).
        apply bind_Ok in E. destruct E as (details & Ed & E).
        inversion E; subst r'; clear E.
        right. exists [], i, rest, c. eexists.
        repeat split; try reflexivity; try eassumption.
        -- constructor.
        -- unfold triggers. rewrite Eup, Edown. reflexivity.
        -- simpl. lia.
        -- simpl. right. repeat split; assumption.
      * assert (Q : quietAt st up down i).
        { exists c. split; [assumption|]. unfold triggers.
          rewrite Eup, Edown. reflexivity. }
        apply IH in E. destruct E as [[-> Hq] | E].
        -- left. split; [reflexivity | constructor; assumption].
        -- destruct E as (pre & j & post & c' & e & -> & Hq & Hc & Ht & -> & He).
           right. exists (i :: pre), j, post, c', e.
           repeat split; try assumption.
           ++ constructor; assumption.
           ++ destruct He as (He & _). rewrite He. simpl. lia.
           ++ apply He.
           ++ apply He.
           ++ apply He.
Qed.

Lemma scanForward_keeps st (up down : num) indices cc r r' :
  scanForward formatTime st up down indices cc r = Ok r' ->
  Legend_Candle_no r' = Legend_Candle_no r /\
  timestamp r' = timestamp r /\
  LegendCandle r' = LegendCandle r.
Proof.
  intros E. apply scanForward_spec in E.
  destruct E as [[-> _] | (pre & i & post & c & e & _ & _ & _ & _ & -> & _)];
    repeat split; reflexivity.
Qed.

Lemma bind_Throw {A B : Type} (m : res A) (k : A -> res B) (msg : string) :
  bind m k = Throw msg ->
  m = Throw msg \/ exists a, m = Ok a /\ k a = Throw msg.
Proof.
  destruct m as [a|msg']; simpl; intros E.
  - right. exists a. split; [reflexivity | exact E].
  - left. inversion E. reflexivity.
Qed.

Lemma toFixedJs_Ok (x : num) (digits : nat) (s : string) :
  toFixedJs x digits = Ok s -> digits <= 100 /\ s = toFixed x digits.
Proof.
  unfold toFixedJs. destruct (Nat.ltb_spec 100 digits); intros E;
    [discriminate|]. inversion E. split; [lia | reflexivity].
Qed.

Lemma toFixedJs_throw (x : num) (digits : nat) (msg : string) :
  toFixedJs x digits = Throw msg -> msg = rangeError /\ 100 < digits.
Proof.
  unfold toFixedJs. destruct (Nat.ltb_spec 100 digits); intros E;
    [|discriminate]. inversion E. split; [reflexivity | assumption].
Qed.

Lemma formatPrice_Ok st (p : num) (s : string) :
  formatPrice st p = Ok s ->
  exists info, symbolInfo st = Some info /\ pricePrecision info <= 100 /\
               s = toFixed p (pricePrecision info).
Proof.
  unfold formatPrice. destruct (symbolInfo st) as [info|]; [|discriminate].
  intros E. apply toFixedJs_Ok in E. exists info. tauto.
Qed.

Lemma formatPrice_throw st (p : num) (msg : string) :
  formatPrice st p = Throw msg -> scanError st msg.
Proof.
  unfold formatPrice, scanError. destruct (symbolInfo st) as [info|].
  - intros E. apply toFixedJs_throw in E. right.
    split; [apply E|]. exists info. split; [reflexivity | apply E].
  - intros E. inversion E. left. split; reflexivity.
Qed.

Lemma formatCandleDetails_throw st c (msg : string) :
  formatCandleDetails st c = Throw msg -> scanError st msg.
Proof.
  unfold formatCandleDetails. intros E.
  repeat (apply bind_Throw in E;
          destruct E as [E | (? & _ & E)];
          [apply formatPrice_throw in E; exact E|]).
  discriminate.
Qed.

Lemma scanForward_throw st (up down : num) indices :
  forall cc r msg,
    scanForward formatTime st up down indices cc r = Throw msg ->
    Forall (fun i => i < List.length (candles st)) indices ->
    scanError st msg.
Proof.
  induction indices as [|i rest IH]; intros cc r msg E Hin; simpl in E.
  - discriminate.
  - inversion Hin as [|? ? Hi Hrest]; subst.
    destruct (nth_error (candles st) i) as [c|] eqn:Ec.
    2:{ apply nth_error_None in Ec. lia. }
    destruct (nge (high c) up); [|destruct (nle (low c) down)].
    + apply bind_Throw in E.
      destruct E as [E | (? & _ & E)]; [exact (formatPrice_throw _ _ _ E)|].
      apply bind_Throw in E.
      destruct E as [E | (? & _ & E)];
        [exact (formatCandleDetails_throw _ _ _ E) | discriminate].
    + apply bind_Throw in E.
      destruct E as [E | (? & _ & E)]; [exact (formatPrice_throw _ _ _ E)|].
      apply bind_Throw in E.
      destruct E as [E | (? & _ & E)];
        [exact (formatCandleDetails_throw _ _ _ E) | discriminate].
    + apply (IH _ _ _ E Hrest).
Qed.

Lemma forwardIndices_range st (i : nat) :
  Forall (fun j => i < j /\ j <= i + maxLookForwardCandles (trade (runConfig st))
                   /\ j < List.length (candles st))
         (forwardIndices st i).
Proof.
  unfold forwardIndices. apply Forall_forall. intros j Hj.
  apply in_seq in Hj. lia.
Qed.

Lemma forwardIndices_length st (i : nat) :
  List.length (forwardIndices st i) <= maxLookForwardCandles (trade (runConfig st)).
Proof.
  unfold forwardIndices. rewrite length_seq. lia.
Qed.

Lemma app_same_length {A : Type} (l1 l1' l2 l2' : list A) :
  l1 ++ l2 = l1' ++ l2' -> List.length l1 = List.length l1' ->
  l1 = l1' /\ l2 = l2'.
Proof.
  revert l1'. induction l1 as [|a l1 IH]; intros [|a' l1'] E L;
    simpl in *; try discriminate.
  - split; [reflexivity | assumption].
  - inversion E; subst. destruct (IH l1') as [-> ->]; [assumption | lia |].
    split; reflexivity.
Qed.

(** A prefix of the visited indices followed by [j] pins [j] down. *)
Lemma forwardIndices_split st (i : nat) pre j post :
  forwardIndices st i = pre ++ j :: post ->
  j = i + List.length pre + 1 /\
  pre = seq (i + 1) (List.length pre) /\
  List.length pre < maxLookForwardCandles (trade (runConfig st)) /\
  j < List.length (candles st).
Proof.
  intros E.
  assert (Hlen : List.length (forwardIndices st i)
                 = List.length pre + S (List.length post)).
  { rewrite E, length_app. reflexivity. }
  pose proof (forwardIndices_length st i) as Hmax.
  pose proof (forwardIndices_range st i) as Hr.
  unfold forwardIndices in *.
  set (n := Nat.min (i + maxLookForwardCandles (trade (runConfig st)) + 1)
                    (List.length (candles st)) - (i + 1)) in *.
  rewrite length_seq in Hlen.
  assert (Hn : n = List.length pre + S (List.length post)) by lia.
  rewrite Hn, seq_app in E. simpl in E.
  apply app_same_length in E; [|rewrite length_seq; reflexivity].
  destruct E as [Hp Hj]. inversion Hj as [[Hj' Hpost]].
  split; [lia|]. split; [symmetry; exact Hp|]. split.
  - rewrite length_seq in Hmax. lia.
  - rewrite Hn, seq_app in Hr. apply Forall_app in Hr.
    destruct Hr as [_ Hr]. inversion Hr; subst. lia.
Qed.

End ForwardScan.

(** ** Properties of the main scan *)

Section Engine.

Context {num : Type} `{JsNumber num}.
Variable formatTime : Z -> string.
Variable dateMillis : Z -> Z -> Z.

Implicit Types (st : @Backtester num) (r : @ThresholdResult num)
  (c : @CandleData num).

Lemma sameData_refl st : sameData st st.
Proof. repeat split. Qed.

Lemma sameData_trans st1 st2 st3 :
  sameData st1 st2 -> sameData st2 st3 -> sameData st1 st3.
Proof.
  unfold sameData. intros (a1 & a2 & a3 & a4 & a5) (b1 & b2 & b3 & b4 & b5).
  repeat split; congruence.
Qed.

Lemma sameData_legend st st' (i : nat) :
  sameData st st' -> isLegendCandle st' i = isLegendCandle st i.
Proof.
  intros (Hc & _ & _ & _ & Hr).
  unfold isLegendCandle, getLookbackPeriod, lookbackPeriod_.
  rewrite Hc, Hr. reflexivity.
Qed.

Lemma sameData_threshold st st' (lb : Lookback) (i : nat) :
  sameData st st' -> loopThreshold st' lb i = loopThreshold st lb i.
Proof.
  intros (Hc & _ & _ & _ & Hr). unfold loopThreshold, lookbackPeriod_.
  rewrite Hc, Hr. reflexivity.
Qed.

Lemma isLegendCandle_throw st (i : nat) msg :
  isLegendCandle st i = Throw msg -> List.length (candles st) <= i.
Proof.
  unfold isLegendCandle.
  destruct (lessThan i (getLookbackPeriod st)); [discriminate|].
  destruct (nth_error (candles st) i) eqn:E; [discriminate|].
  intros _. apply nth_error_None. exact E.
Qed.

(** What a returned result says about the call that built it. *)
Lemma processLegendCandle_Some st (i : nat) c (dt : num) r :
  processLegendCandle formatTime st i c dt = Ok (Some r) ->
  isLegendCandle st i = Ok true /\
  exists info r0,
    symbolInfo st = Some info /\
    entry r0 = None /\ success r0 = false /\
    Legend_Candle_no r = legendCandles st + 1 /\
    timestamp r = formatTime (openTime c) /\
    upwardThreshold (LegendCandle r)
    = toFixed (upwardOf c dt) (pricePrecision info) /\
    downwardThreshold (LegendCandle r)
    = toFixed (downwardOf c dt) (pricePrecision info) /\
    scanForward formatTime st (upwardOf c dt) (downwardOf c dt)
      (forwardIndices st i) 0 r0 = Ok r.
Proof.
  unfold processLegendCandle. intros E.
  apply bind_Ok in E. destruct E as (b & Hb & E).
  destruct b; cbn [negb] in E; [|discriminate].
  split; [exact Hb|].
  apply bind_Ok in E. destruct E as (cdt & _ & E).
  apply bind_Ok in E. destruct E as (up & Hup & E).
  apply bind_Ok in E. destruct E as (down & Hdown & E).
  apply bind_Ok in E. destruct E as (diff & _ & E).
  apply bind_Ok in E. destruct E as (details & Hd & E).
  apply bind_Ok in E. destruct E as (r1 & Hscan & E).
  inversion E; subst r1; clear E.
  apply formatPrice_Ok in Hup. destruct Hup as (info & Hinfo & _ & ->).
  apply formatPrice_Ok in Hdown. destruct Hdown as (info' & Hinfo' & _ & ->).
  rewrite Hinfo in Hinfo'. inversion Hinfo'; subst info'.
  exists info. eexists. split; [exact Hinfo|].
  destruct (scanForward_keeps _ _ _ _ _ _ _ _ Hscan) as (K1 & K2 & K3).
  repeat split; try exact Hscan; try reflexivity.
  - rewrite K1. reflexivity.
  - rewrite K2. reflexivity.
  - rewrite K3. reflexivity.
  - rewrite K3. reflexivity.
Qed.

Lemma processLegendCandle_None st (i : nat) c (dt : num) :
  processLegendCandle formatTime st i c dt = Ok None ->
  isLegendCandle st i = Ok false.
Proof.
  unfold processLegendCandle. intros E.
  apply bind_Ok in E. destruct E as (b & Hb & E).
  destruct b; cbn [negb] in E; [|exact Hb].
  repeat (apply bind_Ok in E; destruct E as (? & _ & E)). discriminate.
Qed.

Lemma thresholdDigits_throw st (x : num) (msg : string) :
  toFixedJs x (thresholdDigits st) = Throw msg -> scanError st msg.
Proof.
  intros E. apply toFixedJs_throw in E. destruct E as [-> Hd].
  unfold thresholdDigits in Hd. right. split; [reflexivity|].
  destruct (symbolInfo st) as [info|]; [|lia].
  exists info. split; [reflexivity|].
  destruct (pricePrecision info); lia.
Qed.

Lemma processLegendCandle_throw st (i : nat) c (dt : num) msg :
  processLegendCandle formatTime st i c dt = Throw msg ->
  i < List.length (candles st) ->
  scanError st msg.
Proof.
  unfold processLegendCandle. intros E Hi.
  destruct (isLegendCandle st i) as [b|m] eqn:Hb.
  2:{ apply isLegendCandle_throw in Hb. lia. }
  cbn [bind] in E. destruct b; cbn [negb] in E; [|discriminate].
  apply bind_Throw in E.
  destruct E as [E | (? & _ & E)]; [exact (thresholdDigits_throw _ _ _ E)|].
  apply bind_Throw in E.
  destruct E as [E | (? & _ & E)]; [exact (formatPrice_throw _ _ _ E)|].
  apply bind_Throw in E.
  destruct E as [E | (? & _ & E)]; [exact (formatPrice_throw _ _ _ E)|].
  apply bind_Throw in E.
  destruct E as [E | (? & _ & E)];
    [apply toFixedJs_throw in E; lia|].
  apply bind_Throw in E.
  destruct E as [E | (? & _ & E)];
    [exact (formatCandleDetails_throw _ _ _ E)|].
  apply bind_Throw in E.
  destruct E as [E | (? & _ & E)]; [|discriminate].
  apply scanForward_throw in E; [exact E|].
  eapply Forall_impl; [|apply forwardIndices_range]. simpl. intros; lia.
Qed.

Lemma countSuccess_cons r (rs : list (@ThresholdResult num)) :
  countSuccess (r :: rs) = (if success r then 1 else 0) + countSuccess rs.
Proof. unfold countSuccess. simpl. destruct (success r); reflexivity. Qed.

(** The main loop appends one result for each visited position that
    passes the legend check, in order, and counts what it appends. *)
Lemma mainLoop_spec st0 (lb : Lookback) (positions : list nat) :
  forall st rs rs' st',
    sameData st0 st ->
    mainLoop formatTime st lb positions rs = (Ok rs', st') ->
    exists new,
      rs' = rs ++ new /\ sameData st0 st' /\
      legendCandles st' = legendCandles st + List.length new /\
      successfulTrades st' = successfulTrades st + countSuccess new /\
      producedFrom formatTime st0 lb (legendCandles st)
        (filter (legendAt st0) positions) new.
Proof.
  induction positions as [|i rest IH]; intros st rs rs' st' Hsame E;
    simpl in E.
  - inversion E; subst. exists []. rewrite app_nil_r.
    repeat split; try apply Hsame; unfold countSuccess; simpl; try lia.
    constructor.
  - destruct (nth_error (candles st) i) as [c|] eqn:Ec; [|discriminate].
    destruct (processLegendCandle formatTime st i c (loopThreshold st lb i))
      as [[r|]|msg] eqn:Ep; [| |discriminate].
    + pose proof (processLegendCandle_Some _ _ _ _ _ Ep) as [Hleg _].
      assert (Hat : legendAt st0 i = true).
      { unfold legendAt. rewrite <- (sameData_legend st0 st i Hsame), Hleg.
        reflexivity. }
      set (st1 := if success r
                  then incrSuccessfulTrades (incrLegendCandles st)
                  else incrLegendCandles st) in E.
      assert (Hsame1 : sameData st0 st1).
      { apply (sameData_trans _ st _ Hsame).
        subst st1. destruct (success r); repeat split. }
      assert (Hl1 : legendCandles st1 = legendCandles st + 1).
      { subst st1. destruct (success r); reflexivity. }
      assert (Hs1 : successfulTrades st1
                    = successfulTrades st + (if success r then 1 else 0)).
      { subst st1. destruct (success r); simpl; lia. }
      destruct (IH _ _ _ _ Hsame1 E) as (new & -> & Hs' & Hl & Hs & Hp).
      exists (r :: new). rewrite <- app_assoc. simpl.
      split; [reflexivity|]. split; [exact Hs'|].
      split; [lia|]. split; [rewrite countSuccess_cons; lia|].
      rewrite Hat. constructor.
      * exists st, c. split; [exact Hsame|]. split; [reflexivity|].
        split.
        -- destruct Hsame as (Hc & _). rewrite <- Hc. exact Ec.
        -- rewrite <- (sameData_threshold st0 st lb i Hsame). exact Ep.
      * rewrite <- Hl1. exact Hp.
    + pose proof (processLegendCandle_None _ _ _ _ Ep) as Hleg.
      assert (Hat : legendAt st0 i = false).
      { unfold legendAt. rewrite <- (sameData_legend st0 st i Hsame), Hleg.
        reflexivity. }
      destruct (IH _ _ _ _ Hsame E) as (new & -> & Hs' & Hl & Hs & Hp).
      exists new. simpl. rewrite Hat.
      repeat split; try apply Hs'; assumption.
Qed.

Lemma scanError_sameData st st' (msg : string) :
  symbolInfo st' = symbolInfo st -> scanError st' msg -> scanError st msg.
Proof. unfold scanError. intros ->. tauto. Qed.

Lemma mainLoop_throw (lb : Lookback) (positions : list nat) :
  forall st rs msg st',
    mainLoop formatTime st lb positions rs = (Throw msg, st') ->
    Forall (fun i => i < List.length (candles st)) positions ->
    scanError st msg.
Proof.
  induction positions as [|i rest IH]; intros st rs msg st' E Hin;
    simpl in E.
  - discriminate.
  - inversion Hin as [|? ? Hi Hrest]; subst.
    destruct (nth_error (candles st) i) as [c|] eqn:Ec.
    2:{ apply nth_error_None in Ec. lia. }
    destruct (processLegendCandle formatTime st i c (loopThreshold st lb i))
      as [[r|]|m] eqn:Ep.
    + apply IH in E.
      * eapply scanError_sameData; [|exact E].
        destruct (success r); reflexivity.
      * destruct (success r); exact Hrest.
    + apply (IH _ _ _ _ E Hrest).
    + inversion E; subst.
      apply (processLegendCandle_throw _ _ _ _ _ Ep Hi).
Qed.

Lemma producedFrom_numbers st (lb : Lookback) :
  forall n ps rs,
    producedFrom formatTime st lb n ps rs ->
    List.length rs = List.length ps /\
    map Legend_Candle_no rs = seq (n + 1) (List.length rs).
Proof.
  intros n ps rs Hp. induction Hp as [n | n i r ps rs Hat _ [IHl IHn]].
  - split; reflexivity.
  - simpl. split; [lia|].
    destruct Hat as (st0 & c & _ & Hn & _ & Ep).
    apply processLegendCandle_Some in Ep.
    destruct Ep as (_ & info & r0 & _ & _ & _ & Hno & _).
    rewrite Hno, Hn, IHn. f_equal. f_equal. lia.
Qed.

Lemma producedFrom_Forall st (lb : Lookback) :
  forall n ps rs,
    producedFrom formatTime st lb n ps rs ->
    Forall (fun r => exists i k, In i ps /\ producedAt formatTime st lb i k r) rs.
Proof.
  intros n ps rs Hp. induction Hp as [n | n i r ps rs Hat _ IH].
  - constructor.
  - constructor.
    + exists i, n. split; [left; reflexivity | exact Hat].
    + eapply Forall_impl; [|exact IH]. simpl.
      intros r' (j & k & Hj & Hr). exists j, k. split; [right|]; assumption.
Qed.

Lemma positionsFrom_range (lb : Lookback) (len : nat) :
  Forall (fun i => i < len /\ lessThan i lb = false) (positionsFrom lb len).
Proof.
  apply Forall_forall. intros i Hi. destruct lb as [m|]; simpl in *.
  - apply in_seq in Hi. split; [lia | apply Nat.ltb_ge; lia].
  - destruct Hi.
Qed.

(** The two ways [findThresholds] returns. *)
Lemma findThresholds_Ok st out st' :
  findThresholds formatTime st = (Ok out, st') ->
  (lessThan (List.length (candles st)) (getLookbackPeriod st) = true /\
   out = {| returned := []; saved := None |} /\ st' = st) \/
  (lessThan (List.length (candles st)) (getLookbackPeriod st) = false /\
   sameData st st' /\
   legendCandles st' = legendCandles st + List.length (returned out) /\
   successfulTrades st' = successfulTrades st + countSuccess (returned out) /\
   producedFrom formatTime st (getLookbackPeriod st) (legendCandles st)
     (filter (legendAt st)
        (positionsFrom (getLookbackPeriod st) (List.length (candles st))))
     (returned out) /\
   exists doc,
     saved out = Some doc /\ saveResults st' (returned out) = Ok doc).
Proof.
  unfold findThresholds. intros E.
  destruct (lessThan (List.length (candles st)) (getLookbackPeriod st)) eqn:El.
  - left. inversion E; subst. repeat split.
  - right.
    destruct (mainLoop formatTime st (getLookbackPeriod st) _ [])
      as [[rs|msg] st1] eqn:Em; [|discriminate].
    destruct (saveResults st1 rs) as [doc|msg] eqn:Es; [|discriminate].
    inversion E; subst; clear E. simpl.
    apply (mainLoop_spec st) in Em; [|apply sameData_refl].
    destruct Em as (new & -> & Hsame & Hl & Hs & Hp). simpl in *.
    repeat split; try apply Hsame; try assumption.
    exists doc. split; [reflexivity | exact Es].
Qed.

Lemma findThresholds_throw st msg st' :
  findThresholds formatTime st = (Throw msg, st') ->
  lessThan (List.length (candles st)) (getLookbackPeriod st) = false /\
  (scanError st msg \/
   (msg = symbolInfoNotSetBeforeSaving /\ symbolInfo st = None)).
Proof.
  unfold findThresholds. intros E.
  destruct (lessThan (List.length (candles st)) (getLookbackPeriod st)) eqn:El;
    [discriminate|].
  split; [reflexivity|].
  destruct (mainLoop formatTime st (getLookbackPeriod st) _ [])
    as [[rs|m] st1] eqn:Em.
  - apply (mainLoop_spec st) in Em; [|apply sameData_refl].
    destruct Em as (new & _ & (_ & _ & Hsi & _) & _).
    unfold saveResults in E. rewrite Hsi in E.
    destruct (symbolInfo st); [discriminate|].
    inversion E. right. split; reflexivity.
  - inversion E; subst. apply mainLoop_throw in Em.
    + left. exact Em.
    + eapply Forall_impl; [|apply positionsFrom_range]. simpl. tauto.
Qed.

(** The forward scan of a returned result: either every visited candle is
    quiet and the result carries no entry, or the entry is the one built
    at the first triggering candle, [k] candles after the legend candle. *)
Lemma scan_first_trigger st (i : nat) c (dt : num) r :
  processLegendCandle formatTime st i c dt = Ok (Some r) ->
  (entry r = None /\ success r = false /\
   Forall (quietAt st (upwardOf c dt) (downwardOf c dt)) (forwardIndices st i))
  \/
  (exists k fc e,
      1 <= k <= maxLookForwardCandles (trade (runConfig st)) /\
      nth_error (candles st) (i + k) = Some fc /\
      triggers (upwardOf c dt) (downwardOf c dt) fc = true /\
      (forall m, i < m < i + k ->
                 quietAt st (upwardOf c dt) (downwardOf c dt) m) /\
      entry r = Some e /\ success r = true /\
      entryAt formatTime st (upwardOf c dt) (downwardOf c dt) fc k e).
Proof.
  intros E. apply processLegendCandle_Some in E.
  destruct E as (_ & info & r0 & _ & He0 & Hs0 & _ & _ & _ & _ & Hscan).
  apply scanForward_spec in Hscan.
  destruct Hscan as [[-> Hq] | (pre & j & post & fc & e & Hsplit & Hq & Hfc & Ht & -> & He)].
  - left. repeat split; assumption.
  - right. apply forwardIndices_split in Hsplit.
    destruct Hsplit as (Hj & Hpre & Hlt & _).
    exists (List.length pre + 1), fc, e.
    split; [lia|]. split; [replace (i + (List.length pre + 1)) with j by lia;
                           exact Hfc|].
    split; [exact Ht|]. split.
    + intros m Hm. rewrite Forall_forall in Hq. apply Hq.
      rewrite Hpre. apply in_seq. lia.
    + repeat split; try reflexivity; apply He.
Qed.

Lemma quietAt_not_triggers st (up down : num) (j : nat) fc :
  quietAt st up down j -> nth_error (candles st) j = Some fc ->
  triggers up down fc = false.
Proof.
  intros (c & Hc & Hq) Hfc. rewrite Hfc in Hc. inversion Hc; subst. exact Hq.
Qed.

(** The scan reads the candle list at the listed indices only. *)
Lemma scanForward_ext st st2 (up down : num) (indices : list nat) :
  symbolInfo st2 = symbolInfo st ->
  (forall j, In j indices ->
             nth_error (candles st2) j = nth_error (candles st) j) ->
  forall cc r0,
    scanForward formatTime st2 up down indices cc r0
    = scanForward formatTime st up down indices cc r0.
Proof.
  intros Hsi. induction indices as [|j rest IH]; intros Hj cc r0; simpl.
  - reflexivity.
  - rewrite (Hj j (or_introl eq_refl)).
    unfold formatCandleDetails, formatPrice. rewrite Hsi.
    destruct (nth_error (candles st) j) as [fc|]; [|reflexivity].
    rewrite IH; [reflexivity|]. intros k Hk. apply Hj. right. exact Hk.
Qed.

Lemma loadData_inv st (now : Z) (rows : list CandleData) :
  legendCandles (loadData dateMillis st now rows) = legendCandles st /\
  successfulTrades (loadData dateMillis st now rows) = successfulTrades st /\
  totalCandles (loadData dateMillis st now rows)
  + List.length (candles st)
  = List.length (candles (loadData dateMillis st now rows))
    + totalCandles st.
Proof.
  unfold loadData.
  generalize (dateMillis (year (startDate (dataFetch (runConfig st))))
                (month (startDate (dataFetch (runConfig st))) - 1)).
  generalize (match endDate (dataFetch (runConfig st)) with
              | Some e => dateMillis (year e) (month e - 1)
              | None => now
              end).
  intros hi lo. revert st.
  induction rows as [|row rows IH]; intros st; simpl.
  - repeat split; lia.
  - match goal with
    | |- context [fold_left ?f rows ?s] =>
        destruct (IH s) as (I1 & I2 & I3)
    end.
    rewrite I1, I2.
    destruct ((lo <=? openTime row)%Z && (openTime row <=? hi)%Z); simpl in *.
    + rewrite length_app in I3. simpl in I3. repeat split; lia.
    + repeat split; lia.
Qed.

Lemma Prepared_inv st :
  Prepared dateMillis st ->
  legendCandles st = 0 /\ successfulTrades st = 0 /\
  totalCandles st = List.length (candles st).
Proof.
  induction 1 as [sym cfg | st info _ IH | st now rows _ IH].
  - repeat split.
  - exact IH.
  - destruct IH as (I1 & I2 & I3).
    destruct (loadData_inv st now rows) as (L1 & L2 & L3).
    repeat split; lia.
Qed.

End Engine.

(** ** The claims that hold for every arithmetic *)

Section Claims.

Context {num : Type} `{JsNumber num}.
Variable formatTime : Z -> string.
Variable dateMillis : Z -> Z -> Z.

Implicit Types (st : @Backtester num) (r : @ThresholdResult num)
  (c : @CandleData num).

Lemma producedFrom_covers st (lb : Lookback) :
  forall n ps rs,
    producedFrom formatTime st lb n ps rs ->
    forall i, In i ps ->
              exists r k, In r rs /\ producedAt formatTime st lb i k r.
Proof.
  intros n ps rs Hp. induction Hp as [n | n i r ps rs Hat _ IH];
    intros j Hj.
  - destruct Hj.
  - destruct Hj as [<- | Hj].
    + exists r, n. split; [left; reflexivity | exact Hat].
    + destruct (IH j Hj) as (r' & k & Hin & Hr).
      exists r', k. split; [right|]; assumption.
Qed.

Lemma producedAt_legend st (lb : Lookback) (i k : nat) r :
  producedAt formatTime st lb i k r -> legendAt st i = true.
Proof.
  intros (st0 & c & Hsame & _ & _ & Ep).
  apply processLegendCandle_Some in Ep. destruct Ep as [Hleg _].
  unfold legendAt. rewrite <- (sameData_legend st st0 i Hsame), Hleg.
  reflexivity.
Qed.

(** [processLegendCandle] reads the candles, the symbol info, the
    configuration and the legend counter, nothing else. *)
Lemma processLegendCandle_sameData st st0 (i : nat) c (dt : num) :
  sameData st st0 -> legendCandles st0 = legendCandles st ->
  processLegendCandle formatTime st0 i c dt
  = processLegendCandle formatTime st i c dt.
Proof.
  intros Hsame Hl. unfold processLegendCandle.
  rewrite (sameData_legend st st0 i Hsame).
  destruct Hsame as (Hc & _ & Hsi & _ & Hr).
  assert (Hidx : forwardIndices st0 i = forwardIndices st i).
  { unfold forwardIndices. rewrite Hc, Hr. reflexivity. }
  assert (Hd : thresholdDigits st0 = thresholdDigits st).
  { unfold thresholdDigits. rewrite Hsi. reflexivity. }
  assert (Hfp : forall p, formatPrice st0 p = formatPrice st p).
  { intros p. unfold formatPrice. rewrite Hsi. reflexivity. }
  assert (Hfc : formatCandleDetails st0 c = formatCandleDetails st c).
  { unfold formatCandleDetails. rewrite !Hfp. reflexivity. }
  rewrite Hidx, Hl, Hd, !Hfp, Hfc.
  destruct (isLegendCandle st i) as [[|]|]; cbn [bind negb];
    try reflexivity.
  repeat match goal with
         | |- bind ?m _ = bind ?m _ =>
             destruct m; cbn [bind]; try reflexivity
         end.
  rewrite (scanForward_ext formatTime st st0);
    [reflexivity | exact Hsi |].
  intros j _. rewrite Hc. reflexivity.
Qed.

Lemma getLookbackPeriod_min st (n : nat) :
  getLookbackPeriod st = Candles n -> 10 <= n.
Proof.
  unfold getLookbackPeriod.
  generalize (timeframe (singleBacktest (runConfig st))). intros tf.
  unfold timeframeMap, inheritedProperties. cbn [lookupTimeframe existsb].
  repeat match goal with
         | |- context [String.eqb tf ?k] =>
             destruct (String.eqb tf k); cbn [orb]
         end;
    intros E; inversion E; lia.
Qed.

(** The window of position [i] is the [lb] candles right before it. *)
Lemma window_split {A : Type} (l : list A) (lb i : nat) (x : A) :
  nth_error l i = Some x -> lb <= i ->
  l = firstn (i - lb) l ++ slice l (i - lb) i ++ x :: skipn (S i) l /\
  List.length (slice l (i - lb) i) = lb.
Proof.
  intros Hx Hi.
  assert (Hlen : i < List.length l).
  { apply nth_error_Some. rewrite Hx. discriminate. }
  unfold slice. replace (i - (i - lb)) with lb by lia.
  split.
  - rewrite <- (firstn_skipn (i - lb) l) at 1. f_equal.
    rewrite <- (firstn_skipn lb (skipn (i - lb) l)) at 1. f_equal.
    rewrite skipn_skipn. replace (lb + (i - lb)) with i by lia.
    clear Hlen. revert l Hx. clear Hi.
    induction i as [|i IH]; intros [|y l] Hx; simpl in *; try discriminate.
    + inversion Hx. reflexivity.
    + apply IH. exact Hx.
  - rewrite length_firstn, length_skipn. lia.
Qed.

(** Every result of a completed scan belongs to a candle preceded by a
    window of [lookbackPeriod] candles, and carries the two prices
    [processLegendCandle] derives from the threshold of the main loop,
    printed to the price precision; an entry carries one of them as it
    is. *)
Lemma results_carry_loop_thresholds st out st' :
  findThresholds formatTime st = (Ok out, st') ->
  Forall
    (fun r =>
       exists pre window c post info,
         candles st = pre ++ window ++ c :: post /\
         getLookbackPeriod st = Candles (List.length window) /\
         symbolInfo st = Some info /\
         let dynamicThreshold :=
           nmul (averageOf (map windowDiff window))
                (thresholdMultiplier (lookbackPeriod_ st)) in
         upwardThreshold (LegendCandle r)
         = toFixed (upwardOf c dynamicThreshold) (pricePrecision info) /\
         downwardThreshold (LegendCandle r)
         = toFixed (downwardOf c dynamicThreshold) (pricePrecision info) /\
         (forall e, entry r = Some e ->
            (side e = LONG /\ price e = upwardOf c dynamicThreshold) \/
            (side e = SHORT /\ price e = downwardOf c dynamicThreshold)))
    (returned out).
Proof.
  intros E. apply findThresholds_Ok in E.
  destruct E as [(_ & -> & _) | (_ & _ & _ & _ & Hp & _)]; [constructor|].
  apply producedFrom_Forall in Hp.
  eapply Forall_impl; [|exact Hp]. simpl.
  intros r (i & k & Hi & st0 & c & Hsame & _ & Hc & Ep).
  apply filter_In in Hi. destruct Hi as [Hi _].
  destruct (getLookbackPeriod st) as [lb|] eqn:Hlb; [|destruct Hi].
  cbn [positionsFrom] in Hi. apply in_seq in Hi.
  destruct (window_split _ lb i c Hc (proj1 Hi)) as [Hsplit Hwin].
  pose proof (scan_first_trigger _ _ _ _ _ _ Ep) as Hscan.
  apply processLegendCandle_Some in Ep.
  destruct Ep as (_ & info & r0 & Hinfo & _ & _ & _ & _ & Hup & Hdown & _).
  destruct Hsame as (_ & _ & Hsi & _). rewrite Hsi in Hinfo.
  exists (firstn (i - lb) (candles st)), (slice (candles st) (i - lb) i), c,
    (skipn (S i) (candles st)), info.
  split; [exact Hsplit|]. split; [rewrite Hwin; reflexivity|].
  split; [exact Hinfo|].
  change (nmul (averageOf (map windowDiff (slice (candles st) (i - lb) i)))
               (thresholdMultiplier (lookbackPeriod_ st)))
    with (loopThreshold st (Candles lb) i).
  split; [exact Hup|]. split; [exact Hdown|].
  intros e He.
  destruct Hscan as [(Hnone & _) | (n & fc & e' & _ & _ & _ & _ & He' & _ & Hat)].
  - rewrite Hnone in He. discriminate.
  - rewrite He in He'. inversion He'; subst e'.
    destruct Hat as (_ & _ & _ & [(_ & Hs & _ & Hpr) | (_ & _ & Hs & _ & Hpr)]).
    + left. split; assumption.
    + right. split; assumption.
Qed.

(** C1 (as the code has it): the check
    [currentDiff >= threshold * averageDiff] of [isLegendCandle] gates
    the emission. With a lookback period that is a number, a completed
    scan returns, in position order, one result for each position
    [i >= lookbackPeriod] that passes the check and none for a position
    that fails it. With a lookback period that is not a number (a
    timeframe naming an inherited property of the table) the loop visits
    no position and the scan returns nothing. *)
Theorem findThresholds_emits_checked_positions st out st' :
  findThresholds formatTime st = (Ok out, st') ->
  match getLookbackPeriod st with
  | Candles lb =>
      producedFrom formatTime st lb (legendCandles st)
        (filter (legendAt st) (seq lb (List.length (candles st) - lb)))
        (returned out) /\
      (forall i, lb <= i < List.length (candles st) ->
         (legendAt st i = true <->
          exists r k,
            In r (returned out) /\ producedAt formatTime st lb i k r)) /\
      (forall i c, lb <= i -> nth_error (candles st) i = Some c ->
         legendAt st i
         = nge (candleDiff c)
               (nmul (threshold (lookbackPeriod_ st))
                     (averageOf (map windowDiff
                                   (slice (candles st) (i - lb) i)))))
  | NotANumber => returned out = []
  end.
Proof.
  intros E. pose proof E as E0. apply findThresholds_Ok in E.
  assert (Hp : producedFrom formatTime st (getLookbackPeriod st)
                 (legendCandles st)
                 (filter (legendAt st)
                    (positionsFrom (getLookbackPeriod st)
                       (List.length (candles st))))
                 (returned out)).
  { destruct E as [(Hlt & -> & _) | (_ & _ & _ & _ & Hp & _)]; [|exact Hp].
    destruct (getLookbackPeriod st) as [lb|]; [|discriminate].
    cbn [lessThan positionsFrom] in *. apply Nat.ltb_lt in Hlt.
    replace (List.length (candles st) - lb) with 0 by lia.
    constructor. }
  clear E.
  destruct (getLookbackPeriod st) as [lb|] eqn:Hlb.
  - cbn [positionsFrom] in Hp. split; [exact Hp|]. split.
    + intros i Hi. split.
      * intros Hleg. apply (producedFrom_covers _ _ _ _ _ Hp).
        apply filter_In. split; [apply in_seq; lia | exact Hleg].
      * intros (r & k & _ & Hr). apply (producedAt_legend _ _ _ _ _ Hr).
    + intros i c Hi Hc. unfold legendAt, isLegendCandle. rewrite Hlb.
      cbn [lessThan sliceStart].
      destruct (i <? lb) eqn:El; [apply Nat.ltb_lt in El; lia|].
      rewrite Hc. reflexivity.
  - cbn [positionsFrom filter] in Hp. inversion Hp. reflexivity.
Qed.

(** C3: when a forward candle within the look-ahead has both
    [high >= upwardThreshold] and [low <= downwardThreshold], and no earlier
    forward candle triggers, the entry is LONG with reason
    UpwardThresholdMet at the upward threshold itself, and it is the entry
    of that candle: the scan stopped there. *)
Theorem entry_upward_wins_tie st (i : nat) c (dt : num) r (j : nat) fc :
  processLegendCandle formatTime st i c dt = Ok (Some r) ->
  i < j <= i + maxLookForwardCandles (trade (runConfig st)) ->
  nth_error (candles st) j = Some fc ->
  (forall m, i < m < j -> quietAt st (upwardOf c dt) (downwardOf c dt) m) ->
  nge (high fc) (upwardOf c dt) = true ->
  nle (low fc) (downwardOf c dt) = true ->
  exists e,
    entry r = Some e /\ success r = true /\
    side e = LONG /\ reason e = UpwardThresholdMet /\
    price e = upwardOf c dt /\
    candlesUntilThreshold e = j - i /\
    time e = formatTime (openTime fc).
Proof.
  intros E Hj Hfc Hquiet Hup Hdown.
  assert (Htrig : triggers (upwardOf c dt) (downwardOf c dt) fc = true).
  { unfold triggers. rewrite Hup. reflexivity. }
  assert (Hjlen : j < List.length (candles st)).
  { apply nth_error_Some. rewrite Hfc. discriminate. }
  destruct (scan_first_trigger _ _ _ _ _ _ E)
    as [(_ & _ & Hq) | (k & fc' & e & Hk & Hfc' & Ht' & Hq' & He & Hs & Hat)].
  - exfalso. rewrite Forall_forall in Hq.
    assert (Hin : In j (forwardIndices st i)).
    { unfold forwardIndices. apply in_seq. lia. }
    pose proof (quietAt_not_triggers _ _ _ _ _ (Hq j Hin) Hfc) as Hn.
    rewrite Hn in Htrig. discriminate.
  - assert (Hjk : j = i + k).
    { destruct (Nat.lt_trichotomy j (i + k)) as [Hlt | [Heq | Hgt]].
      - exfalso.
        pose proof (quietAt_not_triggers _ _ _ _ _ (Hq' j (conj (proj1 Hj) Hlt)) Hfc)
          as Hn.
        rewrite Hn in Htrig. discriminate.
      - exact Heq.
      - exfalso.
        assert (Hm : i < i + k < j) by lia.
        pose proof (quietAt_not_triggers _ _ _ _ _ (Hquiet _ Hm) Hfc') as Hn.
        rewrite Hn in Ht'. discriminate. }
    subst j. rewrite Hfc in Hfc'. inversion Hfc'; subst fc'.
    destruct Hat as (Hcut & Htime & _ & [(_ & Hside & Hreason & Hprice)
                                        | (Hno & _)]).
    + exists e. repeat split; try assumption. lia.
    + rewrite Hup in Hno. discriminate.
Qed.

(** C4: the forward scan of the result for position [i] reads the candle
    list only at indices [i+1 .. min(i + maxLookForwardCandles, last)]: it
    is the same on any series that agrees there. When no candle in that
    range triggers, the result has no entry and [success = false]. An
    entry has [1 <= candlesUntilThreshold <= maxLookForwardCandles], and
    that count leads to the first triggering candle, itself included. *)
Theorem entry_scan_is_bounded st (i : nat) c (dt : num) r :
  processLegendCandle formatTime st i c dt = Ok (Some r) ->
  let up := upwardOf c dt in
  let down := downwardOf c dt in
  let maxLookForward := maxLookForwardCandles (trade (runConfig st)) in
  (forall st2 cc r0,
      symbolInfo st2 = symbolInfo st -> runConfig st2 = runConfig st ->
      List.length (candles st2) = List.length (candles st) ->
      (forall j, i < j <= i + maxLookForward ->
                 nth_error (candles st2) j = nth_error (candles st) j) ->
      scanForward formatTime st2 up down (forwardIndices st2 i) cc r0
      = scanForward formatTime st up down (forwardIndices st i) cc r0) /\
  ((forall j, i < j <= i + maxLookForward -> j < List.length (candles st) ->
              quietAt st up down j) ->
   entry r = None /\ success r = false) /\
  (forall e, entry r = Some e ->
     1 <= candlesUntilThreshold e <= maxLookForward /\
     exists fc,
       nth_error (candles st) (i + candlesUntilThreshold e) = Some fc /\
       triggers up down fc = true /\
       forall m, i < m < i + candlesUntilThreshold e -> quietAt st up down m).
Proof.
  intros E up down maxLookForward. split; [|split].
  - intros st2 cc r0 Hsi Hcfg Hlen Hagree.
    assert (Hidx : forwardIndices st2 i = forwardIndices st i).
    { unfold forwardIndices. rewrite Hcfg, Hlen. reflexivity. }
    rewrite Hidx. apply scanForward_ext; [exact Hsi|].
    intros j Hj. apply Hagree.
    pose proof (forwardIndices_range st i) as Hr.
    rewrite Forall_forall in Hr. specialize (Hr j Hj).
    subst maxLookForward. lia.
  - intros Hquiet.
    destruct (scan_first_trigger _ _ _ _ _ _ E)
      as [(He & Hs & _) | (k & fc & e & Hk & Hfc & Ht & _)].
    + split; assumption.
    + exfalso.
      assert (Hlen : i + k < List.length (candles st)).
      { apply nth_error_Some. rewrite Hfc. discriminate. }
      assert (Hin : i < i + k <= i + maxLookForward)
        by (subst maxLookForward; lia).
      pose proof (quietAt_not_triggers _ _ _ _ _ (Hquiet _ Hin Hlen) Hfc) as Hn.
      fold up down in Ht. rewrite Hn in Ht. discriminate.
  - intros e He.
    destruct (scan_first_trigger _ _ _ _ _ _ E)
      as [(Hnone & _) | (k & fc & e' & Hk & Hfc & Ht & Hq & He' & _ & Hat)].
    + rewrite Hnone in He. discriminate.
    + rewrite He in He'. inversion He'; subst e'.
      destruct Hat as (Hcut & _). rewrite Hcut.
      split; [exact Hk|]. exists fc. repeat split; assumption.
Qed.

(** C5 (as the code has it): on a prepared engine whose lookback period
    is a number and whose series is shorter than it, [findThresholds]
    returns the empty list without raising and leaves the engine as it
    was; the legend count, the success count and the success rate are 0,
    the rate being the literal 0, while [totalCandles] is the number of
    candles loaded. *)
Theorem short_series_short_circuits st (lb : nat) :
  Prepared dateMillis st ->
  getLookbackPeriod st = Candles lb ->
  List.length (candles st) < lb ->
  findThresholds formatTime st
  = (Ok {| returned := []; saved := None |}, st) /\
  getStats st
  = {| s_totalCandles := List.length (candles st);
       s_legendCandles := 0;
       successRate := fromZ 0;
       s_successfulTrades := 0 |}.
Proof.
  intros Hprep Hlb Hlen. split.
  - unfold findThresholds. rewrite Hlb. cbn [lessThan].
    apply Nat.ltb_lt in Hlen. rewrite Hlen. reflexivity.
  - destruct (Prepared_inv _ _ Hprep) as (Hl & Hs & Ht).
    unfold getStats. rewrite Hl, Hs, Ht. reflexivity.
Qed.

(** C6: the results of a run on a prepared engine carry the numbers
    1, 2, ..., N in list order. *)
Theorem legend_numbers_are_ordinals st out st' :
  Prepared dateMillis st ->
  findThresholds formatTime st = (Ok out, st') ->
  map Legend_Candle_no (returned out)
  = seq 1 (List.length (returned out)).
Proof.
  intros Hprep E.
  destruct (Prepared_inv _ _ Hprep) as (Hl & _).
  apply findThresholds_Ok in E.
  destruct E as [(_ & -> & _) | (_ & _ & _ & _ & Hp & _)].
  - reflexivity.
  - apply producedFrom_numbers in Hp. destruct Hp as [_ Hn].
    rewrite Hl in Hn. exact Hn.
Qed.

(** C7 (as the code has it): after a completed run on a prepared engine the
    recorded statistics are those recomputed from the returned list: the
    legend count is its length, the success count the number of its
    results with [success = true], the success rate
    [successful / legend * 100] (0 when there is no legend candle); the
    document handed to the writer holds the same list and statistics. *)
Theorem stats_recomputable_from_results st out st' :
  Prepared dateMillis st ->
  findThresholds formatTime st = (Ok out, st') ->
  getStats st' = statsOf (totalCandles st) (returned out) /\
  (forall doc, saved out = Some doc ->
     results doc = returned out /\
     stats doc = statsOf (totalCandles st) (returned out)).
Proof.
  intros Hprep E.
  destruct (Prepared_inv _ _ Hprep) as (Hl & Hs & _).
  apply findThresholds_Ok in E.
  destruct E as [(_ & -> & ->) | (_ & Hsame & Hl' & Hs' & _ & doc & Hdoc & Hsave)].
  - split.
    + unfold getStats, statsOf. rewrite Hl, Hs. reflexivity.
    + intros doc Hdoc. discriminate.
  - assert (Hstats : getStats st' = statsOf (totalCandles st) (returned out)).
    { unfold getStats, statsOf. rewrite Hl', Hs', Hl, Hs. simpl.
      destruct Hsame as (_ & Ht & _). rewrite Ht. reflexivity. }
    split; [exact Hstats|].
    intros doc' Hdoc'. rewrite Hdoc in Hdoc'. inversion Hdoc'; subst doc'.
    unfold saveResults in Hsave.
    destruct (symbolInfo st'); [|discriminate].
    inversion Hsave; subst doc. simpl. split; [reflexivity | exact Hstats].
Qed.

(** C8: [findThresholds] raises a missing-symbol-info error exactly when
    the symbol info is unset and the run is not short-circuited, that is
    when the test [candles.length < lookbackPeriod] fails, and then
    nothing is returned in its place; a run short-circuited by
    insufficient data returns without it, with or without symbol info.
    The one other exception of the scan loop is the range error of
    [toFixed], for a price precision above 100 that is set. *)
Theorem missing_symbol_info_is_fatal st :
  ((exists msg st', findThresholds formatTime st = (Throw msg, st') /\
                    isMissingSymbolInfo msg = true) <->
   (symbolInfo st = None /\
    lessThan (List.length (candles st)) (getLookbackPeriod st) = false)) /\
  (lessThan (List.length (candles st)) (getLookbackPeriod st) = true ->
   findThresholds formatTime st
   = (Ok {| returned := []; saved := None |}, st)) /\
  (forall msg st1,
     mainLoop formatTime st (getLookbackPeriod st)
       (positionsFrom (getLookbackPeriod st) (List.length (candles st))) []
     = (Throw msg, st1) ->
     isMissingSymbolInfo msg = false ->
     msg = rangeError /\
     exists info, symbolInfo st = Some info /\ 100 < pricePrecision info).
Proof.
  split; [split|split].
  - intros (msg & st' & E & Hmsg). apply findThresholds_throw in E.
    destruct E as (Hlen & [[(_ & Hsi) | (-> & _)] | (_ & Hsi)]).
    + split; assumption.
    + discriminate.
    + split; assumption.
  - intros (Hsi & Hlen).
    destruct (findThresholds formatTime st) as [[out|msg] st'] eqn:E.
    + exfalso. apply findThresholds_Ok in E.
      destruct E as [(Hlt & _) | (_ & Hsame & _ & _ & _ & doc & _ & Hsave)].
      * rewrite Hlen in Hlt. discriminate.
      * unfold saveResults in Hsave. destruct Hsame as (_ & _ & Hsi' & _).
        rewrite Hsi', Hsi in Hsave. discriminate.
    + exists msg, st'. split; [reflexivity|].
      apply findThresholds_throw in E.
      destruct E as (_ & [[(-> & _) | (_ & info & Hinfo & _)] | (-> & _)]).
      * reflexivity.
      * rewrite Hsi in Hinfo. discriminate.
      * reflexivity.
  - intros Hlen. unfold findThresholds. rewrite Hlen. reflexivity.
  - intros msg st1 E Hmsg. apply mainLoop_throw in E.
    + destruct E as [(-> & _) | Hrange]; [discriminate | exact Hrange].
    + eapply Forall_impl; [|apply positionsFrom_range]. simpl. tauto.
Qed.

(** C10: in every result of a completed scan, [success] is true exactly
    when the entry is present. *)
Theorem success_iff_entry st out st' :
  findThresholds formatTime st = (Ok out, st') ->
  Forall (fun r => success r = true <-> exists e, entry r = Some e)
         (returned out).
Proof.
  intros E. apply findThresholds_Ok in E.
  destruct E as [(_ & -> & _) | (_ & _ & _ & _ & Hp & _)].
  - constructor.
  - apply producedFrom_Forall in Hp.
    eapply Forall_impl; [|exact Hp]. simpl.
    intros r (i & k & _ & st0 & c & _ & _ & _ & Ep).
    destruct (scan_first_trigger _ _ _ _ _ _ Ep)
      as [(He & Hs & _) | (n & fc & e & _ & _ & _ & _ & He & Hs & _)].
    + rewrite He, Hs. split; [discriminate | intros (e & He'); discriminate].
    + rewrite He, Hs. split; [intros _; exists e|]; reflexivity.
Qed.

End Claims.

(** ** Threshold values in exact arithmetic *)

Section Rational.

Variable formatTime : Z -> string.

Local Open Scope Q_scope.

Implicit Types (st : @Backtester Q) (r : @ThresholdResult Q)
  (c : @CandleData Q).

Lemma fold_left_Qplus (xs : list Q) (a : Q) :
  fold_left Qplus xs a == a + sumOf xs.
Proof.
  revert a. induction xs as [|x xs IH]; intros a; simpl.
  - ring.
  - rewrite IH. ring.
Qed.

Lemma averageOf_meanOf (xs : list Q) : averageOf xs == meanOf xs.
Proof.
  unfold averageOf, meanOf. simpl. rewrite fold_left_Qplus.
  unfold Qdiv. ring.
Qed.

Lemma sumOf_Qeq (xs ys : list Q) :
  Forall2 Qeq xs ys -> sumOf xs == sumOf ys.
Proof.
  induction 1 as [|x y xs ys E _ IH]; simpl.
  - reflexivity.
  - rewrite E, IH. reflexivity.
Qed.

Lemma windowDiff_codeMove c : windowDiff c = codeMove c.
Proof. reflexivity. Qed.

Lemma codeMove_specMove c : 0 < open c -> codeMove c == specMove c.
Proof.
  intros Hpos. unfold codeMove, specMove, Qdiv.
  rewrite Qabs_Qmult, Qabs_Qinv, (Qabs_pos (open c)).
  - reflexivity.
  - apply Qlt_le_weak. exact Hpos.
Qed.

Lemma Qabs_zero (x : Q) : Qabs x == 0 -> x == 0.
Proof.
  intros E. destruct (Qlt_le_dec x 0) as [Hneg|Hpos].
  - rewrite Qabs_neg in E by (apply Qlt_le_weak; exact Hneg).
    rewrite <- (Qopp_involutive x), E. reflexivity.
  - rewrite Qabs_pos in E by exact Hpos. exact E.
Qed.

(** With an open that is not 0 the move of a candle is the quotient of
    [abs(close - open) * 100] by [abs(open)]. *)
Lemma codeMove_quotient c :
  ~ open c == 0 ->
  codeMove c * Qabs (open c) == Qabs (close c - open c) * 100.
Proof.
  intros Hopen. unfold codeMove, Qdiv.
  rewrite Qabs_Qmult, Qabs_Qinv. field.
  intros E. apply Hopen, Qabs_zero, E.
Qed.

Lemma codeThreshold_specThreshold (window : list CandleData) (mult : Q) :
  Forall (fun w => 0 < open w) window ->
  codeDynamicThreshold window mult == specDynamicThreshold window mult.
Proof.
  intros Hpos. unfold codeDynamicThreshold, specDynamicThreshold, meanOf.
  rewrite !length_map.
  assert (Hs : sumOf (map codeMove window) == sumOf (map specMove window)).
  { apply sumOf_Qeq. induction Hpos as [|w ws Hw _ IH]; simpl.
    - constructor.
    - constructor; [apply codeMove_specMove; exact Hw | exact IH]. }
  rewrite Hs. reflexivity.
Qed.

Lemma windowThreshold_code (window : list CandleData) (mult : Q) :
  nmul (averageOf (map windowDiff window)) mult
  == codeDynamicThreshold window mult.
Proof.
  unfold codeDynamicThreshold. cbn [nmul JsNumber_Q].
  apply Qmult_comp; [|reflexivity].
  apply (averageOf_meanOf (map codeMove window)).
Qed.

Lemma upwardOf_factor c (dt : Q) :
  upwardOf c dt == close c * (1 + dt / 100).
Proof.
  unfold upwardOf, hundred. simpl.
  unfold Qdiv. change (inject_Z 100) with 100. ring.
Qed.

Lemma downwardOf_factor c (dt : Q) :
  downwardOf c dt == close c * (1 - dt / 100).
Proof.
  unfold downwardOf, hundred. simpl.
  unfold Qdiv. change (inject_Z 100) with 100. ring.
Qed.

(** The formulas of the threshold computation in exact arithmetic. *)
Lemma threshold_formulas c (window : list CandleData) (mult : Q) :
  let D := nmul (averageOf (map windowDiff window)) mult in
  upwardOf c D == close c * (1 + D / 100) /\
  downwardOf c D == close c * (1 - D / 100) /\
  D == meanOf (map codeMove window) * mult /\
  (Forall (fun w => ~ open w == 0) window ->
   Forall (fun w => codeMove w * Qabs (open w)
                    == Qabs (close w - open w) * 100) window) /\
  (Forall (fun w => 0 < open w) window ->
   D == meanOf (map specMove window) * mult).
Proof.
  intros D. split; [apply upwardOf_factor|]. split; [apply downwardOf_factor|].
  split; [apply windowThreshold_code|]. split.
  - intros Hopen. eapply Forall_impl; [|exact Hopen].
    intros w Hw. apply codeMove_quotient, Hw.
  - intros Hpos. subst D. rewrite windowThreshold_code.
    apply codeThreshold_specThreshold, Hpos.
Qed.

(** C9 (as the code has it): at the lookback of the '1d' timeframe (10,
    the smallest of the table), with multiplier 2 and base threshold 15,
    ten window candles with open 100 and close 100.5, then the candle with
    open 100, high 130, low 70, close 120: the mean window move is 0.5,
    the dynamic threshold 1, the thresholds 121.20 above and 118.80 below
    the close of 120; and whenever the next candle has high 130 the first
    result carries a LONG entry at price 121.2 with
    [candlesUntilThreshold = 1] and [success = true]. *)
Theorem scenario_long_entry (fwd : @CandleData Q) :
  high fwd == 130 ->
  getLookbackPeriod (Sample.scenario10 fwd) = 10%nat /\
  meanOf (map specMove (slice (candles (Sample.scenario10 fwd)) 0 10)) == 0.5 /\
  loopThreshold (Sample.scenario10 fwd) 10 10 == 1 /\
  exists out st' r rest e,
    findThresholds formatTime (Sample.scenario10 fwd) = (Ok out, st') /\
    returned out = r :: rest /\
    Legend_Candle_no r = 1%nat /\
    upwardThreshold (LegendCandle r) = "121.20"%string /\
    downwardThreshold (LegendCandle r) = "118.80"%string /\
    entry r = Some e /\ success r = true /\
    side e = LONG /\ reason e = UpwardThresholdMet /\
    price e == 121.2 /\ candlesUntilThreshold e = 1%nat.
Proof.
  intros Hhigh. set (st := Sample.scenario10 fwd).
  assert (Hlb : getLookbackPeriod st = 10%nat) by reflexivity.
  assert (Hlen : List.length (candles st) = 12%nat) by reflexivity.
  assert (Hbig : nth_error (candles st) 10 = Some (Sample.big 10))
    by reflexivity.
  assert (Hfwd : nth_error (candles st) 11 = Some fwd) by reflexivity.
  assert (Hleg : legendAt st 10 = true) by (vm_compute; reflexivity).
  assert (Hup : Q_toFixed (upwardOf (Sample.big 10) (loopThreshold st 10 10)) 2
                = "121.20"%string) by (vm_compute; reflexivity).
  assert (Hdown : Q_toFixed (downwardOf (Sample.big 10) (loopThreshold st 10 10)) 2
                  = "118.80"%string) by (vm_compute; reflexivity).
  assert (Hupv : upwardOf (Sample.big 10) (loopThreshold st 10 10) == 121.2)
    by (vm_compute; reflexivity).
  split; [exact Hlb|]. split; [vm_compute; reflexivity|].
  split; [vm_compute; reflexivity|].
  destruct (findThresholds formatTime st) as [[out|msg] st'] eqn:E.
  2:{ apply findThresholds_throw in E.
      destruct E as (_ & [[(_ & Hn) | (_ & i0 & Hi0 & Hp)] | (_ & Hn)]).
      - discriminate Hn.
      - inversion Hi0; subst i0. simpl in Hp. lia.
      - discriminate Hn. }
  pose proof E as E'. apply findThresholds_Ok in E'.
  destruct E' as [(Hshort & _) | (_ & _ & _ & _ & Hp & _)];
    [rewrite Hlb, Hlen in Hshort; discriminate Hshort|].
  rewrite Hlb, Hlen in Hp.
  change (positionsFrom 10%nat 12) with [10; 11]%nat in Hp.
  cbn [filter] in Hp. rewrite Hleg in Hp.
  inversion Hp as [|n i r ps rs Hat Hrest Hn Hps Hrs]; subst.
  destruct Hat as (st0 & c & Hsame & Hl0 & Hc & Ep).
  rewrite Hbig in Hc. inversion Hc; subst c.
  rewrite (processLegendCandle_sameData formatTime st st0) in Ep;
    [|exact Hsame | exact Hl0].
  pose proof (scan_first_trigger _ _ _ _ _ _ Ep) as Hscan.
  apply processLegendCandle_Some in Ep.
  destruct Ep as (_ & i0 & r0 & Hi0 & _ & _ & Hno & _ & Hu & Hd & _).
  inversion Hi0; subst i0.
  assert (Hnge : nge (high fwd)
                     (upwardOf (Sample.big 10) (loopThreshold st 10 10)) = true).
  { cbn [nge JsNumber_Q]. apply Qle_bool_iff. rewrite Hupv, Hhigh.
    apply Qle_bool_iff. reflexivity. }
  destruct Hscan as [(_ & _ & Hq) | (k & fc & e & Hk & Hfc & _ & _ & He & Hs & Hat)].
  - exfalso. change (forwardIndices st 10) with [11%nat] in Hq.
    inversion Hq as [|? ? Hq11 _]; subst.
    pose proof (quietAt_not_triggers _ _ _ _ _ Hq11 Hfwd) as Hn.
    unfold triggers in Hn. rewrite Hnge in Hn. discriminate.
  - assert (Hk1 : k = 1%nat).
    { assert ((10 + k < List.length (candles st))%nat).
      { apply nth_error_Some. rewrite Hfc. discriminate. }
      rewrite Hlen in *. lia. }
    subst k. change (10 + 1)%nat with 11%nat in Hfc.
    rewrite Hfwd in Hfc. inversion Hfc; subst fc.
    destruct Hat as (Hcut & _ & _ & [(_ & Hside & Hreason & Hprice) | (Hno' & _)]).
    2:{ rewrite Hnge in Hno'. discriminate. }
    exists out, st', r, rs, e.
    split; [reflexivity|]. split; [symmetry; assumption|].
    split; [rewrite Hno; reflexivity|].
    split; [rewrite Hu; exact Hup|]. split; [rewrite Hd; exact Hdown|].
    split; [exact He|]. split; [exact Hs|]. split; [exact Hside|].
    split; [exact Hreason|]. split; [rewrite Hprice; exact Hupv | exact Hcut].
Qed.

End Rational.


(** ** The statements on sample runs *)

Lemma engine_Prepared cfg rows :
  Prepared Sample.monthStart (Sample.engine cfg rows).
Proof.
  unfold Sample.engine. apply prepared_load, prepared_info, prepared_new.
Qed.

(** C1 as worded fails: with the '1d' lookback of 10, ten candles moving
    1 % and an eleventh that does not move, position 10 has ten candles
    before it, fails the check (0 < 15 * 1), and gets no result. *)
Lemma advisory_check_suppresses_result :
  getLookbackPeriod Sample.flatRun = 10 /\
  List.length (candles Sample.flatRun) = 11 /\
  isLegendCandle Sample.flatRun 10 = Ok false /\
  exists out st',
    findThresholds Sample.showTime Sample.flatRun = (Ok out, st') /\
    returned out = [].
Proof.
  split; [reflexivity|]. split; [reflexivity|].
  split; [vm_compute; reflexivity|].
  eexists. eexists. split; [vm_compute; reflexivity | reflexivity].
Qed.

(** C1 on the sample run: the scan completes and its results are those of
    the positions that pass the check. *)
Lemma findThresholds_emits_checked_positions_witness :
  exists out st',
    findThresholds Sample.showTime Sample.longRun = (Ok out, st') /\
    getLookbackPeriod Sample.longRun = 10 /\
    producedFrom Sample.showTime Sample.longRun 10
      (legendCandles Sample.longRun)
      (filter (legendAt Sample.longRun)
         (seq 10 (List.length (candles Sample.longRun) - 10)))
      (returned out).
Proof.
  assert (Hlb : getLookbackPeriod Sample.longRun = 10)
    by (vm_compute; reflexivity).
  destruct (findThresholds Sample.showTime Sample.longRun)
    as [[out|msg] st'] eqn:E.
  - exists out, st'. split; [reflexivity|]. split; [exact Hlb|].
    pose proof (findThresholds_emits_checked_positions
                  Sample.showTime Sample.longRun out st' E) as Hthm.
    rewrite Hlb in Hthm. exact (proj1 Hthm).
  - exfalso. vm_compute in E. discriminate.
Defined.



(** C3 on a run whose first forward candle crosses both thresholds. *)
Lemma entry_upward_wins_tie_witness :
  exists r e,
    processLegendCandle Sample.showTime Sample.tieRun 10 (Sample.big 10)
      (loopThreshold Sample.tieRun 10 10) = Ok (Some r) /\
    nth_error (candles Sample.tieRun) 11 = Some Sample.tieCandle /\
    nge (high Sample.tieCandle)
        (upwardOf (Sample.big 10) (loopThreshold Sample.tieRun 10 10)) = true /\
    nle (low Sample.tieCandle)
        (downwardOf (Sample.big 10) (loopThreshold Sample.tieRun 10 10)) = true /\
    entry r = Some e /\ success r = true /\
    side e = LONG /\ reason e = UpwardThresholdMet /\
    price e = upwardOf (Sample.big 10) (loopThreshold Sample.tieRun 10 10) /\
    candlesUntilThreshold e = 11 - 10 /\
    time e = Sample.showTime (openTime Sample.tieCandle).
Proof.
  assert (Hc : nth_error (candles Sample.tieRun) 11 = Some Sample.tieCandle)
    by reflexivity.
  assert (Hup : nge (high Sample.tieCandle)
                    (upwardOf (Sample.big 10) (loopThreshold Sample.tieRun 10 10))
                = true) by (vm_compute; reflexivity).
  assert (Hdown : nle (low Sample.tieCandle)
                      (downwardOf (Sample.big 10) (loopThreshold Sample.tieRun 10 10))
                  = true) by (vm_compute; reflexivity).
  destruct (processLegendCandle Sample.showTime Sample.tieRun 10 (Sample.big 10)
              (loopThreshold Sample.tieRun 10 10)) as [[r|]|msg] eqn:E.
  - assert (Hj : 10 < 11 <= 10 + maxLookForwardCandles
                                   (trade (runConfig Sample.tieRun)))
      by (vm_compute; lia).
    assert (Hq : forall m, 10 < m < 11 ->
                   quietAt Sample.tieRun
                     (upwardOf (Sample.big 10) (loopThreshold Sample.tieRun 10 10))
                     (downwardOf (Sample.big 10) (loopThreshold Sample.tieRun 10 10))
                     m) by (intros m Hm; lia).
    destruct (entry_upward_wins_tie Sample.showTime Sample.tieRun 10
                (Sample.big 10) (loopThreshold Sample.tieRun 10 10) r 11
                Sample.tieCandle E Hj Hc Hq Hup Hdown) as (e & He).
    exists r, e. split; [reflexivity|]. split; [exact Hc|].
    split; [exact Hup|]. split; [exact Hdown|]. exact He.
  - exfalso. vm_compute in E. discriminate.
  - exfalso. vm_compute in E. discriminate.
Defined.

(** C4 on the result of position 10 of the sample run. *)
Lemma entry_scan_is_bounded_witness :
  exists r,
    processLegendCandle Sample.showTime Sample.longRun 10 (Sample.big 10)
      (loopThreshold Sample.longRun 10 10) = Ok (Some r) /\
    forall e, entry r = Some e ->
      1 <= candlesUntilThreshold e
      <= maxLookForwardCandles (trade (runConfig Sample.longRun)).
Proof.
  destruct (processLegendCandle Sample.showTime Sample.longRun 10 (Sample.big 10)
              (loopThreshold Sample.longRun 10 10)) as [[r|]|msg] eqn:E.
  - exists r. split; [reflexivity|]. intros e He.
    exact (proj1 (proj2 (proj2 (entry_scan_is_bounded Sample.showTime
                                  Sample.longRun 10 (Sample.big 10)
                                  (loopThreshold Sample.longRun 10 10) r E))
                    e He)).
  - exfalso. vm_compute in E. discriminate.
  - exfalso. vm_compute in E. discriminate.
Defined.

(** C5 as worded fails on [totalCandles]: five candles loaded for the '1d'
    timeframe are fewer than its lookback of 10, the scan returns the
    empty list, and the statistics count the five candles. *)
Lemma short_series_counts_candles :
  List.length (candles Sample.shortRun) = 5 /\
  getLookbackPeriod Sample.shortRun = 10 /\
  fst (findThresholds Sample.showTime Sample.shortRun)
  = Ok {| returned := []; saved := None |} /\
  s_totalCandles (getStats Sample.shortRun) = 5 /\
  s_totalCandles (getStats Sample.shortRun) <> 0.
Proof.
  repeat split; try reflexivity. vm_compute. discriminate.
Qed.

(** C5 on five candles prepared for the '1d' timeframe. *)
Lemma short_series_short_circuits_witness :
  Prepared Sample.monthStart Sample.shortRun /\
  getLookbackPeriod Sample.shortRun = 10 /\
  List.length (candles Sample.shortRun) < 10 /\
  findThresholds Sample.showTime Sample.shortRun
  = (Ok {| returned := []; saved := None |}, Sample.shortRun) /\
  getStats Sample.shortRun
  = {| s_totalCandles := List.length (candles Sample.shortRun);
       s_legendCandles := 0;
       successRate := fromZ 0;
       s_successfulTrades := 0 |}.
Proof.
  assert (Hp : Prepared Sample.monthStart Sample.shortRun)
    by apply engine_Prepared.
  assert (Hlb : getLookbackPeriod Sample.shortRun = 10)
    by (vm_compute; reflexivity).
  assert (Hl : List.length (candles Sample.shortRun) < 10)
    by (vm_compute; lia).
  split; [exact Hp|]. split; [exact Hlb|]. split; [exact Hl|].
  exact (short_series_short_circuits Sample.showTime Sample.monthStart
           Sample.shortRun 10 Hp Hlb Hl).
Defined.

(** C6 on the sample run. *)
Lemma legend_numbers_are_ordinals_witness :
  exists out st',
    Prepared Sample.monthStart Sample.longRun /\
    findThresholds Sample.showTime Sample.longRun = (Ok out, st') /\
    map Legend_Candle_no (returned out) = seq 1 (List.length (returned out)).
Proof.
  assert (Hp : Prepared Sample.monthStart Sample.longRun)
    by apply engine_Prepared.
  destruct (findThresholds Sample.showTime Sample.longRun)
    as [[out|msg] st'] eqn:E.
  - exists out, st'. split; [exact Hp|]. split; [reflexivity|].
    exact (legend_numbers_are_ordinals Sample.showTime Sample.monthStart
             Sample.longRun out st' Hp E).
  - exfalso. vm_compute in E. discriminate.
Defined.

(** C7 as worded fails on the success rate: the run with one legend candle
    and one successful entry records the rate 100, a percentage, where the
    ratio successful/legend is 1. *)
Lemma success_rate_is_percentage :
  exists out st',
    findThresholds Sample.showTime Sample.longRun = (Ok out, st') /\
    List.length (returned out) = 1 /\ countSuccess (returned out) = 1 /\
    (successRate (getStats st') == 100)%Q /\
    (ratioSuccessRate (returned out) == 1)%Q /\
    ~ (successRate (getStats st') == ratioSuccessRate (returned out))%Q.
Proof.
  eexists. eexists. split; [vm_compute; reflexivity|].
  split; [reflexivity|]. split; [reflexivity|].
  split; [vm_compute; reflexivity|]. split; [vm_compute; reflexivity|].
  intros E. vm_compute in E. discriminate.
Qed.

(** C7 on the sample run. *)
Lemma stats_recomputable_from_results_witness :
  exists out st',
    Prepared Sample.monthStart Sample.longRun /\
    findThresholds Sample.showTime Sample.longRun = (Ok out, st') /\
    getStats st' = statsOf (totalCandles Sample.longRun) (returned out).
Proof.
  assert (Hp : Prepared Sample.monthStart Sample.longRun)
    by apply engine_Prepared.
  destruct (findThresholds Sample.showTime Sample.longRun)
    as [[out|msg] st'] eqn:E.
  - exists out, st'. split; [exact Hp|]. split; [reflexivity|].
    exact (proj1 (stats_recomputable_from_results Sample.showTime
                    Sample.monthStart Sample.longRun out st' Hp E)).
  - exfalso. vm_compute in E. discriminate.
Defined.

(** C10 on the sample run. *)
Lemma success_iff_entry_witness :
  exists out st',
    findThresholds Sample.showTime Sample.longRun = (Ok out, st') /\
    Forall (fun r => success r = true <-> exists e, entry r = Some e)
           (returned out).
Proof.
  destruct (findThresholds Sample.showTime Sample.longRun)
    as [[out|msg] st'] eqn:E.
  - exists out, st'. split; [reflexivity|].
    exact (success_iff_entry Sample.showTime Sample.longRun out st' E).
  - exfalso. vm_compute in E. discriminate.
Defined.

(** C9 as worded fails twice. The lookback table has no entry 3: a
    lookback period that is a number is at least 10, and the five candles
    of the scenario are short-circuited at every such timeframe, so the
    run yields no entry. And at the smallest lookback, where the window
    mean is 0.5 and the dynamic threshold 1, the thresholds are taken
    around the close of 120, not around the open of 100: the result shows
    121.20 and 118.80 and the entry price is 121.2, not 101. *)
Lemma scenario_as_worded_fails :
  (forall tf (n : nat),
     getLookbackPeriod (Sample.engine (Sample.config tf 15 2) Sample.scenario3)
     = Candles n ->
     10 <= n /\
     fst (findThresholds Sample.showTime
            (Sample.engine (Sample.config tf 15 2) Sample.scenario3))
     = Ok {| returned := []; saved := None |}) /\
  exists out st' r e,
    findThresholds Sample.showTime Sample.longRun = (Ok out, st') /\
    returned out = [r] /\ entry r = Some e /\
    upwardThreshold (LegendCandle r) = "121.20" /\
    downwardThreshold (LegendCandle r) = "118.80" /\
    upwardThreshold (LegendCandle r) <> Q_toFixed 101 2 /\
    downwardThreshold (LegendCandle r) <> Q_toFixed 99 2 /\
    ~ (price e == 101)%Q.
Proof.
  split.
  { intros tf n Hlb.
    pose proof (getLookbackPeriod_min _ _ Hlb) as Hmin.
    split; [exact Hmin|].
    unfold findThresholds. rewrite Hlb.
    change (List.length
              (candles (Sample.engine (Sample.config tf 15 2) Sample.scenario3)))
      with 5.
    cbn [lessThan].
    destruct (Nat.ltb_spec 5 n); [reflexivity | lia]. }
  eexists. eexists. eexists. eexists.
  split; [vm_compute; reflexivity|]. split; [reflexivity|].
  split; [reflexivity|]. split; [reflexivity|]. split; [reflexivity|].
  split; [vm_compute; discriminate|]. split; [vm_compute; discriminate|].
  intros E. vm_compute in E. discriminate.
Qed.

(** C9 with a forward candle of open 120, high 130, low 119, close 125. *)
Lemma scenario_long_entry_witness :
  (high (Sample.candle 11 120 130 119 125) == 130)%Q /\
  exists out st' r rest e,
    findThresholds Sample.showTime
      (Sample.scenario10 (Sample.candle 11 120 130 119 125)) = (Ok out, st') /\
    returned out = r :: rest /\
    upwardThreshold (LegendCandle r) = "121.20" /\
    downwardThreshold (LegendCandle r) = "118.80" /\
    entry r = Some e /\ success r = true /\ side e = LONG /\
    (price e == 121.2)%Q /\ candlesUntilThreshold e = 1.
Proof.
  assert (Hh : (high (Sample.candle 11 120 130 119 125) == 130)%Q)
    by reflexivity.
  split; [exact Hh|].
  destruct (scenario_long_entry Sample.showTime
              (Sample.candle 11 120 130 119 125) Hh)
    as (_ & _ & _ & out & st' & r & rest & e & H1 & H2 & _ & H4 & H5 & H6
        & H7 & H8 & _ & H10 & H11).
  exists out, st', r, rest, e. repeat split; assumption.
Defined.

(** In doubles the scenario runs to the same strings and the same entry;
    the entry price is the double nearest to 121.2. *)
Example scenario_long_entry_in_doubles :
  exists out st' r e,
    findThresholds Sample.showTime SampleDouble.longRun = (Ok out, st') /\
    returned out = [r] /\ entry r = Some e /\
    currentDynamicThreshold (LegendCandle r) = "1.00" /\
    upwardThreshold (LegendCandle r) = "121.20" /\
    downwardThreshold (LegendCandle r) = "118.80" /\
    side e = LONG /\ candlesUntilThreshold e = 1 /\ success r = true /\
    exactQ (price e) = Some (8528691794332877 # 70368744177664)%Q /\
    Q_toFixed (8528691794332877 # 70368744177664)%Q 13 = "121.2000000000000".
Proof.
  eexists. eexists. eexists. eexists.
  split; [vm_compute; reflexivity|].
  repeat split; vm_compute; reflexivity.
Qed.

(** The batch driver never sets the symbol info: its scan of a series that
    reaches the main loop raises at the first legend candle. *)
Example batch_run_raises :
  fst (findThresholds Sample.showTime
         (Sample.engineWithoutInfo (Sample.config "1d" 15 2) Sample.negativeRows))
  = Throw symbolInfoNotSet.
Proof. vm_compute. reflexivity. Qed.

(** A timeframe that names an inherited property of the lookback table:
    the lookback period is not a number, the five candles are not
    short-circuited, the loop visits no position, and the run goes on to
    save. Without symbol info it raises there; with symbol info it
    returns the empty list and hands a document without results to the
    writer. *)
Example inherited_timeframe_skips_the_scan :
  getLookbackPeriod
    (Sample.engine (Sample.config "constructor" 15 2) Sample.scenario3)
  = NotANumber /\
  findThresholds Sample.showTime
    (Sample.engineWithoutInfo (Sample.config "constructor" 15 2)
       Sample.scenario3)
  = (Throw symbolInfoNotSetBeforeSaving,
     Sample.engineWithoutInfo (Sample.config "constructor" 15 2)
       Sample.scenario3) /\
  exists doc,
    fst (findThresholds Sample.showTime
           (Sample.engine (Sample.config "constructor" 15 2) Sample.scenario3))
    = Ok {| returned := []; saved := Some doc |} /\
    results doc = [] /\ s_totalCandles (stats doc) = 5.
Proof.
  split; [vm_compute; reflexivity|]. split; [vm_compute; reflexivity|].
  eexists. split; [vm_compute; reflexivity|]. split; reflexivity.
Qed.

(** ** More of the engine *)

Section MoreEngine.

Context {num : Type} `{JsNumber num}.
Variable formatTime : Z -> string.
Variable dateMillis : Z -> Z -> Z.

Implicit Types (st : @Backtester num) (r : @ThresholdResult num)
  (c : @CandleData num).

Lemma loadData_fold st (now : Z) (rows : list CandleData) :
  forall s0 : @Backtester num,
    let s1 :=
      fold_left
        (fun (s : Backtester) (row : CandleData) =>
           if inLoadRange dateMillis st now row
           then {| candles := candles s ++ [row];
                   totalCandles := S (totalCandles s);
                   legendCandles := legendCandles s;
                   successfulTrades := successfulTrades s;
                   symbolInfo := symbolInfo s; symbol := symbol s;
                   runConfig := runConfig s |}
           else s) rows s0 in
    candles s1 = candles s0 ++ filter (inLoadRange dateMillis st now) rows /\
    totalCandles s1
    = totalCandles s0
      + List.length (filter (inLoadRange dateMillis st now) rows) /\
    legendCandles s1 = legendCandles s0 /\
    successfulTrades s1 = successfulTrades s0 /\
    symbolInfo s1 = symbolInfo s0 /\ symbol s1 = symbol s0 /\
    runConfig s1 = runConfig s0.
Proof.
  induction rows as [|row rows IH]; intros s0; cbn [fold_left filter].
  - rewrite app_nil_r. cbn [List.length]. repeat split; lia.
  - match goal with
    | |- context [fold_left ?f rows ?s] => specialize (IH s)
    end.
    cbv zeta in IH. destruct IH as (I1 & I2 & I3 & I4 & I5 & I6 & I7).
    cbv zeta. rewrite I1, I2, I3, I4, I5, I6, I7.
    destruct (inLoadRange dateMillis st now row); cbn.
    + rewrite <- app_assoc. repeat split; lia.
    + repeat split.
Qed.

(** X1: [loadData] appends to the series, in file order, exactly the rows
    whose open time lies between the start and the end timestamp, both
    included; it counts them in [totalCandles] and touches nothing else.
    It neither sorts nor drops duplicates, and loading two files one after
    the other is loading their rows in one go. *)
Theorem loadData_appends_rows_in_range st (now : Z)
    (rows rows' : list CandleData) :
  let st1 := loadData dateMillis st now rows in
  candles st1 = candles st ++ filter (inLoadRange dateMillis st now) rows /\
  totalCandles st1
  = totalCandles st
    + List.length (filter (inLoadRange dateMillis st now) rows) /\
  legendCandles st1 = legendCandles st /\
  successfulTrades st1 = successfulTrades st /\
  symbolInfo st1 = symbolInfo st /\ symbol st1 = symbol st /\
  runConfig st1 = runConfig st /\
  loadData dateMillis st1 now rows'
  = loadData dateMillis st now (rows ++ rows').
Proof.
  intros st1.
  pose proof (loadData_fold st now rows st) as Hf. cbv zeta in Hf.
  assert (Hcfg : runConfig st1 = runConfig st) by apply Hf.
  repeat (split; [apply Hf|]).
  unfold loadData at 1. rewrite Hcfg.
  unfold loadData at 1. rewrite fold_left_app. reflexivity.
Qed.

(** A slice holds the elements at the indices from its start up to its
    end, and nothing else of the list matters. *)
Lemma slice_ext {A : Type} (l1 l2 : list A) (a b : nat) :
  (forall j, a <= j < b -> nth_error l2 j = nth_error l1 j) ->
  slice l2 a b = slice l1 a b.
Proof.
  intros Hagree. unfold slice. apply nth_error_ext. intros k.
  rewrite !nth_error_firstn, !nth_error_skipn.
  destruct (Nat.ltb_spec k (b - a)); [|reflexivity].
  apply Hagree. lia.
Qed.

(** X2: no look-ahead. With a lookback period that is a number, the
    legend verdict for a position [i] at or past it and the dynamic
    threshold the main loop computes for [i] read the series at the
    indices [i - lookbackPeriod .. i] only: any series that agrees there
    (later candles changed, added or removed) gives the same verdict and
    the same threshold. *)
Theorem legend_check_is_local st st2 (lb i : nat) :
  runConfig st2 = runConfig st ->
  getLookbackPeriod st = Candles lb ->
  lb <= i ->
  (forall j, i - lb <= j <= i ->
             nth_error (candles st2) j = nth_error (candles st) j) ->
  isLegendCandle st2 i = isLegendCandle st i /\
  loopThreshold st2 (getLookbackPeriod st2) i
  = loopThreshold st (getLookbackPeriod st) i.
Proof.
  intros Hcfg Hnum Hi Hagree.
  assert (Hlb : getLookbackPeriod st2 = Candles lb).
  { rewrite <- Hnum. unfold getLookbackPeriod. rewrite Hcfg. reflexivity. }
  assert (Hslice : slice (candles st2) (i - lb) i
                   = slice (candles st) (i - lb) i).
  { apply slice_ext. intros j Hj. apply Hagree. lia. }
  split.
  - unfold isLegendCandle, lookbackPeriod_. rewrite Hlb, Hnum, Hcfg.
    cbn [lessThan sliceStart]. rewrite Hslice.
    rewrite (Hagree i) by lia. reflexivity.
  - unfold loopThreshold, lookbackPeriod_. rewrite Hlb, Hnum, Hcfg.
    cbn [sliceStart]. rewrite Hslice. reflexivity.
Qed.

(** X3: the downward side of the entry rule. When the first forward candle
    that triggers has its high below the upward threshold and its low at
    or below the downward threshold, the entry is SHORT with reason
    DownwardThresholdMet at the downward threshold itself, counted up to
    that candle. *)
Theorem entry_short_on_downward_cross st (i : nat) c (dt : num) r
    (j : nat) fc :
  processLegendCandle formatTime st i c dt = Ok (Some r) ->
  i < j <= i + maxLookForwardCandles (trade (runConfig st)) ->
  nth_error (candles st) j = Some fc ->
  (forall m, i < m < j -> quietAt st (upwardOf c dt) (downwardOf c dt) m) ->
  nge (high fc) (upwardOf c dt) = false ->
  nle (low fc) (downwardOf c dt) = true ->
  exists e,
    entry r = Some e /\ success r = true /\
    side e = SHORT /\ reason e = DownwardThresholdMet /\
    price e = downwardOf c dt /\
    candlesUntilThreshold e = j - i /\
    time e = formatTime (openTime fc).
Proof.
  intros E Hj Hfc Hquiet Hup Hdown.
  assert (Htrig : triggers (upwardOf c dt) (downwardOf c dt) fc = true).
  { unfold triggers. rewrite Hup, Hdown. reflexivity. }
  assert (Hjlen : j < List.length (candles st)).
  { apply nth_error_Some. rewrite Hfc. discriminate. }
  destruct (scan_first_trigger _ _ _ _ _ _ E)
    as [(_ & _ & Hq) | (k & fc' & e & Hk & Hfc' & Ht' & Hq' & He & Hs & Hat)].
  - exfalso. rewrite Forall_forall in Hq.
    assert (Hin : In j (forwardIndices st i)).
    { unfold forwardIndices. apply in_seq. lia. }
    pose proof (quietAt_not_triggers _ _ _ _ _ (Hq j Hin) Hfc) as Hn.
    rewrite Hn in Htrig. discriminate.
  - assert (Hjk : j = i + k).
    { destruct (Nat.lt_trichotomy j (i + k)) as [Hlt | [Heq | Hgt]];
        [exfalso | exact Heq | exfalso].
      - pose proof (quietAt_not_triggers _ _ _ _ _
                      (Hq' j (conj (proj1 Hj) Hlt)) Hfc) as Hn.
        rewrite Hn in Htrig. discriminate.
      - assert (Hm : i < i + k < j) by lia.
        pose proof (quietAt_not_triggers _ _ _ _ _ (Hquiet _ Hm) Hfc') as Hn.
        rewrite Hn in Ht'. discriminate. }
    subst j. rewrite Hfc in Hfc'. inversion Hfc'; subst fc'.
    destruct Hat as (Hcut & Htime & _ & [(Hyes & _)
                                        | (_ & _ & Hside & Hreason & Hprice)]).
    + rewrite Hup in Hyes. discriminate.
    + exists e. repeat split; try assumption. lia.
Qed.

(** X5: a result whose candle has no forward candle to look at, because it
    is the last of the series or because [maxLookForwardCandles] is 0,
    carries no entry. *)
Theorem no_forward_candle_no_entry st (i : nat) c (dt : num) r :
  processLegendCandle formatTime st i c dt = Ok (Some r) ->
  List.length (candles st) <= i + 1 \/
  maxLookForwardCandles (trade (runConfig st)) = 0 ->
  entry r = None /\ success r = false.
Proof.
  intros E Hedge.
  destruct (scan_first_trigger _ _ _ _ _ _ E)
    as [(He & Hs & _) | (k & fc & e & Hk & Hfc & _)].
  - split; assumption.
  - exfalso.
    assert (i + k < List.length (candles st)).
    { apply nth_error_Some. rewrite Hfc. discriminate. }
    lia.
Qed.

Lemma scanForward_entry_format st (up down : num) (indices : list nat) :
  forall (cc : nat) r0 r e,
    scanForward formatTime st up down indices cc r0 = Ok r ->
    entry r0 = None -> entry r = Some e ->
    exists info,
      symbolInfo st = Some info /\
      formatted_price e
      = (toFixed (price e) (pricePrecision info) ++ " USDT")%string /\
      ((side e = LONG /\ reason e = UpwardThresholdMet) \/
       (side e = SHORT /\ reason e = DownwardThresholdMet)).
Proof.
  induction indices as [|i rest IH]; intros cc r0 r e E H0 He; simpl in E.
  - inversion E; subst. rewrite H0 in He. discriminate.
  - destruct (nth_error (candles st) i) as [fc|]; [|discriminate].
    destruct (nge (high fc) up); [|destruct (nle (low fc) down)].
    + apply bind_Ok in E. destruct E as (fp & Hfp & E).
      apply bind_Ok in E. destruct E as (details & _ & E).
      inversion E; subst r; clear E. simpl in He. inversion He; subst e.
      apply formatPrice_Ok in Hfp. destruct Hfp as (info & Hi & _ & ->).
      exists info. simpl. split; [exact Hi|]. split; [reflexivity|].
      left. split; reflexivity.
    + apply bind_Ok in E. destruct E as (fp & Hfp & E).
      apply bind_Ok in E. destruct E as (details & _ & E).
      inversion E; subst r; clear E. simpl in He. inversion He; subst e.
      apply formatPrice_Ok in Hfp. destruct Hfp as (info & Hi & _ & ->).
      exists info. simpl. split; [exact Hi|]. split; [reflexivity|].
      right. split; reflexivity.
    + apply (IH _ _ _ _ E H0 He).
Qed.

(** X4: in every result of a completed scan that carries an entry, side
    and reason agree (LONG with UpwardThresholdMet, SHORT with
    DownwardThresholdMet), the formatted price is the entry price printed
    to the price precision and followed by " USDT", and the candle count
    lies between 1 and [maxLookForwardCandles]. *)
Theorem entries_are_consistent st out st' :
  findThresholds formatTime st = (Ok out, st') ->
  Forall
    (fun r =>
       forall e, entry r = Some e ->
         exists info,
           symbolInfo st = Some info /\
           formatted_price e
           = (toFixed (price e) (pricePrecision info) ++ " USDT")%string /\
           ((side e = LONG /\ reason e = UpwardThresholdMet) \/
            (side e = SHORT /\ reason e = DownwardThresholdMet)) /\
           1 <= candlesUntilThreshold e
           <= maxLookForwardCandles (trade (runConfig st)))
    (returned out).
Proof.
  intros E. apply findThresholds_Ok in E.
  destruct E as [(_ & -> & _) | (_ & _ & _ & _ & Hp & _)]; [constructor|].
  apply producedFrom_Forall in Hp.
  eapply Forall_impl; [|exact Hp]. simpl.
  intros r (i & k & _ & st0 & c & Hsame & _ & _ & Ep) e He.
  destruct Hsame as (_ & _ & Hsi & _ & Hcfg).
  pose proof (scan_first_trigger _ _ _ _ _ _ Ep) as Hscan.
  apply processLegendCandle_Some in Ep.
  destruct Ep as (_ & info & r0 & _ & He0 & _ & _ & _ & _ & _ & Hrun).
  destruct (scanForward_entry_format _ _ _ _ _ _ _ _ Hrun He0 He)
    as (info' & Hi' & Hfmt & Hside).
  exists info'. rewrite <- Hsi. split; [exact Hi'|].
  split; [exact Hfmt|]. split; [exact Hside|].
  destruct Hscan as [(Hnone & _) | (n & fc & e' & Hn & _ & _ & _ & He' & _ & Hat)].
  - rewrite Hnone in He. discriminate.
  - rewrite He in He'. inversion He'; subst e'.
    destruct Hat as (Hcut & _). rewrite Hcut, <- Hcfg. exact Hn.
Qed.

Lemma processLegendCandle_precision st (i : nat) c (dt : num) r :
  processLegendCandle formatTime st i c dt = Ok (Some r) ->
  exists info, symbolInfo st = Some info /\ pricePrecision info <= 100.
Proof.
  unfold processLegendCandle. intros E.
  apply bind_Ok in E. destruct E as (b & _ & E).
  destruct b; cbn [negb] in E; [|discriminate].
  apply bind_Ok in E. destruct E as (cdt & _ & E).
  apply bind_Ok in E. destruct E as (up & Hup & _).
  apply formatPrice_Ok in Hup. destruct Hup as (info & Hi & Hp & _).
  exists info. split; assumption.
Qed.

Lemma scanError_excluded st (msg : string) info :
  symbolInfo st = Some info -> pricePrecision info <= 100 ->
  scanError st msg -> False.
Proof.
  intros Hi Hp [(_ & Hn) | (_ & info' & Hi' & Hp')].
  - rewrite Hi in Hn. discriminate.
  - rewrite Hi in Hi'. inversion Hi'; subst. lia.
Qed.

Lemma mainLoop_throw_unchanged (lb : Lookback) (positions : list nat) :
  forall st rs msg st',
    mainLoop formatTime st lb positions rs = (Throw msg, st') ->
    Forall (fun i => i < List.length (candles st)) positions ->
    st' = st.
Proof.
  induction positions as [|i rest IH]; intros st rs msg st' E Hin;
    simpl in E.
  - discriminate.
  - inversion Hin as [|? ? Hi Hrest]; subst.
    destruct (nth_error (candles st) i) as [c|] eqn:Ec.
    2:{ inversion E. reflexivity. }
    destruct (processLegendCandle formatTime st i c (loopThreshold st lb i))
      as [[r|]|m] eqn:Ep.
    + exfalso.
      destruct (processLegendCandle_precision _ _ _ _ _ Ep)
        as (info & Hinfo & Hprec).
      apply mainLoop_throw in E.
      * eapply (scanError_excluded _ _ info); [| exact Hprec | exact E].
        destruct (success r); exact Hinfo.
      * destruct (success r); exact Hrest.
    + apply (IH _ _ _ _ E Hrest).
    + inversion E. reflexivity.
Qed.

(** X6: an exception raised in the scan loop comes before any result
    is counted: it surfaces from [findThresholds] with the engine as it
    was. And without symbol info a run that is not short-circuited always
    ends in a missing-symbol-info error with the engine as it was,
    whether the loop raises it or [saveResults] does. (The rejections of
    the file operations of [saveResults], which come after the counters
    have moved, are not modelled.) *)
Theorem failed_scan_leaves_engine_unchanged st :
  (forall msg st1,
     mainLoop formatTime st (getLookbackPeriod st)
       (positionsFrom (getLookbackPeriod st) (List.length (candles st))) []
     = (Throw msg, st1) ->
     st1 = st /\ findThresholds formatTime st = (Throw msg, st)) /\
  (symbolInfo st = None ->
   lessThan (List.length (candles st)) (getLookbackPeriod st) = false ->
   exists msg,
     findThresholds formatTime st = (Throw msg, st) /\
     isMissingSymbolInfo msg = true).
Proof.
  assert (Hrange : Forall (fun i => i < List.length (candles st))
                     (positionsFrom (getLookbackPeriod st)
                        (List.length (candles st)))).
  { eapply Forall_impl; [|apply positionsFrom_range]. simpl. tauto. }
  split.
  - intros msg st1 Em.
    pose proof (mainLoop_throw_unchanged _ _ _ _ _ _ Em Hrange) as ->.
    split; [reflexivity|].
    unfold findThresholds.
    destruct (lessThan (List.length (candles st)) (getLookbackPeriod st))
      eqn:El.
    + exfalso. destruct (getLookbackPeriod st) as [m|]; [|discriminate].
      cbn [lessThan positionsFrom] in *. apply Nat.ltb_lt in El.
      replace (List.length (candles st) - m) with 0 in Em by lia.
      discriminate Em.
    + rewrite Em. reflexivity.
  - intros Hsi Hlen. unfold findThresholds. rewrite Hlen.
    destruct (mainLoop formatTime st (getLookbackPeriod st) _ [])
      as [[rs|m] st1] eqn:Em.
    + pose proof Em as Em'.
      apply (mainLoop_spec formatTime st) in Em'; [|apply sameData_refl].
      destruct Em' as (new & _ & (Hc & Ht & Hsi1 & Hsy & Hcfg) & Hl & Hs & Hp).
      assert (Hnew : new = []).
      { destruct Hp as [|n i r ps rs' Hat _]; [reflexivity|].
        destruct Hat as (st0 & c & (_ & _ & Hsi0 & _) & _ & _ & Ep).
        apply processLegendCandle_Some in Ep.
        destruct Ep as (_ & info & _ & Hinfo & _).
        rewrite Hsi0, Hsi in Hinfo. discriminate. }
      subst new. unfold countSuccess in Hs. simpl in Hl, Hs.
      assert (Hst : st1 = st).
      { destruct st, st1; simpl in *. subst. f_equal; lia. }
      subst st1. unfold saveResults. rewrite Hsi.
      exists symbolInfoNotSetBeforeSaving. split; reflexivity.
    + pose proof (mainLoop_throw_unchanged _ _ _ _ _ _ Em Hrange) as ->.
      exists m. split; [reflexivity|].
      apply mainLoop_throw in Em; [|exact Hrange].
      destruct Em as [(-> & _) | (_ & info & Hinfo & _)]; [reflexivity|].
      rewrite Hsi in Hinfo. discriminate.
Qed.

Lemma renumber_0 r : renumber 0 r = r.
Proof. destruct r. unfold renumber. simpl. rewrite Nat.add_0_r. reflexivity. Qed.

Lemma readAlike_refl st : readAlike st st.
Proof. repeat split. Qed.

Lemma sameData_readAlike st st' : sameData st st' -> readAlike st st'.
Proof.
  intros (Hc & _ & Hsi & _ & Hcfg). unfold readAlike, lookbackPeriod_.
  rewrite Hc, Hsi, Hcfg. repeat split.
Qed.

Lemma readAlike_trans st1 st2 st3 :
  readAlike st1 st2 -> readAlike st2 st3 -> readAlike st1 st3.
Proof.
  unfold readAlike.
  intros (a1 & a2 & a3 & a4 & a5 & a6) (b1 & b2 & b3 & b4 & b5 & b6).
  repeat split; congruence.
Qed.

Lemma readAlike_lookback st1 st2 :
  readAlike st1 st2 -> getLookbackPeriod st2 = getLookbackPeriod st1.
Proof.
  intros (_ & _ & Htf & _). unfold getLookbackPeriod. rewrite Htf.
  reflexivity.
Qed.

Lemma readAlike_legend st1 st2 (i : nat) :
  readAlike st1 st2 -> isLegendCandle st2 i = isLegendCandle st1 i.
Proof.
  intros Hr. pose proof (readAlike_lookback _ _ Hr) as Hlb.
  destruct Hr as (Hc & _ & _ & Hth & _).
  unfold isLegendCandle. rewrite Hlb, Hc, Hth. reflexivity.
Qed.

Lemma readAlike_threshold st1 st2 (lb : Lookback) (i : nat) :
  readAlike st1 st2 -> loopThreshold st2 lb i = loopThreshold st1 lb i.
Proof.
  intros (Hc & _ & _ & _ & Hm & _). unfold loopThreshold.
  rewrite Hc, Hm. reflexivity.
Qed.

Lemma scanForward_renumber st (up down : num) (k : nat) (indices : list nat) :
  forall cc r0,
    scanForward formatTime st up down indices cc (renumber k r0)
    = match scanForward formatTime st up down indices cc r0 with
      | Ok r => Ok (renumber k r)
      | Throw msg => Throw msg
      end.
Proof.
  induction indices as [|i rest IH]; intros cc r0; simpl.
  - reflexivity.
  - destruct (nth_error (candles st) i) as [fc|]; [|reflexivity].
    destruct (nge (high fc) up); [|destruct (nle (low fc) down)].
    + destruct (formatPrice st up); [|reflexivity]. cbn [bind].
      destruct (formatCandleDetails st fc); reflexivity.
    + destruct (formatPrice st down); [|reflexivity]. cbn [bind].
      destruct (formatCandleDetails st fc); reflexivity.
    + apply IH.
Qed.

(** The one thing [processLegendCandle] takes from the counters is the
    number it gives the result. *)
Lemma processLegendCandle_shift st1 st2 (k i : nat) c (dt : num) :
  readAlike st1 st2 -> legendCandles st2 = legendCandles st1 + k ->
  processLegendCandle formatTime st2 i c dt
  = match processLegendCandle formatTime st1 i c dt with
    | Ok (Some r) => Ok (Some (renumber k r))
    | other => other
    end.
Proof.
  intros Hr Hl. unfold processLegendCandle.
  rewrite (readAlike_legend st1 st2 i Hr).
  destruct Hr as (Hc & Hsi & _ & _ & _ & Hmax).
  assert (Hidx : forwardIndices st2 i = forwardIndices st1 i).
  { unfold forwardIndices. rewrite Hc, Hmax. reflexivity. }
  assert (Hd : thresholdDigits st2 = thresholdDigits st1).
  { unfold thresholdDigits. rewrite Hsi. reflexivity. }
  assert (Hfp : forall p, formatPrice st2 p = formatPrice st1 p).
  { intros p. unfold formatPrice. rewrite Hsi. reflexivity. }
  assert (Hfc : formatCandleDetails st2 c = formatCandleDetails st1 c).
  { unfold formatCandleDetails. rewrite !Hfp. reflexivity. }
  rewrite Hidx, Hl, Hd, !Hfp, Hfc.
  destruct (isLegendCandle st1 i) as [[|]|]; cbn [bind negb];
    try reflexivity.
  repeat match goal with
         | |- bind ?m _ = match bind ?m _ with _ => _ end =>
             destruct m; cbn [bind]; try reflexivity
         end.
  rewrite (scanForward_ext formatTime st1 st2);
    [| exact Hsi | intros j _; rewrite Hc; reflexivity].
  replace (legendCandles st1 + k + 1) with (legendCandles st1 + 1 + k)
    by lia.
  match goal with
  | |- context [scanForward formatTime st1 ?u ?d ?ix 0 ?r0] =>
      change r0 with
        (renumber k
           {| Legend_Candle_no := legendCandles st1 + 1;
              timestamp := timestamp r0; LegendCandle := LegendCandle r0;
              entry := None; success := false |})
  end.
  rewrite scanForward_renumber. cbn [timestamp LegendCandle].
  match goal with
  | |- context [scanForward formatTime st1 ?u ?d ?ix 0 ?r0] =>
      destruct (scanForward formatTime st1 u d ix 0 r0)
  end; reflexivity.
Qed.

Lemma readAlike_step st1 st2 (b : bool) :
  readAlike st1 st2 ->
  readAlike
    (if b then incrSuccessfulTrades (incrLegendCandles st1)
     else incrLegendCandles st1)
    (if b then incrSuccessfulTrades (incrLegendCandles st2)
     else incrLegendCandles st2).
Proof. intros Hr. destruct b; exact Hr. Qed.

(** Two engines that read alike, the second [k] legend candles ahead, go
    through the main loop in step: the same exception, or the same new
    results up to their numbers. *)
Lemma mainLoop_shift (lb : Lookback) (k : nat) (positions : list nat) :
  forall st1 st2 rs1 rs2,
    readAlike st1 st2 -> legendCandles st2 = legendCandles st1 + k ->
    match mainLoop formatTime st1 lb positions rs1,
          mainLoop formatTime st2 lb positions rs2 with
    | (Ok r1, s1), (Ok r2, s2) =>
        exists new,
          r1 = rs1 ++ new /\ r2 = rs2 ++ map (renumber k) new /\
          readAlike s1 s2 /\
          legendCandles s1 = legendCandles st1 + List.length new /\
          legendCandles s2 = legendCandles st2 + List.length new /\
          successfulTrades s1 = successfulTrades st1 + countSuccess new /\
          successfulTrades s2 = successfulTrades st2 + countSuccess new
    | (Throw m1, _), (Throw m2, _) => m1 = m2
    | _, _ => False
    end.
Proof.
  induction positions as [|i rest IH]; intros st1 st2 rs1 rs2 Hr Hl;
    cbn [mainLoop].
  - exists []. rewrite !app_nil_r. unfold countSuccess. simpl.
    split; [reflexivity|]. split; [reflexivity|]. split; [exact Hr|].
    repeat split; lia.
  - assert (Hc : candles st2 = candles st1) by apply Hr.
    rewrite Hc, (readAlike_threshold st1 st2 lb i Hr).
    destruct (nth_error (candles st1) i) as [c|]; [|reflexivity].
    rewrite (processLegendCandle_shift st1 st2 k i c _ Hr Hl).
    destruct (processLegendCandle formatTime st1 i c (loopThreshold st1 lb i))
      as [[r|]|m]; [| |reflexivity].
    + change (success (renumber k r)) with (success r).
      specialize (IH _ _ (rs1 ++ [r]) (rs2 ++ [renumber k r])
                    (readAlike_step st1 st2 (success r) Hr)).
      assert (Hl1 : legendCandles
                      (if success r
                       then incrSuccessfulTrades (incrLegendCandles st2)
                       else incrLegendCandles st2)
                    = legendCandles
                        (if success r
                         then incrSuccessfulTrades (incrLegendCandles st1)
                         else incrLegendCandles st1) + k).
      { destruct (success r); simpl; lia. }
      specialize (IH Hl1).
      destruct (mainLoop formatTime _ lb rest (rs1 ++ [r])) as [[r1|m1] s1];
        destruct (mainLoop formatTime _ lb rest (rs2 ++ [renumber k r]))
        as [[r2|m2] s2]; try exact IH.
      destruct IH as (new & -> & -> & Hr' & L1 & L2 & S1 & S2).
      exists (r :: new). rewrite <- !app_assoc. cbn [map app List.length].
      rewrite countSuccess_cons.
      split; [reflexivity|]. split; [reflexivity|]. split; [exact Hr'|].
      clear Hr Hr' Hl1.
      destruct (success r); simpl in *; repeat split; lia.
    + apply (IH _ _ _ _ Hr Hl).
Qed.

Lemma findThresholds_mainLoop st out st' :
  findThresholds formatTime st = (Ok out, st') ->
  lessThan (List.length (candles st)) (getLookbackPeriod st) = false ->
  mainLoop formatTime st (getLookbackPeriod st)
    (positionsFrom (getLookbackPeriod st) (List.length (candles st))) []
  = (Ok (returned out), st').
Proof.
  unfold findThresholds. intros E Hlen. rewrite Hlen in E.
  destruct (mainLoop formatTime st (getLookbackPeriod st) _ [])
    as [[rs|m] st1]; [|discriminate].
  destruct (saveResults st1 rs); [|discriminate].
  inversion E. reflexivity.
Qed.

Lemma findThresholds_counts st out st' :
  findThresholds formatTime st = (Ok out, st') ->
  map Legend_Candle_no (returned out)
  = seq (legendCandles st + 1) (List.length (returned out)) /\
  legendCandles st' = legendCandles st + List.length (returned out) /\
  successfulTrades st' = successfulTrades st + countSuccess (returned out).
Proof.
  intros E. apply findThresholds_Ok in E.
  destruct E as [(_ & -> & ->) | (_ & _ & Hl & Hs & Hp & _)].
  - unfold countSuccess. simpl. repeat split; lia.
  - split; [apply (producedFrom_numbers _ _ _ _ _ _ Hp)|].
    split; assumption.
Qed.

(** X7: the scan never resets the counters. On any engine, the results of
    a completed scan are numbered from [legendCandles + 1] on and the two
    counters grow by what the scan found; a second scan of the same
    engine returns the same results with every number raised by the
    count of the first, and leaves the counters at twice what one scan
    found. *)
Theorem repeated_scan_accumulates st out st' :
  findThresholds formatTime st = (Ok out, st') ->
  let n := List.length (returned out) in
  map Legend_Candle_no (returned out) = seq (legendCandles st + 1) n /\
  legendCandles st' = legendCandles st + n /\
  successfulTrades st' = successfulTrades st + countSuccess (returned out) /\
  exists out2 st'',
    findThresholds formatTime st' = (Ok out2, st'') /\
    returned out2 = map (renumber n) (returned out) /\
    legendCandles st'' = legendCandles st + 2 * n /\
    successfulTrades st''
    = successfulTrades st + 2 * countSuccess (returned out).
Proof.
  intros E n. pose proof E as E0. apply findThresholds_Ok in E.
  destruct E as [(Hshort & -> & ->)
                | (Hlong & Hsame & Hl & Hs & Hp & doc & _ & Hsave)].
  - subst n. simpl. unfold countSuccess. simpl.
    repeat split; try lia.
    exists {| returned := []; saved := None |}, st.
    repeat split; try lia. exact E0.
  - destruct (findThresholds_counts _ _ _ E0) as (Hnum & _).
    split; [exact Hnum|]. split; [exact Hl|]. split; [exact Hs|].
    pose proof (sameData_readAlike _ _ Hsame) as Hr.
    pose proof (readAlike_lookback _ _ Hr) as Hlb.
    assert (Hc : candles st' = candles st) by apply Hsame.
    pose proof (findThresholds_mainLoop _ _ _ E0 Hlong) as Hfirst.
    unfold findThresholds. rewrite Hlb, Hc, Hlong.
    pose proof (mainLoop_shift (getLookbackPeriod st) n
                  (positionsFrom (getLookbackPeriod st)
                     (List.length (candles st)))
                  st st' [] [] Hr Hl) as Hshift.
    rewrite Hfirst in Hshift.
    destruct (mainLoop formatTime st' (getLookbackPeriod st) _ [])
      as [[rs2|m2] st2]; [|contradiction].
    destruct Hshift as (new & Hnew & -> & Hr2 & _ & L2 & _ & S2).
    simpl in Hnew. subst new. simpl.
    unfold saveResults in *.
    destruct Hr2 as (_ & Hsi2 & _). rewrite Hsi2.
    destruct (symbolInfo st'); [|discriminate].
    eexists. eexists. split; [reflexivity|]. simpl.
    split; [reflexivity|]. fold n in L2. split; lia.
Qed.

(** X9: of the configuration the scan reads the timeframe, the base
    threshold, the multiplier and the look-forward bound, and nothing
    else. Two engines that agree on these, on the candles, the symbol
    info and the number of legend candles counted so far return the same
    results or raise the same exception: the configured
    [lookbackPeriod.candles] and the date range have no effect on the
    scan. *)
Theorem scan_reads_four_settings st1 st2 :
  readAlike st1 st2 -> legendCandles st2 = legendCandles st1 ->
  returnedOf (findThresholds formatTime st2)
  = returnedOf (findThresholds formatTime st1).
Proof.
  intros Hr Hl. unfold returnedOf, findThresholds.
  rewrite (readAlike_lookback _ _ Hr).
  assert (Hc : candles st2 = candles st1) by apply Hr. rewrite Hc.
  destruct (lessThan (List.length (candles st1)) (getLookbackPeriod st1));
    [reflexivity|].
  assert (Hl0 : legendCandles st2 = legendCandles st1 + 0) by lia.
  pose proof (mainLoop_shift (getLookbackPeriod st1) 0
                (positionsFrom (getLookbackPeriod st1)
                   (List.length (candles st1)))
                st1 st2 [] [] Hr Hl0) as Hshift.
  destruct (mainLoop formatTime st1 (getLookbackPeriod st1) _ [])
    as [[rs1|m1] s1];
    destruct (mainLoop formatTime st2 (getLookbackPeriod st1) _ [])
    as [[rs2|m2] s2]; try contradiction.
  - destruct Hshift as (new & -> & -> & (_ & Hsi & _) & _).
    unfold saveResults. rewrite Hsi.
    destruct (symbolInfo s1); simpl; [|reflexivity].
    f_equal. clear. induction new as [|r new IH]; [reflexivity|].
    simpl. rewrite renumber_0. f_equal. exact IH.
  - simpl. rewrite Hshift. reflexivity.
Qed.

End MoreEngine.

(** ** More on values in exact arithmetic *)

Section MoreRational.

Variable formatTime : Z -> string.
Variable dateMillis : Z -> Z -> Z.

Local Open Scope Q_scope.

Lemma countSuccess_le {num : Type} (rs : list (@ThresholdResult num)) :
  (countSuccess rs <= List.length rs)%nat.
Proof. unfold countSuccess. apply filter_length_le. Qed.

(** X8: after a completed run on a prepared engine the successful trades
    do not outnumber the legend candles, and the recorded success rate is
    a percentage between 0 and 100. *)
Theorem success_rate_is_within_0_100 (st : @Backtester Q) out st' :
  Prepared dateMillis st ->
  findThresholds formatTime st = (Ok out, st') ->
  (successfulTrades st' <= legendCandles st')%nat /\
  0 <= successRate (getStats st') <= 100.
Proof.
  intros Hprep E.
  destruct (Prepared_inv _ _ Hprep) as (Hl0 & Hs0 & _).
  destruct (findThresholds_counts formatTime st out st' E)
    as (_ & Hl & Hs).
  rewrite Hl0 in Hl. rewrite Hs0 in Hs. simpl in Hl, Hs.
  pose proof (countSuccess_le (returned out)) as Hle.
  split; [lia|].
  unfold getStats. cbn [successRate].
  destruct (Nat.ltb_spec 0 (legendCandles st')) as [Hpos|Hzero].
  - cbn [nmul ndiv fromZ JsNumber_Q hundred].
    set (s := inject_Z (Z.of_nat (successfulTrades st'))).
    set (l := inject_Z (Z.of_nat (legendCandles st'))).
    assert (Hlpos : 0 < l).
    { subst l. change 0 with (inject_Z 0). rewrite <- Zlt_Qlt. lia. }
    assert (Hs0' : 0 <= s).
    { subst s. change 0 with (inject_Z 0). rewrite <- Zle_Qle. lia. }
    assert (Hsl : s <= l).
    { subst s l. rewrite <- Zle_Qle. lia. }
    assert (Hq0 : 0 <= s / l).
    { apply Qle_shift_div_l; [exact Hlpos|]. rewrite Qmult_0_l. exact Hs0'. }
    assert (Hq1 : s / l <= 1).
    { apply Qle_shift_div_r; [exact Hlpos|]. rewrite Qmult_1_l. exact Hsl. }
    change (inject_Z 100) with 100. split.
    + apply Qmult_le_0_compat; [exact Hq0 | discriminate].
    + setoid_replace 100 with (1 * 100) at 2 by ring.
      apply Qmult_le_compat_r; [exact Hq1 | discriminate].
  - cbn [fromZ JsNumber_Q]. split; discriminate.
Qed.

End MoreRational.

(** ** The further statements on sample runs *)

(** X2 on the sample run and the run with the tie candle, which differ at
    index 11 only: the verdict at 10 is the same. *)
Lemma legend_check_is_local_witness :
  runConfig Sample.tieRun = runConfig Sample.longRun /\
  getLookbackPeriod Sample.longRun = 10 /\
  nth_error (candles Sample.tieRun) 11
  <> nth_error (candles Sample.longRun) 11 /\
  isLegendCandle Sample.tieRun 10 = isLegendCandle Sample.longRun 10 /\
  loopThreshold Sample.tieRun (getLookbackPeriod Sample.tieRun) 10
  = loopThreshold Sample.longRun (getLookbackPeriod Sample.longRun) 10.
Proof.
  assert (Hcfg : runConfig Sample.tieRun = runConfig Sample.longRun)
    by (vm_compute; reflexivity).
  assert (Hlb : getLookbackPeriod Sample.longRun = 10)
    by (vm_compute; reflexivity).
  assert (Hi : 10 <= 10) by lia.
  assert (Hagree : forall j,
             10 - 10 <= j <= 10 ->
             nth_error (candles Sample.tieRun) j
             = nth_error (candles Sample.longRun) j).
  { intros j Hj.
    do 11 (destruct j as [|j]; [vm_compute; reflexivity|]).
    exfalso. lia. }
  split; [exact Hcfg|]. split; [exact Hlb|].
  split; [vm_compute; discriminate|].
  exact (legend_check_is_local Sample.longRun Sample.tieRun 10 10
           Hcfg Hlb Hi Hagree).
Defined.

(** X3 on a run whose first forward candle dips to the downward
    threshold. *)
Lemma entry_short_on_downward_cross_witness :
  exists r e,
    processLegendCandle Sample.showTime MoreSample.dipRun 10 (Sample.big 10)
      (loopThreshold MoreSample.dipRun 10 10) = Ok (Some r) /\
    nth_error (candles MoreSample.dipRun) 11 = Some MoreSample.dipCandle /\
    nge (high MoreSample.dipCandle)
        (upwardOf (Sample.big 10) (loopThreshold MoreSample.dipRun 10 10))
    = false /\
    nle (low MoreSample.dipCandle)
        (downwardOf (Sample.big 10) (loopThreshold MoreSample.dipRun 10 10))
    = true /\
    entry r = Some e /\ success r = true /\
    side e = SHORT /\ reason e = DownwardThresholdMet /\
    price e = downwardOf (Sample.big 10) (loopThreshold MoreSample.dipRun 10 10) /\
    candlesUntilThreshold e = 11 - 10 /\
    time e = Sample.showTime (openTime MoreSample.dipCandle).
Proof.
  assert (Hc : nth_error (candles MoreSample.dipRun) 11
               = Some MoreSample.dipCandle) by (vm_compute; reflexivity).
  assert (Hup : nge (high MoreSample.dipCandle)
                    (upwardOf (Sample.big 10)
                       (loopThreshold MoreSample.dipRun 10 10))
                = false) by (vm_compute; reflexivity).
  assert (Hdown : nle (low MoreSample.dipCandle)
                      (downwardOf (Sample.big 10)
                         (loopThreshold MoreSample.dipRun 10 10))
                  = true) by (vm_compute; reflexivity).
  destruct (processLegendCandle Sample.showTime MoreSample.dipRun 10
              (Sample.big 10) (loopThreshold MoreSample.dipRun 10 10))
    as [[r|]|msg] eqn:E.
  - assert (Hj : 10 < 11 <= 10 + maxLookForwardCandles
                                   (trade (runConfig MoreSample.dipRun)))
      by (vm_compute; lia).
    assert (Hq : forall m, 10 < m < 11 ->
                   quietAt MoreSample.dipRun
                     (upwardOf (Sample.big 10)
                        (loopThreshold MoreSample.dipRun 10 10))
                     (downwardOf (Sample.big 10)
                        (loopThreshold MoreSample.dipRun 10 10))
                     m) by (intros m Hm; lia).
    destruct (entry_short_on_downward_cross Sample.showTime
                MoreSample.dipRun 10 (Sample.big 10)
                (loopThreshold MoreSample.dipRun 10 10) r 11
                MoreSample.dipCandle E Hj Hc Hq Hup Hdown) as (e & He).
    exists r, e. split; [reflexivity|]. split; [exact Hc|].
    split; [exact Hup|]. split; [exact Hdown|]. exact He.
  - exfalso. vm_compute in E. discriminate.
  - exfalso. vm_compute in E. discriminate.
Defined.

(** X4 on the sample run. *)
Lemma entries_are_consistent_witness :
  exists out st',
    findThresholds Sample.showTime Sample.longRun = (Ok out, st') /\
    Forall
      (fun r =>
         forall e, entry r = Some e ->
           exists info,
             symbolInfo Sample.longRun = Some info /\
             formatted_price e
             = (toFixed (price e) (pricePrecision info) ++ " USDT")%string /\
             ((side e = LONG /\ reason e = UpwardThresholdMet) \/
              (side e = SHORT /\ reason e = DownwardThresholdMet)) /\
             1 <= candlesUntilThreshold e
             <= maxLookForwardCandles (trade (runConfig Sample.longRun)))
      (returned out).
Proof.
  destruct (findThresholds Sample.showTime Sample.longRun)
    as [[out|msg] st'] eqn:E.
  - exists out, st'. split; [reflexivity|].
    exact (entries_are_consistent Sample.showTime Sample.longRun out st' E).
  - exfalso. vm_compute in E. discriminate.
Defined.

(** X5 on the run whose only legend candle is its last candle. *)
Lemma no_forward_candle_no_entry_witness :
  exists r,
    processLegendCandle Sample.showTime Sample.negativeRun 10 (Sample.big 10)
      (loopThreshold Sample.negativeRun 10 10) = Ok (Some r) /\
    List.length (candles Sample.negativeRun) <= 10 + 1 /\
    entry r = None /\ success r = false.
Proof.
  assert (Hlast : List.length (candles Sample.negativeRun) <= 10 + 1)
    by (vm_compute; lia).
  destruct (processLegendCandle Sample.showTime Sample.negativeRun 10
              (Sample.big 10) (loopThreshold Sample.negativeRun 10 10))
    as [[r|]|msg] eqn:E.
  - exists r. split; [reflexivity|]. split; [exact Hlast|].
    exact (no_forward_candle_no_entry Sample.showTime Sample.negativeRun 10
             (Sample.big 10) (loopThreshold Sample.negativeRun 10 10) r E
             (or_introl Hlast)).
  - exfalso. vm_compute in E. discriminate.
  - exfalso. vm_compute in E. discriminate.
Defined.

(** X6 on the engine the batch driver builds. *)
Lemma failed_scan_leaves_engine_unchanged_witness :
  symbolInfo MoreSample.batchRun = None /\
  exists msg,
    findThresholds Sample.showTime MoreSample.batchRun
    = (Throw msg, MoreSample.batchRun) /\
    isMissingSymbolInfo msg = true.
Proof.
  assert (Hsi : symbolInfo MoreSample.batchRun = None)
    by (vm_compute; reflexivity).
  assert (Hlen : lessThan (List.length (candles MoreSample.batchRun))
                   (getLookbackPeriod MoreSample.batchRun) = false)
    by (vm_compute; reflexivity).
  split; [exact Hsi|].
  exact (proj2 (failed_scan_leaves_engine_unchanged Sample.showTime
                  MoreSample.batchRun) Hsi Hlen).
Defined.

(** X7 on the sample run: a second scan numbers its result 2. *)
Lemma repeated_scan_accumulates_witness :
  exists out st' out2 st'',
    findThresholds Sample.showTime Sample.longRun = (Ok out, st') /\
    findThresholds Sample.showTime st' = (Ok out2, st'') /\
    map Legend_Candle_no (returned out) = [1] /\
    returned out2 = map (renumber 1) (returned out) /\
    legendCandles st'' = 2.
Proof.
  destruct (findThresholds Sample.showTime Sample.longRun)
    as [[out|msg] st'] eqn:E.
  - assert (Hn : List.length (returned out) = 1).
    { vm_compute in E. inversion E. reflexivity. }
    destruct (repeated_scan_accumulates Sample.showTime Sample.longRun
                out st' E) as (Hnum & _ & _ & out2 & st'' & E2 & Hr & Hl & _).
    rewrite Hn in Hnum, Hr, Hl.
    exists out, st', out2, st''. split; [reflexivity|].
    split; [exact E2|]. split; [exact Hnum|]. split; [exact Hr | exact Hl].
  - exfalso. vm_compute in E. discriminate.
Defined.

(** X8 on the sample run. *)
Lemma success_rate_is_within_0_100_witness :
  exists out st',
    Prepared Sample.monthStart Sample.longRun /\
    findThresholds Sample.showTime Sample.longRun = (Ok out, st') /\
    (0 <= successRate (getStats st') <= 100)%Q.
Proof.
  assert (Hp : Prepared Sample.monthStart Sample.longRun)
    by apply engine_Prepared.
  destruct (findThresholds Sample.showTime Sample.longRun)
    as [[out|msg] st'] eqn:E.
  - exists out, st'. split; [exact Hp|]. split; [reflexivity|].
    exact (proj2 (success_rate_is_within_0_100 Sample.showTime
                    Sample.monthStart Sample.longRun out st' Hp E)).
  - exfalso. vm_compute in E. discriminate.
Defined.

(** X9 on the sample run and the same series under a configuration with
    [lookbackPeriod.candles = 50] and another date range. *)
Lemma scan_reads_four_settings_witness :
  readAlike Sample.longRun MoreSample.otherRun /\
  legendCandles MoreSample.otherRun = legendCandles Sample.longRun /\
  runConfig MoreSample.otherRun <> runConfig Sample.longRun /\
  returnedOf (findThresholds Sample.showTime MoreSample.otherRun)
  = returnedOf (findThresholds Sample.showTime Sample.longRun).
Proof.
  assert (Hr : readAlike Sample.longRun MoreSample.otherRun)
    by (repeat split; vm_compute; reflexivity).
  assert (Hl : legendCandles MoreSample.otherRun
               = legendCandles Sample.longRun) by (vm_compute; reflexivity).
  split; [exact Hr|]. split; [exact Hl|].
  split; [vm_compute; discriminate|].
  exact (scan_reads_four_settings Sample.showTime Sample.longRun
           MoreSample.otherRun Hr Hl).
Defined.

(** ** The data fetcher *)

Lemma append_assoc (a b c : string) :
  ((a ++ b) ++ c = a ++ (b ++ c))%string.
Proof. induction a as [|ch a IH]; simpl; [reflexivity | now rewrite IH]. Qed.

Lemma hasChar_append (ch : ascii) (a b : string) :
  hasChar ch (a ++ b) = hasChar ch a || hasChar ch b.
Proof.
  induction a as [|c a IH]; simpl; [reflexivity|].
  rewrite IH. apply orb_assoc.
Qed.

Lemma splitOn_without (sep : ascii) (a : string) :
  hasChar sep a = false -> splitOn sep a = [a].
Proof.
  induction a as [|c a IH]; simpl; intros Hno; [reflexivity|].
  apply orb_false_iff in Hno. destruct Hno as [Hc Ha].
  rewrite Hc, (IH Ha). reflexivity.
Qed.

Lemma splitOn_first (sep : ascii) (a rest : string) :
  hasChar sep a = false ->
  splitOn sep (a ++ String sep rest) = a :: splitOn sep rest.
Proof.
  induction a as [|c a IH]; simpl; intros Hno.
  - rewrite Ascii.eqb_refl. reflexivity.
  - apply orb_false_iff in Hno. destruct Hno as [Hc Ha].
    rewrite Hc, (IH Ha). reflexivity.
Qed.

Ltac eval_digit :=
  match goal with
  | |- context [digitValue ?ch] =>
      let v := eval vm_compute in (digitValue ch) in
      change (digitValue ch) with v
  end.

Lemma parseDigits_uint (d : Decimal.uint) (a : nat) :
  parseDigits digitValue 10 (NilEmpty.string_of_uint d) (Some a)
  = Some (Nat.of_uint_acc d a).
Proof.
  revert a. induction d; intros a;
    cbn [NilEmpty.string_of_uint parseDigits Nat.of_uint_acc];
    [reflexivity | ..];
    (eval_digit; cbv beta iota; rewrite IHd, Nat.tail_mul_spec;
     reflexivity).
Qed.

Lemma to_uint_not_Nil (n : nat) : Nat.to_uint n <> Decimal.Nil.
Proof.
  intros Hnil. pose proof (DecimalNat.Unsigned.of_to n) as Hn.
  rewrite Hnil in Hn. cbn in Hn. subst n. discriminate Hnil.
Qed.

Lemma hasChar_dash_uint (d : Decimal.uint) :
  hasChar "-" (NilEmpty.string_of_uint d) = false.
Proof. induction d; cbn; trivial. Qed.

(** Printing a natural number and reading it back. *)
Lemma parseInt_digits (ch : ascii) (k : nat) (s : string) :
  digitValue ch = Some k ->
  match s with
  | String "x" _ | String "X" _ => False
  | _ => True
  end ->
  parseInt (String ch s)
  = match parseDigits digitValue 10 s (Some k) with
    | Some n => Some (Z.of_nat n)
    | None => None
    end.
Proof.
  intros Hd Hx.
  assert (Hws : isWhiteSpace ch = false).
  { revert Hd. unfold digitValue, isWhiteSpace.
    destruct (Nat.leb_spec 48 (nat_of_ascii ch)); [|discriminate].
    intros _. destruct (Nat.leb_spec (nat_of_ascii ch) 13); [lia|].
    rewrite andb_false_r. apply Nat.eqb_neq. lia. }
  assert (Hminus : ch <> "-"%char) by (intros ->; discriminate Hd).
  assert (Hplus : ch <> "+"%char) by (intros ->; discriminate Hd).
  unfold parseInt. cbn [trimStart]. rewrite Hws.
  assert (Hsign :
    match String ch s with
    | String "-" rest => (true, rest)
    | String "+" rest => (false, rest)
    | _ => (false, String ch s)
    end = (false, String ch s)).
  { destruct ch as [[|] [|] [|] [|] [|] [|] [|] [|]]; try reflexivity;
      congruence. }
  rewrite Hsign.
  assert (Hhex :
    match String ch s with
    | String "0" (String "x" rest) | String "0" (String "X" rest) =>
        parseDigits hexValue 16 rest None
    | _ => parseDigits digitValue 10 (String ch s) None
    end = parseDigits digitValue 10 (String ch s) None).
  { destruct ch as [[|] [|] [|] [|] [|] [|] [|] [|]]; try reflexivity.
    destruct s as [|c s']; [reflexivity|].
    destruct c as [[|] [|] [|] [|] [|] [|] [|] [|]]; try reflexivity;
      contradiction. }
  rewrite Hhex. cbn [parseDigits]. rewrite Hd.
  rewrite Nat.mul_0_r, Nat.add_0_r. reflexivity.
Qed.

Lemma uint_first_not_x (d : Decimal.uint) :
  match NilEmpty.string_of_uint d with
  | String "x" _ | String "X" _ => False
  | _ => True
  end.
Proof. destruct d; exact I. Qed.

(** Printing a natural number and reading it back. *)
Lemma parseInt_showNat (n : nat) : parseInt (showNat n) = Some (Z.of_nat n).
Proof.
  unfold showNat. pose proof (to_uint_not_Nil n) as Hnil.
  pose proof (DecimalNat.Unsigned.of_to n) as Hn. unfold Nat.of_uint in Hn.
  destruct (Nat.to_uint n) as [|d|d|d|d|d|d|d|d|d|d]; [contradiction | ..];
    cbn [NilEmpty.string_of_uint];
    (erewrite parseInt_digits;
     [| vm_compute; reflexivity | apply uint_first_not_x];
     rewrite parseDigits_uint;
     cbn [Nat.of_uint_acc] in Hn;
     rewrite Nat.tail_mul_spec, Nat.mul_0_r in Hn;
     rewrite Hn; reflexivity).
Qed.

Lemma month_part (k : Z) :
  (0 <= k < 12)%Z ->
  parseInt (padStart2 (showInt (k + 1)) ++ ".zip") = Some (k + 1)%Z /\
  hasChar "-" (padStart2 (showInt (k + 1)) ++ ".zip") = false.
Proof.
  intros Hk.
  assert (Hcases : (k = 0 \/ k = 1 \/ k = 2 \/ k = 3 \/ k = 4 \/ k = 5 \/
                    k = 6 \/ k = 7 \/ k = 8 \/ k = 9 \/ k = 10 \/ k = 11)%Z)
    by lia.
  repeat (destruct Hcases as [-> | Hcases];
          [split; vm_compute; reflexivity|]).
  subst k. split; vm_compute; reflexivity.
Qed.

Lemma year_part (y : Z) :
  (0 <= y)%Z ->
  parseInt (showInt y) = Some y /\ hasChar "-" (showInt y) = false.
Proof.
  intros Hy. unfold showInt.
  destruct (Z.ltb_spec y 0); [lia|]. split.
  - rewrite parseInt_showNat. f_equal. lia.
  - apply hasChar_dash_uint.
Qed.

Lemma required_file_round_trip_url (f : DataFetcher) (n : Z) :
  hasChar "-" (f_symbol f) = false ->
  hasChar "-" (f_timeframe f) = false ->
  (0 <= n)%Z ->
  urlOfRequired f (monthFilename f n ++ ".zip") = monthUrl f n /\
  splitOn "-" (monthFilename f n ++ ".zip")
  = [f_symbol f; f_timeframe f; showInt (getFullYear n);
     (padStart2 (showInt (getMonth n + 1)) ++ ".zip")%string].
Proof.
  intros Hsym Htf Hn.
  assert (Hy : (0 <= getFullYear n)%Z)
    by (unfold getFullYear; apply Z.div_pos; lia).
  assert (Hm : (0 <= getMonth n < 12)%Z)
    by (unfold getMonth; apply Z.mod_pos_bound; lia).
  destruct (year_part _ Hy) as [Hpy Hdy].
  destruct (month_part _ Hm) as [Hpm Hdm].
  assert (Hsplit :
    splitOn "-" (monthFilename f n ++ ".zip")
    = [f_symbol f; f_timeframe f; showInt (getFullYear n);
       (padStart2 (showInt (getMonth n + 1)) ++ ".zip")%string]).
  { unfold monthFilename. rewrite !append_assoc.
    change ("-" ++ ?s)%string with (String "-" s).
    rewrite (splitOn_first "-" _ _ Hsym).
    change ("-" ++ ?s)%string with (String "-" s).
    rewrite (splitOn_first "-" _ _ Htf).
    change ("-" ++ ?s)%string with (String "-" s).
    rewrite (splitOn_first "-" _ _ Hdy).
    rewrite (splitOn_without "-" _ Hdm). reflexivity. }
  split; [|exact Hsplit].
  unfold urlOfRequired. rewrite Hsplit. cbn [nth_error].
  rewrite Hpy, Hpm. reflexivity.
Qed.

(** X10: the name of a required file is taken apart again to build its
    URL, and this round trip is sound when neither the symbol nor the
    timeframe contains a dash and the year is not negative: splitting the
    name at the dashes gives back symbol, timeframe, year and month,
    [parseInt] reads the year and the month that were printed, and the
    URL asked for is the one of that month's archive. *)
Theorem required_file_url_round_trip (f : DataFetcher) (n : Z) :
  hasChar "-" (f_symbol f) = false ->
  hasChar "-" (f_timeframe f) = false ->
  (0 <= n)%Z ->
  splitOn "-" (monthFilename f n ++ ".zip")
  = [f_symbol f; f_timeframe f; showInt (getFullYear n);
     (padStart2 (showInt (getMonth n + 1)) ++ ".zip")%string] /\
  parseInt (showInt (getFullYear n)) = Some (getFullYear n) /\
  parseInt (padStart2 (showInt (getMonth n + 1)) ++ ".zip")
  = Some (getMonth n + 1)%Z /\
  urlOfRequired f (monthFilename f n ++ ".zip") = monthUrl f n.
Proof.
  intros Hsym Htf Hn.
  assert (Hy : (0 <= getFullYear n)%Z)
    by (unfold getFullYear; apply Z.div_pos; lia).
  assert (Hm : (0 <= getMonth n < 12)%Z)
    by (unfold getMonth; apply Z.mod_pos_bound; lia).
  destruct (required_file_round_trip_url f n Hsym Htf Hn) as [Hurl Hsplit].
  split; [exact Hsplit|]. split; [apply (year_part _ Hy)|].
  split; [apply (month_part _ Hm) | exact Hurl].
Qed.

Lemma monthsFrom_lower (a : Z) (count : nat) (n : Z) :
  In n (monthsFrom a count) -> (a <= n)%Z.
Proof.
  revert a. induction count as [|count IH]; intros a; simpl; [tauto|].
  intros [<- | Hin]; [lia|]. apply IH in Hin. lia.
Qed.

Lemma downloadAll_spec (f : DataFetcher)
    (download : string -> string -> res unit) (months : list Z) :
  Forall (fun n => urlOfRequired f (monthFilename f n ++ ".zip")
                   = monthUrl f n) months ->
  let names := map (fun n => (monthFilename f n ++ ".zip")%string) months in
  let fetched n := download (monthUrl f n) (monthFilename f n ++ ".zip")%string in
  (downloadAll f download names = (Ok tt, map (monthUrl f) months) /\
   Forall (fun n => fetched n = Ok tt) months) \/
  (exists before n after msg,
      months = before ++ n :: after /\
      Forall (fun k => fetched k = Ok tt) before /\
      fetched n = Throw msg /\
      downloadAll f download names
      = (Throw msg, map (monthUrl f) (before ++ [n]))).
Proof.
  intros Hurl names fetched. subst names.
  induction months as [|n months IH]; cbn [map downloadAll].
  - left. split; [reflexivity | constructor].
  - inversion Hurl as [|? ? Hn Hrest]; subst. rewrite Hn.
    destruct (download (monthUrl f n) (monthFilename f n ++ ".zip")%string)
      as [[]|msg] eqn:Ed.
    + destruct (IH Hrest) as [[Hall Hok]
                             | (before & k & after & msg & -> & Hok & Hk & Hall)];
        rewrite Hall.
      * left. split; [reflexivity|]. constructor; assumption.
      * right. exists (n :: before), k, after, msg.
        split; [reflexivity|]. split; [constructor; assumption|].
        split; [exact Hk | reflexivity].
    + right. exists [], n, months, msg.
      split; [reflexivity|]. split; [constructor|].
      split; [exact Ed | reflexivity].
Qed.

(** X11: [fetchHistoricalData] asks for the archives of exactly the months
    of the range whose CSV file is missing, in chronological order, and
    stops at the first request that fails, raising its exception. It asks
    for nothing when no file is missing, as when the range is empty. This
    needs a symbol and a timeframe without dash and a start year that is
    not negative. *)
Theorem fetch_requests_missing_months (f : DataFetcher) (nowMonth : Z)
    (csvExists : string -> bool) (download : string -> string -> res unit) :
  hasChar "-" (f_symbol f) = false ->
  hasChar "-" (f_timeframe f) = false ->
  (0 <= fst (fetchRange (f_dataFetch f) nowMonth))%Z ->
  let missing := missingMonths f nowMonth csvExists in
  let fetched n := download (monthUrl f n) (monthFilename f n ++ ".zip")%string in
  (fetchHistoricalData f nowMonth csvExists download
   = (Ok tt, map (monthUrl f) missing) /\
   Forall (fun n => fetched n = Ok tt) missing) \/
  (exists before n after msg,
      missing = before ++ n :: after /\
      Forall (fun k => fetched k = Ok tt) before /\
      fetched n = Throw msg /\
      fetchHistoricalData f nowMonth csvExists download
      = (Throw msg, map (monthUrl f) (before ++ [n]))).
Proof.
  intros Hsym Htf Hstart missing fetched.
  assert (Hurl : Forall (fun n => urlOfRequired f (monthFilename f n ++ ".zip")
                                  = monthUrl f n) missing).
  { apply Forall_forall. intros n Hin.
    apply (required_file_round_trip_url f n Hsym Htf).
    subst missing. unfold missingMonths in Hin. apply filter_In in Hin.
    destruct Hin as [Hin _]. unfold visitedMonths in Hin.
    destruct (fetchRange (f_dataFetch f) nowMonth) as [first last].
    apply monthsFrom_lower in Hin. simpl in Hstart. lia. }
  pose proof (downloadAll_spec f download missing Hurl) as Hspec.
  cbv zeta in Hspec.
  unfold fetchHistoricalData, requiredFiles. fold (missingMonths f nowMonth csvExists).
  fold missing.
  destruct missing as [|n rest] eqn:Hmissing.
  - left. split; [reflexivity | constructor].
  - exact Hspec.
Qed.

(** ** The batch processor *)

Section BatchProperties.

Context {num : Type} `{JsNumber num}.
Variable formatTime : Z -> string.
Variable dateMillis : Z -> Z -> Z.
Variable pathJoin : string -> string -> string.
Variable readdir : string -> res (list string).
Variable readCsv : string -> Z * list (@CandleData num).

Lemma loadData_symbolInfo (st : @Backtester num) (now : Z) rows :
  symbolInfo (loadData dateMillis st now rows) = symbolInfo st.
Proof.
  pose proof (loadData_fold dateMillis st now rows st) as Hf.
  cbv zeta in Hf. apply Hf.
Qed.

Lemma loadAll_symbolInfo (files : list string) :
  forall st : @Backtester num,
    symbolInfo (loadAll dateMillis readCsv st files) = symbolInfo st.
Proof.
  unfold loadAll. induction files as [|file files IH]; intros st; simpl.
  - reflexivity.
  - rewrite IH. apply loadData_symbolInfo.
Qed.

(** Without symbol info the scan saves nothing, and it raises one of the
    two missing-symbol-info errors unless it is short-circuited. *)
Lemma scan_without_symbolInfo (st : @Backtester num) :
  symbolInfo st = None ->
  match findThresholds formatTime st with
  | (Ok out, _) =>
      lessThan (List.length (candles st)) (getLookbackPeriod st) = true /\
      saved out = None
  | (Throw msg, _) =>
      lessThan (List.length (candles st)) (getLookbackPeriod st) = false /\
      isMissingSymbolInfo msg = true
  end.
Proof.
  intros Hnone.
  destruct (findThresholds formatTime st) as [[out|msg] st'] eqn:E.
  - apply findThresholds_Ok in E.
    destruct E as [(Hshort & -> & _)
                  | (_ & (_ & _ & Hsi & _) & _ & _ & _ & doc & _ & Hsave)].
    + split; [exact Hshort | reflexivity].
    + exfalso. unfold saveResults in Hsave. rewrite Hsi, Hnone in Hsave.
      discriminate.
  - apply findThresholds_throw in E.
    destruct E as (Hlong & [[(-> & _) | (_ & info & Hinfo & _)] | (-> & _)]).
    + split; [exact Hlong | reflexivity].
    + rewrite Hnone in Hinfo. discriminate.
    + split; [exact Hlong | reflexivity].
Qed.

(** X12: the batch processor never sets the symbol info, so its
    [runBacktest] never writes a results document. It ends normally, and
    marks the pair completed, only when the run is short-circuited, the
    loaded series being shorter than the lookback period; when the test
    [candles.length < lookbackPeriod] fails it raises a
    missing-symbol-info error and the pair is not marked. Without any
    CSV file it returns without marking, and a failing directory listing
    is raised as it is. *)
Theorem batch_backtest_needs_symbol_info (dirname sym tf : string)
    (completed : list string) :
  let step :=
    runBacktest formatTime dateMillis pathJoin readdir readCsv
      dirname sym tf completed in
  written step = None /\
  (forall msg, batchCsvFiles pathJoin readdir dirname sym tf = Throw msg ->
     outcome step = Throw msg /\ completedBacktests step = completed) /\
  (batchCsvFiles pathJoin readdir dirname sym tf = Ok [] ->
     outcome step = Ok tt /\ completedBacktests step = completed) /\
  (forall files,
     batchCsvFiles pathJoin readdir dirname sym tf = Ok files ->
     files <> [] ->
     let st :=
       loadAll dateMillis readCsv
         (newBacktester sym (withPair defaultConfig sym tf)) files in
     (lessThan (List.length (candles st)) (getLookbackPeriod st) = true ->
      outcome step = Ok tt /\
      completedBacktests step = setAdd (sym ++ "-" ++ tf)%string completed) /\
     (lessThan (List.length (candles st)) (getLookbackPeriod st) = false ->
      exists msg,
        outcome step = Throw msg /\ isMissingSymbolInfo msg = true /\
        completedBacktests step = completed)).
Proof.
  intros step. subst step. unfold runBacktest.
  destruct (batchCsvFiles pathJoin readdir dirname sym tf)
    as [[|file files]|msg0] eqn:Ef.
  - split; [reflexivity|]. split; [discriminate|].
    split; [intros _; split; reflexivity|].
    intros files Hf Hne. inversion Hf; subst. contradiction.
  - set (st := loadAll dateMillis readCsv
                 (newBacktester sym (withPair defaultConfig sym tf))
                 (file :: files)).
    assert (Hnone : symbolInfo st = None).
    { subst st. rewrite loadAll_symbolInfo. reflexivity. }
    pose proof (scan_without_symbolInfo st Hnone) as Hscan.
    destruct (findThresholds formatTime st) as [[out|msg] st'].
    + destruct Hscan as [Hshort Hsaved]. cbn [written outcome completedBacktests].
      split; [exact Hsaved|]. split; [discriminate|]. split; [discriminate|].
      intros files' Hf _. inversion Hf; subst files'. fold st. split.
      * intros _. split; reflexivity.
      * intros Hlong. rewrite Hshort in Hlong. discriminate.
    + destruct Hscan as [Hlong Hmsg]. cbn [written outcome completedBacktests].
      split; [reflexivity|]. split; [discriminate|]. split; [discriminate|].
      intros files' Hf _. inversion Hf; subst files'. fold st. split.
      * intros Hshort. rewrite Hlong in Hshort. discriminate.
      * intros _. exists msg. repeat split. exact Hmsg.
  - split; [reflexivity|]. split.
    + intros msg Hm. inversion Hm; subst. split; reflexivity.
    + split; [discriminate|]. intros files Hf. discriminate.
Qed.

(** X13: the summary that [generateSummaryReport] computes from a results
    document agrees with the statistics stored in that document, when
    the document is the one a completed run on a prepared engine saved:
    the same number of trades, of successful trades, and the same success
    rate. *)
Theorem summary_agrees_with_saved_stats (st : @Backtester num) out st' doc
    (sym tf : string) :
  Prepared dateMillis st ->
  findThresholds formatTime st = (Ok out, st') ->
  saved out = Some doc ->
  exists summary,
    generateSummaryReport (Document doc) (Ok tt) sym tf = Some summary /\
    total_trades summary = s_legendCandles (stats doc) /\
    successful_trades summary = s_successfulTrades (stats doc) /\
    success_rate summary = successRate (stats doc) /\
    sm_config summary = Some (runConfig st) /\
    sm_error summary = None.
Proof.
  intros Hprep E Hdoc.
  destruct (Prepared_inv _ _ Hprep) as (Hl0 & Hs0 & _).
  destruct (findThresholds_counts formatTime st out st' E) as (_ & Hl & Hs).
  rewrite Hl0 in Hl. rewrite Hs0 in Hs. simpl in Hl, Hs.
  apply findThresholds_Ok in E.
  destruct E as [(_ & -> & _) | (_ & Hsame & _ & _ & _ & doc' & Hdoc' & Hsave)];
    [discriminate|].
  rewrite Hdoc in Hdoc'. inversion Hdoc'; subst doc'.
  unfold saveResults in Hsave.
  destruct (symbolInfo st') as [info|]; [|discriminate].
  inversion Hsave; subst doc; clear Hsave.
  eexists. split; [reflexivity|].
  cbn [total_trades successful_trades success_rate sm_config sm_error
       results stats r_config getStats s_legendCandles s_successfulTrades
       successRate].
  fold (countSuccess (returned out)). rewrite Hl, Hs.
  destruct Hsame as (_ & _ & _ & _ & Hcfg). rewrite Hcfg.
  repeat split.
Qed.

End BatchProperties.

(** ** Batches *)

Lemma batchLoop_ends {A : Type} (limit : Z) :
  (1 <= limit)%Z ->
  forall (fuel : nat) (queue : list A),
    List.length queue <= fuel ->
    exists batches,
      batchLoop fuel limit queue = Some batches /\
      List.concat batches = queue /\
      Forall (fun b => 1 <= List.length b <= Z.to_nat limit) batches.
Proof.
  intros Hlimit. induction fuel as [|fuel IH]; intros queue Hlen.
  - destruct queue; [|simpl in Hlen; lia].
    exists []. repeat split. constructor.
  - destruct queue as [|x queue].
    + exists []. repeat split. constructor.
    + cbn [batchLoop splice0].
      set (q := x :: queue) in *.
      assert (Hfirst : 1 <= List.length (firstn (Z.to_nat limit) q)
                       <= Z.to_nat limit).
      { rewrite length_firstn. subst q. cbn [List.length]. lia. }
      destruct (IH (skipn (Z.to_nat limit) q)) as (batches & Hb & Hc & Hf).
      { rewrite length_skipn. subst q. cbn [List.length] in *. lia. }
      rewrite Hb. exists (firstn (Z.to_nat limit) q :: batches).
      split; [reflexivity|]. split.
      * simpl. rewrite Hc. apply firstn_skipn.
      * constructor; assumption.
Qed.

Lemma batchLoop_more_fuel {A : Type} (limit : Z) :
  forall (fuel : nat) (queue : list A) batches,
    batchLoop fuel limit queue = Some batches ->
    forall fuel', fuel <= fuel' -> batchLoop fuel' limit queue = Some batches.
Proof.
  induction fuel as [|fuel IH]; intros queue batches Hb fuel' Hle.
  - destruct queue; [|discriminate]. destruct fuel'; exact Hb.
  - destruct queue as [|x queue]; [destruct fuel'; exact Hb|].
    destruct fuel' as [|fuel']; [lia|].
    cbn [batchLoop splice0] in *.
    destruct (batchLoop fuel limit (skipn (Z.to_nat limit) (x :: queue)))
      as [rest|] eqn:Er; [|discriminate].
    rewrite (IH _ _ Er fuel') by lia. exact Hb.
Qed.

Lemma pairQueue_length (symbols timeframes : list string) :
  List.length (pairQueue symbols timeframes)
  = List.length symbols * List.length timeframes.
Proof.
  unfold pairQueue.
  induction symbols as [|s symbols IH]; simpl; [reflexivity|].
  rewrite length_app, length_map, IH. reflexivity.
Qed.


Lemma batchLoop_stuck {A : Type} (limit : Z) (queue : list A) :
  (limit <= 0)%Z -> queue <> [] ->
  forall fuel, batchLoop fuel limit queue = None.
Proof.
  intros Hlimit Hne fuel.
  assert (Hz : Z.to_nat limit = 0) by lia.
  induction fuel as [|fuel IH].
  - destruct queue; [contradiction | reflexivity].
  - destruct queue as [|x queue]; [contradiction|].
    cbn [batchLoop splice0]. rewrite Hz. cbn [firstn skipn].
    rewrite IH. reflexivity.
Qed.

(** X15: with a concurrency limit of zero or less and a queue that is not
    empty, [splice] removes nothing and the loop of the batch processor
    never ends, whatever the number of rounds. The [|| 5] of
    run-backtest.ts replaces a limit of zero by 5, with which the loop
    ends, and leaves a negative limit, with which it does not. *)
Theorem batch_loop_needs_positive_limit {A : Type} (limit : Z)
    (queue : list A) :
  (limit <= 0)%Z -> queue <> [] ->
  (forall fuel, batchLoop fuel limit queue = None) /\
  (limit = 0%Z ->
   exists batches,
     batchLoop (List.length queue) (limitOrFive limit) queue = Some batches /\
     List.concat batches = queue) /\
  ((limit < 0)%Z ->
   forall fuel, batchLoop fuel (limitOrFive limit) queue = None).
Proof.
  intros Hlimit Hne. split; [exact (batchLoop_stuck limit queue Hlimit Hne)|].
  split.
  - intros ->. cbn [limitOrFive Z.eqb].
    destruct (batchLoop_ends 5%Z ltac:(lia) (List.length queue) queue (le_n _))
      as (batches & Hb & Hc & _).
    exists batches. split; assumption.
  - intros Hneg fuel. unfold limitOrFive.
    destruct (limit =? 0)%Z eqn:E; [apply Z.eqb_eq in E; lia|].
    apply batchLoop_stuck; assumption.
Qed.

(** X10 on the archive of September 2024 of the sample fetcher. *)
Lemma required_file_url_round_trip_witness :
  urlOfRequired FetchSample.fetcher "ETHUSDT-1m-2024-09.zip"
  = "https://data.binance.vision/data/futures/um/monthly/klines/ETHUSDT/1m/ETHUSDT-1m-2024-09.zip".
Proof.
  assert (Hsym : hasChar "-" (f_symbol FetchSample.fetcher) = false)
    by (vm_compute; reflexivity).
  assert (Htf : hasChar "-" (f_timeframe FetchSample.fetcher) = false)
    by (vm_compute; reflexivity).
  assert (Hn : (0 <= 2024 * 12 + 8)%Z) by lia.
  pose proof (required_file_url_round_trip FetchSample.fetcher
                (2024 * 12 + 8)%Z Hsym Htf Hn) as (_ & _ & _ & Hurl).
  assert (Hname : (monthFilename FetchSample.fetcher (2024 * 12 + 8)
                   ++ ".zip")%string = "ETHUSDT-1m-2024-09.zip")
    by (vm_compute; reflexivity).
  assert (Hmonth : monthUrl FetchSample.fetcher (2024 * 12 + 8)
                   = "https://data.binance.vision/data/futures/um/monthly/klines/ETHUSDT/1m/ETHUSDT-1m-2024-09.zip")
    by (vm_compute; reflexivity).
  rewrite Hname, Hmonth in Hurl. exact Hurl.
Defined.

(** X11 on the sample fetcher: November and January are fetched, the
    request for February fails, December is never asked for. *)
Lemma fetch_requests_missing_months_witness :
  missingMonths FetchSample.fetcher 0 FetchSample.csvExists
  = [2024 * 12 + 10; 2025 * 12 + 0; 2025 * 12 + 1]%Z /\
  exists msg,
    fetchHistoricalData FetchSample.fetcher 0 FetchSample.csvExists
      FetchSample.download
    = (Throw msg,
       map (monthUrl FetchSample.fetcher)
           [2024 * 12 + 10; 2025 * 12 + 0; 2025 * 12 + 1]%Z).
Proof.
  assert (Hsym : hasChar "-" (f_symbol FetchSample.fetcher) = false)
    by (vm_compute; reflexivity).
  assert (Htf : hasChar "-" (f_timeframe FetchSample.fetcher) = false)
    by (vm_compute; reflexivity).
  assert (Hstart : (0 <= fst (fetchRange (f_dataFetch FetchSample.fetcher) 0))%Z)
    by (vm_compute; discriminate).
  assert (Hmissing : missingMonths FetchSample.fetcher 0 FetchSample.csvExists
                     = [2024 * 12 + 10; 2025 * 12 + 0; 2025 * 12 + 1]%Z)
    by (vm_compute; reflexivity).
  split; [exact Hmissing|].
  destruct (fetch_requests_missing_months FetchSample.fetcher 0
              FetchSample.csvExists FetchSample.download Hsym Htf Hstart)
    as [[_ Hall] | (before & n & after & msg & Hsplit & _ & _ & Hfetch)].
  - exfalso. rewrite Hmissing in Hall.
    inversion Hall as [|? ? _ Hrest]; subst.
    inversion Hrest as [|? ? _ Hrest']; subst.
    inversion Hrest' as [|? ? Hfeb _]; subst.
    vm_compute in Hfeb. discriminate Hfeb.
  - exists msg.
    assert (E0 : fetchHistoricalData FetchSample.fetcher 0
                   FetchSample.csvExists FetchSample.download
                 = (Throw "Request failed with status code 404",
                    map (monthUrl FetchSample.fetcher)
                      [2024 * 12 + 10; 2025 * 12 + 0; 2025 * 12 + 1]%Z))
      by (vm_compute; reflexivity).
    rewrite Hfetch in E0. injection E0 as Hm Hu.
    rewrite Hfetch, Hu. reflexivity.
Defined.

(** X12 on the sample directory: twelve daily candles reach the lookback
    period of ten, and the run ends with a missing-symbol-info error. *)
Lemma batch_backtest_needs_symbol_info_witness :
  exists msg,
    outcome (runBacktest Sample.showTime Sample.monthStart
               BatchSample.pathJoin BatchSample.readdir BatchSample.readCsv
               "/app/src" "ETHUSDT" "1d" [])
    = Throw msg /\
    isMissingSymbolInfo msg = true /\
    completedBacktests
      (runBacktest Sample.showTime Sample.monthStart
         BatchSample.pathJoin BatchSample.readdir BatchSample.readCsv
         "/app/src" "ETHUSDT" "1d" [])
    = [].
Proof.
  pose proof (batch_backtest_needs_symbol_info Sample.showTime
                Sample.monthStart BatchSample.pathJoin BatchSample.readdir
                BatchSample.readCsv "/app/src" "ETHUSDT" "1d" [])
    as (_ & _ & _ & Hfiles).
  assert (Hf : batchCsvFiles BatchSample.pathJoin BatchSample.readdir
                 "/app/src" "ETHUSDT" "1d"
               = Ok ["/app/src/../kline/ETHUSDT/1d/csv/ETHUSDT-1d-2024-09.csv"])
    by (vm_compute; reflexivity).
  destruct (Hfiles _ Hf ltac:(discriminate)) as [_ Hlong].
  apply Hlong. vm_compute. reflexivity.
Defined.

(** X13 on the sample run. *)
Lemma summary_agrees_with_saved_stats_witness :
  exists out st' doc summary,
    Prepared Sample.monthStart Sample.longRun /\
    findThresholds Sample.showTime Sample.longRun = (Ok out, st') /\
    saved out = Some doc /\
    generateSummaryReport (Document doc) (Ok tt) "ETHUSDT" "1d"
    = Some summary /\
    total_trades summary = s_legendCandles (stats doc) /\
    successful_trades summary = s_successfulTrades (stats doc) /\
    success_rate summary = successRate (stats doc).
Proof.
  assert (Hp : Prepared Sample.monthStart Sample.longRun)
    by apply engine_Prepared.
  destruct (findThresholds Sample.showTime Sample.longRun)
    as [[out|msg] st'] eqn:E.
  - destruct (saved out) as [doc|] eqn:Ed.
    + destruct (summary_agrees_with_saved_stats Sample.showTime
                  Sample.monthStart Sample.longRun out st' doc
                  "ETHUSDT" "1d" Hp E Ed)
        as (summary & Hs & Ht & Hsucc & Hrate & _).
      exists out, st', doc, summary. split; [exact Hp|].
      split; [reflexivity|]. split; [exact Ed|].
      split; [exact Hs|]. split; [exact Ht|]. split; [exact Hsucc | exact Hrate].
    + exfalso. vm_compute in E. inversion E as [[Ho Hst]].
      rewrite <- Ho in Ed. discriminate Ed.
  - exfalso. vm_compute in E. discriminate.
Defined.


(** X15 on the lists of config.ts with a limit of 0. *)
Lemma batch_loop_needs_positive_limit_witness :
  batchLoop 1000 0 (pairQueue AVAILABLE_SYMBOLS AVAILABLE_TIMEFRAMES) = None.
Proof.
  assert (Hlimit : (0 <= 0)%Z) by lia.
  assert (Hne : pairQueue AVAILABLE_SYMBOLS AVAILABLE_TIMEFRAMES <> [])
    by (vm_compute; discriminate).
  exact (proj1 (batch_loop_needs_positive_limit 0
                  (pairQueue AVAILABLE_SYMBOLS AVAILABLE_TIMEFRAMES)
                  Hlimit Hne) 1000).
Defined.
